(** * cloud-etl-pipeline: the ETL runner and its cleaning steps

    A shallow embedding of [src/extract/extract_data.py],
    [src/transform/transform_data.py], [src/pipeline.py] and [config.py],
    followed by the properties the specification states about them.

    Conventions.
    - A Python [str] is a [string]; a character is a code point below 256,
      classified as CPython classifies it ([str.isspace], [str.isalnum],
      [str.isupper], [str.lower]).
    - A raised exception is a value [Raise e] of [outcome]; [try]/[except]
      is a [match] on it.  Only instances of [Exception] are modelled: the
      handlers of [process_file] catch nothing else.
    - [pandas] operations are modelled from their documented behaviour, on
      a column-oriented table whose labels may repeat, as in pandas.  What
      pandas decides from the data itself is a parameter of the model:
      how [pd.to_numeric] reads a column, and the names and the typed
      values [read_csv] gives the columns. *)

From Stdlib Require Import List String Ascii Bool Arith NArith ZArith Lia.
From Stdlib Require Import Sorting.Mergesort Sorting.Sorted Sorting.Permutation.
From Stdlib Require Import Orders.
Import ListNotations.
Local Open Scope string_scope.
Local Open Scope list_scope.

(** ** Python string primitives *)

Module PyStr.

Definition code (c : ascii) : N := N_of_ascii c.

Definition between (lo hi : N) (c : ascii) : bool :=
  (N.leb lo (code c) && N.leb (code c) hi)%bool.

Definition at_code (n : N) (c : ascii) : bool := N.eqb (code c) n.

(** [str.isspace]: TAB..CR, FS..US, SPACE, NEL and NBSP. *)
Definition isspace (c : ascii) : bool :=
  between 9 13 c || between 28 32 c || at_code 133 c || at_code 160 c.

(** [str.isupper] on one character: A-Z and the upper-case letters of
    the Latin-1 supplement. *)
Definition isupper (c : ascii) : bool :=
  between 65 90 c || between 192 214 c || between 216 222 c.

(** [str.isalnum]: letters, decimal digits and the other numeric
    characters (superscripts and vulgar fractions). *)
Definition isalnum (c : ascii) : bool :=
  between 48 57 c || between 65 90 c || between 97 122 c
  || at_code 170 c || at_code 178 c || at_code 179 c || at_code 181 c
  || at_code 185 c || at_code 186 c
  || between 188 190 c
  || between 192 214 c || between 216 246 c || between 248 255 c.

Definition tolower (c : ascii) : ascii :=
  if isupper c then ascii_of_N (code c + 32) else c.

(** [s.lower()] *)
Definition lower (s : list ascii) : list ascii := map tolower s.

Fixpoint lstrip (p : ascii -> bool) (s : list ascii) : list ascii :=
  match s with
  | [] => []
  | c :: s' => if p c then lstrip p s' else s
  end.

Definition rstrip (p : ascii -> bool) (s : list ascii) : list ascii :=
  rev (lstrip p (rev s)).

(** [s.strip()] removes whitespace, [s.strip(chars)] the characters of
    [chars], from both ends. *)
Definition strip_by (p : ascii -> bool) (s : list ascii) : list ascii :=
  rstrip p (lstrip p s).

Definition strip (s : list ascii) : list ascii := strip_by isspace s.

Definition mem (chars : list ascii) (c : ascii) : bool :=
  existsb (Ascii.eqb c) chars.

Definition strip_chars (chars : list ascii) (s : list ascii) : list ascii :=
  strip_by (mem chars) s.

(** [s.replace(a, b)] for one-character [a] and [b]. *)
Definition replace (a b : ascii) (s : list ascii) : list ascii :=
  map (fun c => if Ascii.eqb c a then b else c) s.

End PyStr.

(** ** Exceptions and results *)

Inductive exn_class : Type :=
| ExtractionError
| TransformError
| LoadError
| OtherException (name : string).

Record exn : Type := mkExn { exn_type : exn_class; exn_msg : string }.

Inductive outcome (A : Type) : Type :=
| Ok (a : A)
| Raise (e : exn).
Arguments Ok {A} a.
Arguments Raise {A} e.

Definition bind {A B : Type} (r : outcome A) (k : A -> outcome B) : outcome B :=
  match r with
  | Ok a => k a
  | Raise e => Raise e
  end.

Notation "'let!' x ':=' r 'in' k" := (bind r (fun x => k))
  (at level 10, x pattern, r at level 100, k at level 200).

(** [try: body except Exception as e: raise cls(prefix + str(e))] *)
Definition reraise_as {A : Type} (cls : exn_class) (prefix : string)
    (r : outcome A) : outcome A :=
  match r with
  | Ok a => Ok a
  | Raise e => Raise (mkExn cls (prefix ++ exn_msg e))
  end.

(** ** Tables *)

Inductive cell : Type :=
| Null                    (* None / NaN *)
| Str (s : string)
| Num (z : Z)            (* a number whose value is an integer *)
| Float (repr : string). (* any other number, by its repr: a fraction *)

(** [object], or any other dtype. *)
Inductive dtype : Type := object | numeric.

Record Series : Type := mkSeries {
  label : string;
  kind : dtype;
  values : list cell
}.

(** A [DataFrame]: the length of its index and its columns in order. *)
Record DataFrame : Type := mkFrame {
  nrows : nat;
  columns : list Series
}.

(** A Python value that reaches [transform] or [len]: a [DataFrame], or
    something else, with or without [__len__]. *)
Inductive pyobj : Type :=
| PyFrame (df : DataFrame)
| PyOther (size : option nat).

Definition cell_eqb (a b : cell) : bool :=
  match a, b with
  | Null, Null => true
  | Str s, Str t => String.eqb s t
  | Num x, Num y => Z.eqb x y
  | Float x, Float y => String.eqb x y
  | _, _ => false
  end.

Definition isnull (c : cell) : bool :=
  match c with Null => true | _ => false end.

Definition dtype_eqb (a b : dtype) : bool :=
  match a, b with
  | object, object | numeric, numeric => true
  | _, _ => false
  end.

Module Pandas.

(** Row [i] of the table, one cell per column. *)
Definition row (df : DataFrame) (i : nat) : list cell :=
  map (fun s => nth i (values s) Null) (columns df).

Fixpoint select {A : Type} (mask : list bool) (l : list A) : list A :=
  match mask, l with
  | b :: mask', x :: l' => if b then x :: select mask' l' else select mask' l'
  | _, _ => []
  end.

(** Keep the rows whose mask is [true]. *)
Definition take (mask : list bool) (df : DataFrame) : DataFrame :=
  mkFrame (List.length (filter (fun b => b) mask))
          (map (fun s => mkSeries (label s) (kind s) (select mask (values s)))
               (columns df)).

Definition rows (df : DataFrame) : list (list cell) :=
  map (row df) (seq 0 (nrows df)).

(** [df.dropna(how='all')] and [df.dropna(how='any')] *)
Definition dropna_all (df : DataFrame) : DataFrame :=
  take (map (fun r => negb (forallb isnull r)) (rows df)) df.

Definition dropna_any (df : DataFrame) : DataFrame :=
  take (map (fun r => negb (existsb isnull r)) (rows df)) df.

Fixpoint list_eqb (a b : list cell) : bool :=
  match a, b with
  | [], [] => true
  | x :: a', y :: b' => cell_eqb x y && list_eqb a' b'
  | _, _ => false
  end.

(** Mask of the rows that do not repeat an earlier row. *)
Fixpoint first_occurrences (seen rs : list (list cell)) : list bool :=
  match rs with
  | [] => []
  | r :: rs' =>
      if existsb (list_eqb r) seen then false :: first_occurrences seen rs'
      else true :: first_occurrences (r :: seen) rs'
  end.

(** [df.empty]: no row or no column. *)
Definition empty (df : DataFrame) : bool :=
  Nat.eqb (nrows df) 0 || match columns df with [] => true | _ => false end.

(** [df.drop_duplicates(subset=None, keep='first')]: an empty frame is
    returned as it is. *)
Definition drop_duplicates (df : DataFrame) : DataFrame :=
  if empty df then df else take (first_occurrences [] (rows df)) df.

(** [df[col]]: the column when the label occurs once, a two-dimensional
    selection when it is repeated, [KeyError] when it is absent. *)
Inductive selection : Type :=
| OneColumn (s : Series)
| SubFrame (cols : list Series).

Definition getitem (df : DataFrame) (col : string) : outcome selection :=
  match filter (fun s => String.eqb (label s) col) (columns df) with
  | [] => Raise (mkExn (OtherException "KeyError") col)
  | [s] => Ok (OneColumn s)
  | cols => Ok (SubFrame cols)
  end.

(** [df[col] = s]: replaces the column labelled [col]. *)
Definition setitem (df : DataFrame) (col : string) (s : Series) : DataFrame :=
  mkFrame (nrows df)
          (map (fun c => if String.eqb (label c) col
                         then mkSeries (label c) (kind s) (values s) else c)
               (columns df)).

(** [df.select_dtypes(include=['object']).columns] *)
Definition object_columns (df : DataFrame) : list string :=
  map label (filter (fun s => dtype_eqb (kind s) object) (columns df)).

Section ToNumeric.

(** [pd.to_numeric] on the values of a column, with the default
    [errors='raise']: the values it returns, or the exception it
    raises ([ValueError] for a text that does not read as a number).
    What reads as a number, and as which, is left to pandas. *)
Variable numeric_values : list cell -> outcome (list cell).

(** [pd.to_numeric(arg)]: [TypeError] when [arg] is two-dimensional. *)
Definition to_numeric (arg : selection) : outcome Series :=
  match arg with
  | OneColumn s =>
      let! vs := numeric_values (values s) in
      Ok (mkSeries (label s) numeric vs)
  | SubFrame _ =>
      Raise (mkExn (OtherException "TypeError")
                   "arg must be a list, tuple, 1-d array, or Series")
  end.

End ToNumeric.

End Pandas.

(** ** [src/transform/transform_data.py] *)

Module Transform.

(** One column name through the body of the loop of [normalize_columns]. *)
Definition keep (c : ascii) : bool :=
  PyStr.isalnum c || Ascii.eqb c "_".

Definition normalize_name (col : string) : string :=
  let new_col := PyStr.lower (PyStr.strip (list_ascii_of_string col)) in
  let new_col := PyStr.replace "-" "_" (PyStr.replace " " "_" new_col) in
  let new_col := filter keep new_col in
  string_of_list_ascii (PyStr.strip_chars ["_"%char] new_col).

Definition normalize_columns (df : DataFrame) : outcome DataFrame :=
  reraise_as TransformError "Column normalization failed: "
    (Ok (mkFrame (nrows df)
           (map (fun s => mkSeries (normalize_name (label s)) (kind s) (values s))
                (columns df)))).

Definition remove_duplicates (df : DataFrame) : outcome (DataFrame * nat) :=
  let initial := nrows df in
  reraise_as TransformError "Duplicate removal failed: "
    (let df := Pandas.drop_duplicates df in
     Ok (df, initial - nrows df)).

Section Steps.

(** [pd.to_numeric] on the values of a column, and
    [df[numeric].fillna(df[numeric].mean())], whose floating-point
    mean is left to pandas. *)
Variable numeric_values : list cell -> outcome (list cell).
Variable fillna_mean : DataFrame -> DataFrame.

Definition handle_missing_values (df : DataFrame) (strategy : string)
    : outcome (DataFrame * nat) :=
  let initial := nrows df in
  reraise_as TransformError "Missing value handling failed: "
    (let df :=
       if String.eqb strategy "drop_all" then Pandas.dropna_all df
       else if String.eqb strategy "drop_any" then Pandas.dropna_any df
       else if String.eqb strategy "fill_mean" then fillna_mean df
       else df in
     Ok (df, initial - nrows df)).

(** [except (ValueError, TypeError)] *)
Definition value_or_type_error (e : exn) : bool :=
  match exn_type e with
  | OtherException name =>
      String.eqb name "ValueError" || String.eqb name "TypeError"
  | _ => false
  end.

(** The body of the loop of [convert_dtypes] for one label. *)
Definition convert_column (st : DataFrame * nat) (col : string)
    : outcome (DataFrame * nat) :=
  let (df, conversions) := st in
  match (let! sel := Pandas.getitem df col in
         Pandas.to_numeric numeric_values sel) with
  | Ok s => Ok (Pandas.setitem df col s, S conversions)
  | Raise e => if value_or_type_error e then Ok (df, conversions) else Raise e
  end.

Fixpoint convert_loop (cols : list string) (st : DataFrame * nat)
    : outcome (DataFrame * nat) :=
  match cols with
  | [] => Ok st
  | col :: cols' => let! st' := convert_column st col in convert_loop cols' st'
  end.

Definition convert_dtypes (df : DataFrame) : outcome (DataFrame * nat) :=
  reraise_as TransformError "Type conversion failed: "
    (convert_loop (Pandas.object_columns df) (df, 0)).

(** The handlers of [transform]: a [TransformError] passes through,
    any other exception is wrapped into one. *)
Definition transform_handlers {A : Type} (r : outcome A) : outcome A :=
  match r with
  | Ok a => Ok a
  | Raise e =>
      match exn_type e with
      | TransformError => Raise e
      | _ => Raise (mkExn TransformError
                      ("Unexpected transformation error: " ++ exn_msg e))
      end
  end.

Definition truthy (s : string) : bool :=
  match s with EmptyString => false | _ => true end.

Definition transform (df : pyobj) (normalize_cols remove_dups : bool)
    (handle_missing : string) (convert_types : bool) : outcome DataFrame :=
  transform_handlers
    match df with
    | PyOther _ => Raise (mkExn TransformError "Expected DataFrame, got other")
    | PyFrame df =>
        let! df := (if normalize_cols then normalize_columns df else Ok df) in
        let! df := (if truthy handle_missing
                    then let! r := handle_missing_values df handle_missing in
                         Ok (fst r)
                    else Ok df) in
        let! df := (if remove_dups
                    then let! r := remove_duplicates df in Ok (fst r)
                    else Ok df) in
        let! df := (if convert_types
                    then let! r := convert_dtypes df in Ok (fst r)
                    else Ok df) in
        Ok df
    end.

End Steps.

End Transform.

(** ** [config.py] *)

(** pandas' [on_bad_lines]: what [read_csv] does with a line that has too
    many fields. *)
Inductive bad_lines : Type := warn | skip | error.

Module Config.

Record t : Type := mk {
  EXTRACT_ENCODING : string;
  EXTRACT_ON_BAD_LINES : bad_lines;
  EXTRACT_MAX_FILE_SIZE_MB : nat;
  PIPELINE_MAX_RETRIES : nat
}.

(** The values the repository ships. *)
Definition shipped : t := mk "utf-8" warn 500 3.

Definition with_bad_lines (p : bad_lines) (c : t) : t :=
  mk (EXTRACT_ENCODING c) p (EXTRACT_MAX_FILE_SIZE_MB c) (PIPELINE_MAX_RETRIES c).

End Config.

(** ** [src/extract/extract_data.py] *)

Module Extract.

(** A path as the extractor sees it: what [exists], [is_file] and
    [stat] answer, whether the bytes decode, what else reading raises
    (a [ParserError] for a quote that is never closed, an [OSError]),
    and the delimited content as the tokenizer splits it: the fields
    of the header line, then those of each data line, blank lines left
    out. *)
Record SourceFile : Type := mkFile {
  path_exists : bool;
  is_file : bool;
  st_size : N;
  decodes : bool;
  read_error : option exn;
  header : list string;
  lines : list (list string)
}.

Definition extraction_error {A : Type} (msg : string) : outcome A :=
  Raise (mkExn ExtractionError msg).

Definition validate_file (f : SourceFile) : outcome unit :=
  if negb (path_exists f) then extraction_error "File not found"
  else if negb (is_file f) then extraction_error "Path is not a file"
  else if negb (N.ltb 0 (st_size f)) then extraction_error "File is empty"
  else Ok tt.

Section Reader.

(** What [read_csv] makes of the text it has split: the names it
    gives the columns of a header (it renames repeated and empty
    ones), the type and the values it gives column [j] of the rows
    (it takes a set of texts, the empty one among them, as missing
    values), and the number of rows its tokenizer reads in one pass,
    which it computes from the width of the table. *)
Variable column_names : list string -> list string.
Variable column_of : list (list string) -> nat -> dtype * list cell.
Variable buffer_lines : nat -> nat.

(** The tokenizer at the end of a data line.  The rows are asked
    for [size] at a time and tokenized in passes of at most [buffer]
    rows: [room] rows of the pass and [left] rows of the [size] are
    still to come.  [ex_fields] is the number of fields of the row
    before, and [opening] marks the line that opens a pass, as the
    line after the header does.  A line with more fields than the row
    before it is a bad line, unless it opens a pass; any other line
    is kept and, when shorter, filled up with empty fields.  The
    result is the rows kept and the number of lines reported as
    skipped. *)
Fixpoint read_lines (policy : bad_lines) (size buffer : nat)
    (opening : bool) (ex_fields room left : nat) (ls : list (list string))
    : outcome (list (list string) * nat) :=
  match ls with
  | [] => Ok ([], 0)
  | l :: ls' =>
      if negb opening && Nat.ltb ex_fields (List.length l) then
        match policy with
        | error => Raise (mkExn (OtherException "ParserError")
                                "Error tokenizing data")
        | warn => let! r := read_lines policy size buffer false ex_fields
                                       room left ls' in
                  Ok (fst r, S (snd r))
        | skip => read_lines policy size buffer false ex_fields
                             room left ls'
        end
      else
        let row := l ++ repeat "" (ex_fields - List.length l) in
        let! r := match room, left with
                  | S (S room'), S left' =>
                      read_lines policy size buffer false (List.length row)
                                 (S room') left' ls'
                  | _, S (S left') =>
                      read_lines policy size buffer true (List.length row)
                                 (Nat.min buffer (S left')) (S left') ls'
                  | _, _ =>
                      read_lines policy size buffer true (List.length row)
                                 (Nat.min buffer size) size ls'
                  end in
        Ok (row :: fst r, snd r)
  end.

(** The width of the table: the fields of the header, or those of
    the first data line when it has more. *)
Definition table_width (f : SourceFile) : nat :=
  Nat.max (List.length (header f)) (List.length (hd [] (lines f))).

(** The frame of the rows: one column per header field, after the
    [lead] leading columns, the fields the table has beyond the
    header.  [read_csv] takes these as the index, which no step of
    the pipeline reads (the frame is written with [index=False]). *)
Definition frame_of (names : list string) (lead : nat)
    (rows : list (list string)) : DataFrame :=
  mkFrame (List.length rows)
    (map (fun j => let (k, vs) := column_of rows (lead + j) in
                   mkSeries (nth j (column_names names) "") k vs)
         (seq 0 (List.length names))).

Definition leading_cols (f : SourceFile) : nat :=
  table_width f - List.length (header f).

Definition open_file (f : SourceFile) : outcome unit :=
  if negb (decodes f)
  then Raise (mkExn (OtherException "UnicodeDecodeError") "invalid start byte")
  else match read_error f with
       | Some e => Raise e
       | None =>
           match header f with
           | [] => Raise (mkExn (OtherException "EmptyDataError")
                                "No columns to parse from file")
           | _ => Ok tt
           end
       end.

(** [pd.read_csv(file_path, ..., on_bad_lines=policy)]: the rows are
    asked for as the buffer holds them. *)
Definition read_csv (f : SourceFile) (policy : bad_lines)
    : outcome (DataFrame * nat) :=
  let! _ := open_file f in
  let buffer := buffer_lines (table_width f) in
  let! r := read_lines policy buffer buffer true (List.length (header f))
                       buffer buffer (lines f) in
  Ok (frame_of (header f) (leading_cols f) (fst r), snd r).

Fixpoint chunks_of {A : Type} (fuel size : nat) (l : list A) : list (list A) :=
  match fuel, l with
  | S fuel', _ :: _ => firstn size l :: chunks_of fuel' size (skipn size l)
  | _, _ => []
  end.

(** [pd.read_csv(file_path, ..., chunksize=size, on_bad_lines=policy)],
    iterated to the end: frames of at most [size] rows; a file
    without data rows gives one empty frame. *)
Definition read_csv_chunks (f : SourceFile) (size : nat) (policy : bad_lines)
    : outcome (list DataFrame * nat) :=
  let! _ := open_file f in
  let buffer := buffer_lines (table_width f) in
  let! r := read_lines policy size buffer true (List.length (header f))
                       (Nat.min buffer size) size (lines f) in
  Ok (match fst r with
      | [] => [frame_of (header f) (leading_cols f) []]
      | rows => map (frame_of (header f) (leading_cols f))
                    (chunks_of (List.length rows) size rows)
      end, snd r).

Definition join_kind (a b : dtype) : dtype :=
  match a, b with numeric, numeric => numeric | _, _ => object end.

Fixpoint append_columns (a b : list Series) : list Series :=
  match a, b with
  | x :: a', y :: b' =>
      mkSeries (label x) (join_kind (kind x) (kind y)) (values x ++ values y)
      :: append_columns a' b'
  | _, _ => a
  end.

(** [pd.concat(chunks, ignore_index=True)] *)
Definition concat (chunks : list DataFrame) : outcome DataFrame :=
  match chunks with
  | [] => Raise (mkExn (OtherException "ValueError") "No objects to concatenate")
  | c :: cs =>
      Ok (fold_left (fun acc d => mkFrame (nrows acc + nrows d)
                                    (append_columns (columns acc) (columns d)))
                    cs c)
  end.

(** The handlers of [DataExtractor.extract_csv]. *)
Definition extract_handlers {A : Type} (r : outcome A) : outcome A :=
  match r with
  | Ok a => Ok a
  | Raise e =>
      match exn_type e with
      | ExtractionError => Raise e
      | OtherException name =>
          if String.eqb name "UnicodeDecodeError"
          then extraction_error ("Encoding error (utf-8): " ++ exn_msg e)
          else if String.eqb name "ParserError"
          then extraction_error ("CSV parse error: " ++ exn_msg e)
          else extraction_error ("Unexpected extraction error: " ++ exn_msg e)
      | _ => extraction_error ("Unexpected extraction error: " ++ exn_msg e)
      end
  end.

Definition fifty_mb : N := 50 * (1024 * 1024).

Definition chunked (chunksize : option nat) (f : SourceFile) : bool :=
  match chunksize with
  | Some (S _) => N.ltb fifty_mb (st_size f)
  | _ => false
  end.

(** [DataExtractor.extract_csv(file_path, chunksize=chunksize)]: the
    frame and the number of lines pandas reported as skipped. *)
Definition DataExtractor_extract_csv (f : SourceFile) (chunksize : option nat)
    : outcome (DataFrame * nat) :=
  extract_handlers
    (let! _ := validate_file f in
     if chunked chunksize f then
       let! r := read_csv_chunks f (match chunksize with Some n => n | None => 0 end)
                                 warn in
       let! df := concat (fst r) in
       Ok (df, snd r)
     else
       read_csv f warn).

(** The module-level [extract_csv(path, **kwargs)]. *)
Definition extract_csv (f : SourceFile) (chunksize : option nat)
    : outcome DataFrame :=
  let! r := DataExtractor_extract_csv f chunksize in Ok (fst r).

(** The reader as the specification words it: malformed rows are
    handled by the policy the configuration selects. *)
Definition spec_extract_csv (cfg : Config.t) (f : SourceFile)
    (chunksize : option nat) : outcome (DataFrame * nat) :=
  extract_handlers
    (let! _ := validate_file f in
     if chunked chunksize f then
       let! r := read_csv_chunks f (match chunksize with Some n => n | None => 0 end)
                                 (Config.EXTRACT_ON_BAD_LINES cfg) in
       let! df := concat (fst r) in
       Ok (df, snd r)
     else
       read_csv f (Config.EXTRACT_ON_BAD_LINES cfg)).

End Reader.

End Extract.

(** ** [src/pipeline.py] *)

(** [sorted(RAW_DIR.glob("*.csv"))]: paths of one directory compare by
    name, code point by code point. *)
Module PathOrder <: Orders.TotalLeBool.
Definition t : Type := string.
Definition leb : t -> t -> bool := String.leb.
Definition leb_total : forall x y, leb x y = true \/ leb y x = true :=
  String.leb_total.
End PathOrder.

Module PathSort := Mergesort.Sort PathOrder.

Module Pipeline.

Definition sorted (paths : list string) : list string := PathSort.sort paths.

Definition PROCESSED_DIR : string := "data/processed".

(** [name.rfind('.')] *)
Fixpoint rfind_dot (name : string) : option nat :=
  match name with
  | EmptyString => None
  | String c rest =>
      match rfind_dot rest with
      | Some i => Some (S i)
      | None => if Ascii.eqb c "." then Some 0 else None
      end
  end.

(** [csv_file.stem]: the name up to its last dot, when that dot is
    neither the first nor the last character. *)
Definition stem (name : string) : string :=
  match rfind_dot name with
  | Some i =>
      if Nat.ltb 0 i && Nat.ltb i (String.length name - 1)
      then substring 0 i name else name
  | None => name
  end.

Record PipelineStats : Type := mkStats {
  files_processed : nat;
  files_failed : nat;
  rows_extracted : nat;
  rows_transformed : nat;
  rows_loaded : nat;
  errors : list string
}.

(** [PipelineStats()] *)
Definition new_stats : PipelineStats := mkStats 0 0 0 0 0 [].

(** What the runner hands to the logger, in the order of the calls. *)
Inductive event : Type :=
| Started
| RawDirMissing
| NoCsvFiles
| Found (n : nat)
| Listed (name : string)
| Processing (name : string)
| Attempt (attempt max_retries : nat)
| Transforming
| Saving (out_file : string)
| Saved (n : nat)
| LoadingToDatabase
| LoadSkipped (msg : string)
| HostNotSet
| Succeeded (name : string)
| Retrying (attempt : nat) (msg : string)
| Failed (error_msg : string)
| Statistics (st : PipelineStats)
| Completed.

Record State : Type := mkState {
  stats : PipelineStats;
  log : list event
}.

(** The collaborators of the runner.  A call's outcome depends on when
    it is made: on the file being processed and on the attempt. *)
Record World : Type := mkWorld {
  raw_dir_exists : bool;
  glob_csv : list string;
  extract_csv : string -> nat -> outcome pyobj;
  transform : string -> nat -> pyobj -> outcome pyobj;
  to_csv : string -> nat -> pyobj -> string -> outcome unit;
  getenv_POSTGRES_HOST : string -> nat -> option string;
  load_df_to_postgres : string -> nat -> pyobj -> string -> outcome nat
}.

(** [len(x)] *)
Definition len (x : pyobj) : outcome nat :=
  match x with
  | PyFrame df => Ok (nrows df)
  | PyOther (Some n) => Ok n
  | PyOther None => Raise (mkExn (OtherException "TypeError") "object has no len()")
  end.

(** Statements that change [stats] and the log, and may raise; what was
    changed before a raise stays changed. *)
Definition M (A : Type) : Type := State -> outcome A * State.

Definition ret {A : Type} (a : A) : M A := fun s => (Ok a, s).

Definition call {A : Type} (r : outcome A) : M A := fun s => (r, s).

Definition seqM {A B : Type} (m : M A) (k : A -> M B) : M B :=
  fun s => match m s with
           | (Ok a, s') => k a s'
           | (Raise e, s') => (Raise e, s')
           end.

Notation "x <- m ;; k" := (seqM m (fun x => k))
  (at level 61, m at next level, right associativity).
Notation "m ;;; k" := (seqM m (fun _ => k))
  (at level 61, right associativity).

Definition emit (ev : event) (s : State) : State :=
  mkState (stats s) (log s ++ [ev]).

Definition info (ev : event) : M unit := fun s => (Ok tt, emit ev s).

Definition update (f : PipelineStats -> PipelineStats) : M unit :=
  fun s => (Ok tt, mkState (f (stats s)) (log s)).

Definition add_rows_extracted (n : nat) (st : PipelineStats) : PipelineStats :=
  mkStats (files_processed st) (files_failed st) (rows_extracted st + n)
          (rows_transformed st) (rows_loaded st) (errors st).

Definition add_rows_transformed (n : nat) (st : PipelineStats) : PipelineStats :=
  mkStats (files_processed st) (files_failed st) (rows_extracted st)
          (rows_transformed st + n) (rows_loaded st) (errors st).

Definition add_rows_loaded (n : nat) (st : PipelineStats) : PipelineStats :=
  mkStats (files_processed st) (files_failed st) (rows_extracted st)
          (rows_transformed st) (rows_loaded st + n) (errors st).

Definition add_file_processed (st : PipelineStats) : PipelineStats :=
  mkStats (files_processed st + 1) (files_failed st) (rows_extracted st)
          (rows_transformed st) (rows_loaded st) (errors st).

(** [stats.errors.append(error_msg); stats.files_failed += 1] *)
Definition add_file_failed (error_msg : string) (st : PipelineStats) : PipelineStats :=
  mkStats (files_processed st) (files_failed st + 1) (rows_extracted st)
          (rows_transformed st) (rows_loaded st) (errors st ++ [error_msg]).

Definition is_load_error (e : exn) : bool :=
  match exn_type e with LoadError => true | _ => false end.

(** [try: body except LoadError as e: handler(e)] *)
Definition try_except_LoadError (body : M unit) (handler : exn -> M unit) : M unit :=
  fun s => match body s with
           | (Raise e, s') => if is_load_error e then handler e s' else (Raise e, s')
           | r => r
           end.

Definition truthy (v : option string) : bool :=
  match v with
  | Some (String _ _) => true
  | _ => false
  end.

(** The body of the [try] of [process_file], lines 80 to 109. *)
Definition attempt_body (w : World) (csv_file : string)
    (attempt max_retries : nat) : M unit :=
  info (Attempt attempt max_retries) ;;;
  df <- call (extract_csv w csv_file attempt) ;;
  n <- call (len df) ;;
  update (add_rows_extracted n) ;;;
  info Transforming ;;;
  df_transformed <- call (transform w csv_file attempt df) ;;
  n_t <- call (len df_transformed) ;;
  update (add_rows_transformed n_t) ;;;
  let out_file := (PROCESSED_DIR ++ "/" ++ csv_file)%string in
  info (Saving out_file) ;;;
  call (to_csv w csv_file attempt df_transformed out_file) ;;;
  n_s <- call (len df_transformed) ;;
  info (Saved n_s) ;;;
  (if truthy (getenv_POSTGRES_HOST w csv_file attempt)
   then try_except_LoadError
          (info LoadingToDatabase ;;;
           loaded <- call (load_df_to_postgres w csv_file attempt
                             df_transformed (stem csv_file)) ;;
           update (add_rows_loaded loaded))
          (fun e => info (LoadSkipped (exn_msg e)))
   else info HostNotSet) ;;;
  info (Succeeded csv_file) ;;;
  update (add_file_processed).

(** [except (ExtractionError, TransformError, LoadError)] *)
Definition retryable (e : exn) : bool :=
  match exn_type e with
  | ExtractionError | TransformError | LoadError => true
  | OtherException _ => false
  end.

Definition fail_file (error_msg : string) (s : State) : State :=
  mkState (add_file_failed error_msg (stats s)) (log s ++ [Failed error_msg]).

(** The [for attempt in range(1, max_retries + 1)] loop with its two
    handlers; [attempts] is what is left of the range. *)
Fixpoint retry_loop (w : World) (csv_file : string) (max_retries : nat)
    (attempts : list nat) (s : State) : bool * State :=
  match attempts with
  | [] => (false, s)
  | attempt :: rest =>
      match attempt_body w csv_file attempt max_retries s with
      | (Ok _, s') => (true, s')
      | (Raise e, s') =>
          if retryable e then
            if Nat.ltb attempt max_retries then
              retry_loop w csv_file max_retries rest
                         (emit (Retrying attempt (exn_msg e)) s')
            else
              (false, fail_file (csv_file ++ ": " ++ exn_msg e) s')
          else
            (false, fail_file (csv_file ++ ": Unexpected error: " ++ exn_msg e) s')
      end
  end.

Definition process_file (w : World) (csv_file : string) (max_retries : nat)
    (s : State) : bool * State :=
  retry_loop w csv_file max_retries (seq 1 max_retries)
             (emit (Processing csv_file) s).

(** The default of the [max_retries] argument. *)
Definition default_max_retries : nat := 3.

(** [stats.log_stats()] *)
Definition log_stats (s : State) : State := emit (Statistics (stats s)) s.

(** [run()]; creating the processed directory is taken to succeed. *)
Definition run (w : World) : bool * State :=
  let s := emit Started (mkState new_stats []) in
  if negb (raw_dir_exists w) then (false, emit RawDirMissing s)
  else
    let csv_files := sorted (glob_csv w) in
    match csv_files with
    | [] => (true, emit NoCsvFiles s)
    | _ =>
        let s := emit (Found (List.length csv_files)) s in
        let s := fold_left (fun s f => emit (Listed f) s) csv_files s in
        let s := fold_left
                   (fun s csv_file =>
                      snd (process_file w csv_file default_max_retries s))
                   csv_files s in
        let s := emit Completed (log_stats s) in
        (Nat.eqb (files_failed (stats s)) 0, s)
    end.

(** *** Reading the log *)

(** The attempts the log records, in order. *)
Definition attempts_logged (l : list event) : list nat :=
  flat_map (fun ev => match ev with Attempt a _ => [a] | _ => [] end) l.

(** The files the log records as taken up, in order. *)
Definition files_taken_up (l : list event) : list string :=
  flat_map (fun ev => match ev with Processing f => [f] | _ => [] end) l.

(** The statistics reports the log holds, in order. *)
Definition reports (l : list event) : list PipelineStats :=
  flat_map (fun ev => match ev with Statistics st => [st] | _ => [] end) l.

End Pipeline.

(** ** Vocabulary of the properties *)

Module Names.

(** A lower-case alphanumeric: alphanumeric and not upper-case; below
    code point 128 these are [a-z] and [0-9]. *)
Definition lower_alnum (c : ascii) : bool :=
  PyStr.isalnum c && negb (PyStr.isupper c).

Definition allowed (c : ascii) : bool :=
  lower_alnum c || Ascii.eqb c "_".

Definition is_underscore (c : ascii) : bool := Ascii.eqb c "_".

Definition starts_with_underscore (s : list ascii) : bool :=
  match s with c :: _ => is_underscore c | [] => false end.

Definition ends_with_underscore (s : list ascii) : bool :=
  starts_with_underscore (rev s).

(** Only lower-case alphanumerics and underscores, no underscore at
    either end. *)
Definition normal (name : string) : bool :=
  let s := list_ascii_of_string name in
  forallb allowed s
  && negb (starts_with_underscore s) && negb (ends_with_underscore s).

(** *** Names of ASCII characters *)

Definition code_in (lo hi : N) (c : ascii) : bool :=
  N.leb lo (N_of_ascii c) && N.leb (N_of_ascii c) hi.

Definition ascii_char (c : ascii) : bool := N.ltb (N_of_ascii c) 128.

Definition ascii_name (name : string) : bool :=
  forallb ascii_char (list_ascii_of_string name).

Definition digit (c : ascii) : bool := code_in 48 57 c.
Definition small_letter (c : ascii) : bool := code_in 97 122 c.
Definition capital_letter (c : ascii) : bool := code_in 65 90 c.

Definition alphanumeric (c : ascii) : bool :=
  digit c || small_letter c || capital_letter c.

(** TAB, LF, VT, FF, CR, the four separators and the space. *)
Definition whitespace (c : ascii) : bool := code_in 9 13 c || code_in 28 32 c.

(** Only [a-z], [0-9] and underscores, no underscore at either end. *)
Definition snake_char (c : ascii) : bool :=
  small_letter c || digit c || is_underscore c.

Definition snake_case (name : string) : bool :=
  let s := list_ascii_of_string name in
  forallb snake_char s
  && negb (starts_with_underscore s) && negb (ends_with_underscore s).

Definition lower_case (c : ascii) : ascii :=
  if capital_letter c then ascii_of_N (N_of_ascii c + 32) else c.

Fixpoint drop_while (p : ascii -> bool) (s : list ascii) : list ascii :=
  match s with
  | [] => []
  | c :: s' => if p c then drop_while p s' else c :: s'
  end.

Definition trim (p : ascii -> bool) (s : list ascii) : list ascii :=
  rev (drop_while p (rev (drop_while p s))).

(** The procedure in the words of the specification: lower-case, trim
    surrounding whitespace, replace internal whitespace and hyphens by
    underscores, delete what is neither alphanumeric nor underscore,
    trim underscores. *)
Definition spec_normalize_name (col : string) : string :=
  let s := trim whitespace (map lower_case (list_ascii_of_string col)) in
  let s := map (fun c => if whitespace c || Ascii.eqb c "-"
                         then "_"%char else c) s in
  let s := filter (fun c => alphanumeric c || is_underscore c) s in
  string_of_list_ascii (trim is_underscore s).

(** The same procedure with the space character in the place of
    internal whitespace. *)
Definition space_normalize_name (col : string) : string :=
  let s := trim whitespace (map lower_case (list_ascii_of_string col)) in
  let s := map (fun c => if Ascii.eqb c " " || Ascii.eqb c "-"
                         then "_"%char else c) s in
  let s := filter (fun c => alphanumeric c || is_underscore c) s in
  string_of_list_ascii (trim is_underscore s).

Definition tab : string := String (ascii_of_nat 9) EmptyString.

(** A table whose only column has a tab inside its name. *)
Definition price_list : DataFrame :=
  mkFrame 1 [mkSeries ("Unit" ++ tab ++ "Price") numeric [Num 5]].

(** A table with spaces, a hyphen, brackets and capitals in its
    names. *)
Definition stock : DataFrame :=
  mkFrame 1 [mkSeries "  Unit Price-(USD) " numeric [Num 5];
             mkSeries "_Qty_2" numeric [Num 3]].

End Names.

Module Coercion.

(** How many columns of the table carry the label. *)
Definition label_count (df : DataFrame) (l : string) : nat :=
  List.length (filter (fun s => String.eqb (label s) l) (columns df)).

Section Convert.

Variable numeric_values : list cell -> outcome (list cell).


(** The column as [pd.to_numeric] returns it. *)
Definition as_numeric (s : Series) : Series :=
  match numeric_values (values s) with
  | Ok vs => mkSeries (label s) numeric vs
  | Raise _ => s
  end.

(** A column after the loop of [convert_dtypes] has run for the
    labels [cols]: converted when its label is among them, occurs
    once in the table and the column is accepted. *)
Definition coerce (df : DataFrame) (cols : list string) (s : Series)
    : Series :=
  if existsb (String.eqb (label s)) cols
     && Nat.eqb (label_count df (label s)) 1
  then as_numeric s else s.

(** [pd.to_numeric] raises nothing but [ValueError] and [TypeError]
    on the columns of the table. *)
Definition refusals_only (df : DataFrame) : Prop :=
  forall s e,
    In s (columns df) ->
    numeric_values (values s) = Raise e ->
    Transform.value_or_type_error e = true.

End Convert.

(** A reader of unsigned decimal numerals. *)
Definition digit (c : ascii) : option Z :=
  if PyStr.between 48 57 c then Some (Z.of_N (PyStr.code c) - 48)%Z else None.

Fixpoint decimal_from (acc : Z) (s : string) : option Z :=
  match s with
  | EmptyString => Some acc
  | String c s' =>
      match digit c with
      | Some d => decimal_from (10 * acc + d) s'
      | None => None
      end
  end.

Definition decimal (s : string) : option Z :=
  match s with
  | EmptyString => None
  | _ => decimal_from 0 s
  end.

(** [pd.to_numeric] for the examples, whose texts are unsigned decimal
    numerals, words and the empty text: a numeral is read as its
    number, the empty text as a missing value, a word is refused. *)
Definition numeral (c : cell) : option cell :=
  match c with
  | Str EmptyString => Some Null
  | Str t => option_map Num (decimal t)
  | _ => Some c
  end.

Fixpoint numerals (cs : list cell) : outcome (list cell) :=
  match cs with
  | [] => Ok []
  | c :: cs' =>
      match numeral c with
      | Some c' => let! r := numerals cs' in Ok (c' :: r)
      | None => Raise (mkExn (OtherException "ValueError")
                             "Unable to parse string")
      end
  end.

(** Two text columns whose labels differ only in case. *)
Definition quantities : DataFrame :=
  mkFrame 2 [mkSeries "Qty" object [Str "1"; Str "2"];
             mkSeries "qty" object [Str "3"; Str "4"]].


End Coercion.

Module Malformed.

(** The number of fields the reader expects in a data line: those of
    the header, or those of the first data line when it has more. *)
Definition expected (f : Extract.SourceFile) : nat :=
  Nat.max (List.length (Extract.header f))
          (List.length (hd [] (Extract.lines f))).

Definition too_long (f : Extract.SourceFile) (l : list string) : bool :=
  Nat.ltb (expected f) (List.length l).

(** The data lines the reader keeps: the first, and every later one
    that is not too long. *)
Definition kept (f : Extract.SourceFile) : list (list string) :=
  firstn 1 (Extract.lines f)
  ++ filter (fun l => negb (too_long f l)) (skipn 1 (Extract.lines f)).

(** The number of data lines it drops. *)
Definition skipped (f : Extract.SourceFile) : nat :=
  List.length (filter (too_long f) (skipn 1 (Extract.lines f))).

(** A line with the empty fields that complete it. *)
Definition completed (f : Extract.SourceFile) (l : list string)
    : list string :=
  l ++ repeat "" (expected f - List.length l).

(** The names the columns get: one per field of the header. *)
Definition labels (column_names : list string -> list string)
    (f : Extract.SourceFile) : list string :=
  map (fun j => nth j (column_names (Extract.header f)) "")
      (seq 0 (List.length (Extract.header f))).

(** A file that can be read: present, regular, not empty, decodable,
    with a header. *)
Definition readable (f : Extract.SourceFile) : bool :=
  Extract.path_exists f && Extract.is_file f && N.ltb 0 (Extract.st_size f)
  && Extract.decodes f
  && match Extract.header f with [] => false | _ => true end.

(** Reading raises nothing of its own. *)
Definition tokenizes (f : Extract.SourceFile) : bool :=
  match Extract.read_error f with None => true | Some _ => false end.

(** The tokenizer reads the data lines in one pass: they are no more
    than the reader buffers at a time, nor than one chunk holds. *)
Definition one_pass (buffer_lines : nat -> nat) (f : Extract.SourceFile)
    (chunksize : option nat) : Prop :=
  List.length (Extract.lines f)
  <= (if Extract.chunked chunksize f
      then Nat.min (buffer_lines (expected f))
                   (match chunksize with Some n => n | None => 0 end)
      else buffer_lines (expected f)).

(** *** Examples *)

(** [read_csv]'s typing for the examples, whose fields are unsigned
    decimal numerals, words and empty: a column of numerals and empty
    fields is numeric, any other a column of texts; an empty field is
    a missing value. *)
Definition field_cell (v : string) : cell :=
  match v with EmptyString => Null | _ => Str v end.

Definition typed (rows : list (list string)) (j : nat) : dtype * list cell :=
  let cells := map (fun r => field_cell (nth j r "")) rows in
  match Coercion.numerals cells with
  | Ok vs => (numeric, vs)
  | Raise _ => (object, cells)
  end.

(** [read_csv]'s naming for the examples, whose headers hold distinct
    names, none of them empty: the names are kept. *)
Definition named (names : list string) : list string := names.

(** The rows of a pass for the examples, whose tables are two or three
    fields wide. *)
Definition buffered (width : nat) : nat := 2 ^ 18.

(** Two columns; the second data line has a field too many, the third
    a field too few. *)
Definition invoices : Extract.SourceFile :=
  Extract.mkFile true true 36 true None ["id"; "amount"]
    [["1"; "20"]; ["2"; "30"; "9"]; ["3"]].

(** Two columns; the first data line has a field too many, the last
    two too many. *)
Definition receipts : Extract.SourceFile :=
  Extract.mkFile true true 40 true None ["id"; "amount"]
    [["7"; "1"; "20"]; ["2"; "30"]; ["3"; "40"; "50"; "60"]].

(** A quote that is never closed. *)
Definition unclosed : Extract.SourceFile :=
  Extract.mkFile true true 12 true
    (Some (mkExn (OtherException "ParserError")
                 "Error tokenizing data. C error: EOF inside string"))
    ["id"; "amount"] [].

(** The shipped configuration with the policy set to [error]. *)
Definition strict : Config.t := Config.with_bad_lines error Config.shipped.

End Malformed.

Module Runs.

Import Pipeline.

(** How attempt [j] on [csv_file] ends: normally, or with the exception
    that reaches the handlers of [process_file]. *)
Definition attempt_result (w : World) (csv_file : string) (j : nat)
    : outcome unit :=
  fst (attempt_body w csv_file j 0 (mkState new_stats [])).

Definition succeeds (w : World) (csv_file : string) (j : nat) : bool :=
  match attempt_result w csv_file j with Ok _ => true | Raise _ => false end.

(** The attempt ends with one of the three stage errors. *)
Definition fails_retryably (w : World) (csv_file : string) (j : nat) : bool :=
  match attempt_result w csv_file j with
  | Ok _ => false
  | Raise e => retryable e
  end.

(** The rows the attempt extracts, when extraction succeeds. *)
Definition rows_read (w : World) (csv_file : string) (j : nat) : option nat :=
  match extract_csv w csv_file j with
  | Ok df => match len df with Ok n => Some n | Raise _ => None end
  | Raise _ => None
  end.

Definition extracted (w : World) (csv_file : string) (j : nat) : nat :=
  match rows_read w csv_file j with Some n => n | None => 0 end.

(** The rows extracted by the attempts 1 to [k] together. *)
Definition extracted_through (w : World) (csv_file : string) (k : nat) : nat :=
  list_sum (map (extracted w csv_file) (seq 1 k)).

(** What one attempt, or a run of failed attempts, leaves behind. *)
Record effect (s s' : State) (attempts : list nat) (processed rows : nat)
    : Prop := mkEffect {
  effect_log : exists l, log s' = log s ++ l;
  effect_attempts : attempts_logged (log s') = attempts_logged (log s) ++ attempts;
  effect_files : files_taken_up (log s') = files_taken_up (log s);
  effect_reports : reports (log s') = reports (log s);
  effect_failed : files_failed (stats s') = files_failed (stats s);
  effect_errors : errors (stats s') = errors (stats s);
  effect_processed : files_processed (stats s') = files_processed (stats s) + processed;
  effect_rows : rows_extracted (stats s') = rows_extracted (stats s) + rows
}.

(** The call [transform(df, normalize_cols=True, handle_missing='drop_all')]
    of [process_file], on the repository's own [transform]. *)
Definition repo_transform (numeric_values : list cell -> outcome (list cell))
    (fillna_mean : DataFrame -> DataFrame) (df : pyobj) : outcome pyobj :=
  let! d := Transform.transform numeric_values fillna_mean df true true
              "drop_all" true in
  Ok (PyFrame d).

(** *** Worlds for the examples *)

Definition three_rows : pyobj :=
  PyFrame (mkFrame 3 [mkSeries "id" numeric [Num 1; Num 2; Num 3]]).

(** Every collaborator works; no database is configured. *)
Definition steady : World :=
  mkWorld true ["b.csv"; "a.csv"]
    (fun _ _ => Ok three_rows)
    (fun _ _ df => Ok df)
    (fun _ _ _ _ => Ok tt)
    (fun _ _ => None)
    (fun _ _ _ _ => Ok 0).

(** The transformation fails on the first two attempts. *)
Definition flaky : World :=
  mkWorld true ["a.csv"]
    (fun _ _ => Ok three_rows)
    (fun _ j df => if Nat.leb j 2
                   then Raise (mkExn TransformError "Duplicate removal failed")
                   else Ok df)
    (fun _ _ _ _ => Ok tt)
    (fun _ _ => None)
    (fun _ _ _ _ => Ok 0).

(** The file can never be read. *)
Definition unreadable : World :=
  mkWorld true ["a.csv"]
    (fun _ _ => Raise (mkExn ExtractionError "File is empty"))
    (fun _ _ df => Ok df)
    (fun _ _ _ _ => Ok tt)
    (fun _ _ => None)
    (fun _ _ _ _ => Ok 0).

(** Writing the processed file of [a.csv] fails with an [OSError];
    the other files are fine. *)
Definition disk_error : World :=
  mkWorld true ["c.csv"; "a.csv"; "b.csv"]
    (fun _ _ => Ok three_rows)
    (fun _ _ df => Ok df)
    (fun f _ _ _ => if String.eqb f "a.csv"
                    then Raise (mkExn (OtherException "OSError") "No space left")
                    else Ok tt)
    (fun _ _ => None)
    (fun _ _ _ _ => Ok 0).

(** A database is configured and cannot be reached. *)
Definition database_down : World :=
  mkWorld true ["a.csv"]
    (fun _ _ => Ok three_rows)
    (fun _ _ df => Ok df)
    (fun _ _ _ _ => Ok tt)
    (fun _ _ => Some "db.internal")
    (fun _ _ _ _ => Raise (mkExn LoadError "Failed to connect to database")).

(** The extractor hands over a list of two rows, not a [DataFrame]; the
    transformation is the repository's. *)
Definition mistyped : World :=
  mkWorld true ["a.csv"]
    (fun _ _ => Ok (PyOther (Some 2)))
    (fun _ _ => repo_transform Coercion.numerals (fun df => df))
    (fun _ _ _ _ => Ok tt)
    (fun _ _ => None)
    (fun _ _ _ _ => Ok 0).

(** The raw directory is missing. *)
Definition no_raw_dir : World :=
  mkWorld false []
    (fun _ _ => Ok three_rows)
    (fun _ _ df => Ok df)
    (fun _ _ _ _ => Ok tt)
    (fun _ _ => None)
    (fun _ _ _ _ => Ok 0).

Definition start : State := mkState new_stats [].

End Runs.

(** ** Vocabulary of the further properties *)

Module Shape.

(** Every column holds one value per entry of the index. *)
Definition well_formed (df : DataFrame) : bool :=
  forallb (fun s => Nat.eqb (List.length (values s)) (nrows df)) (columns df).

(** A row without a value, and a row that lacks one. *)
Definition all_missing (r : list cell) : bool := forallb isnull r.

Definition any_missing (r : list cell) : bool := existsb isnull r.

(** [b] carries the labels of [a], has no more rows, and has one value
    per row in every column if [a] has. *)
Definition within (a b : DataFrame) : Prop :=
  nrows b <= nrows a
  /\ map label (columns b) = map label (columns a)
  /\ (well_formed a = true -> well_formed b = true).

(** [pd.to_numeric] raises nothing but [ValueError] and [TypeError], and
    returns as many values as it is given. *)
Definition only_refuses (numeric_values : list cell -> outcome (list cell))
    : Prop :=
  forall vs e,
    numeric_values vs = Raise e -> Transform.value_or_type_error e = true.

Definition length_preserving
    (numeric_values : list cell -> outcome (list cell)) : Prop :=
  forall vs vs', numeric_values vs = Ok vs' -> List.length vs' = List.length vs.

(** [read_csv] gives every column one value per row. *)
Definition one_value_per_row
    (column_of : list (list string) -> nat -> dtype * list cell) : Prop :=
  forall rows j, List.length (snd (column_of rows j)) = List.length rows.

(** A table of three rows, the second without a value, the third a
    repetition of the first. *)
Definition readings : DataFrame :=
  mkFrame 3 [mkSeries "Sensor" object [Str "a"; Null; Str "a"];
             mkSeries "Value" numeric [Num 4; Null; Num 4]].

End Shape.

Module Ledger.

Import Pipeline.

(** The events that concern the optional load. *)
Definition load_events (l : list event) : list event :=
  filter (fun ev => match ev with
                    | LoadingToDatabase | LoadSkipped _ => true
                    | _ => false
                    end) l.

(** The events [run] and the loop of [process_file] log themselves,
    outside the body of an attempt and the recording of a failure. *)
Definition runner_event (ev : event) : bool :=
  match ev with
  | Started | RawDirMissing | NoCsvFiles | Found _ | Listed _
  | Processing _ | Retrying _ _ | Statistics _ | Completed => true
  | _ => false
  end.

(** The call [extract_csv(csv_file)] of [process_file], on the
    repository's own extractor and the file as it is on disk. *)
Definition repo_extract (column_names : list string -> list string)
    (column_of : list (list string) -> nat -> dtype * list cell)
    (buffer_lines : nat -> nat) (f : Extract.SourceFile) : outcome pyobj :=
  let! df := Extract.extract_csv column_names column_of buffer_lines f None in
  Ok (PyFrame df).

(** An error message of [process_file]: the file name, a colon, the
    detail. *)
Definition names_file (files : list string) (error_msg : string) : Prop :=
  exists csv_file detail,
    In csv_file files /\ error_msg = (csv_file ++ ": " ++ detail)%string.

(** A directory of three files: the first is empty, the others hold the
    invoices. *)
Definition disk (csv_file : string) : Extract.SourceFile :=
  if String.eqb csv_file "a.csv"
  then Extract.mkFile true true 0 true None [] []
  else Malformed.invoices.

(** The repository's extractor and transformation over [disk]; saving
    works and no database is configured. *)
Definition on_disk : World :=
  mkWorld true ["c.csv"; "a.csv"; "b.csv"]
    (fun f _ => repo_extract Malformed.named Malformed.typed
                  Malformed.buffered (disk f))
    (fun _ _ => Runs.repo_transform Coercion.numerals (fun df => df))
    (fun _ _ _ _ => Ok tt)
    (fun _ _ => None)
    (fun _ _ _ _ => Ok 0).

End Ledger.

(** ** [src/load/load_to_db.py] *)

Module Load.

(** [os.environ], as far as the loader reads it. *)
Record Environ : Type := mkEnviron {
  POSTGRES_USER : option string;
  POSTGRES_PASSWORD : option string;
  POSTGRES_HOST : option string;
  POSTGRES_PORT : option string;
  POSTGRES_DB : option string
}.

(** [os.getenv(name, default)] *)
Definition getenv (v : option string) (default : string) : string :=
  match v with Some s => s | None => default end.

(** SQLAlchemy and the server behind it: what each call answers.  An
    exception of SQLAlchemy's own family is an [OtherException] named
    [SQLAlchemyError]. *)
Record Driver : Type := mkDriver {
  create_engine : string -> outcome unit;
  engine_connect : outcome unit;
  get_table_names : outcome (list string);
  get_columns : string -> outcome (list string);
  get_pk_constraint : string -> outcome unit;
  to_sql : DataFrame -> string -> string -> nat -> outcome unit
}.

(** What happens to the engine and the table, in order. *)
Inductive db_event : Type :=
| EngineCreated (url : string)
| Connected
| Appending (known_columns : nat)
| Written (table_name : string) (rows : nat)
| EngineDisposed.

Record DatabaseManager : Type := mkManager {
  user : string;
  password : string;
  host : string;
  port : Z;
  database : string;
  engine : bool
}.

(** The manager and the events so far. *)
Record Session : Type := mkSession {
  manager : DatabaseManager;
  trace : list db_event
}.

Definition M (A : Type) : Type := Session -> outcome A * Session.

Definition andthen {A B : Type} (m : M A) (k : A -> M B) : M B :=
  fun s => match m s with
           | (Ok a, s') => k a s'
           | (Raise e, s') => (Raise e, s')
           end.

Definition record (ev : db_event) (s : Session) : Session :=
  mkSession (manager s) (trace s ++ [ev]).

Definition load_error {A : Type} (msg : string) : outcome A :=
  Raise (mkExn LoadError msg).

Definition is_sqlalchemy_error (e : exn) : bool :=
  match exn_type e with
  | OtherException name => String.eqb name "SQLAlchemyError"
  | _ => false
  end.

Section Loader.

(** Python's [int] on a text and [str] on an integer. *)
Variable int : string -> option Z.
Variable str : Z -> string.

(** [DatabaseManager()] without arguments. *)
Definition DatabaseManager_init (env : Environ) : outcome DatabaseManager :=
  match int (getenv (POSTGRES_PORT env) "5432") with
  | None => Raise (mkExn (OtherException "ValueError")
                         ("invalid literal for int() with base 10: '"
                          ++ getenv (POSTGRES_PORT env) "5432" ++ "'"))
  | Some p =>
      Ok (mkManager (getenv (POSTGRES_USER env) "postgres")
                    (getenv (POSTGRES_PASSWORD env) "postgres")
                    (getenv (POSTGRES_HOST env) "localhost")
                    p
                    (getenv (POSTGRES_DB env) "etl_db")
                    false)
  end.

Definition build_connection_string (m : DatabaseManager) : string :=
  "postgresql://" ++ user m ++ ":" ++ password m ++ "@" ++ host m ++ ":"
  ++ str (port m) ++ "/" ++ database m.

Definition with_engine (m : DatabaseManager) : DatabaseManager :=
  mkManager (user m) (password m) (host m) (port m) (database m) true.

(** The handler of [connect]. *)
Definition connect_handler {A : Type} (e : exn) : outcome A :=
  if is_sqlalchemy_error e
  then load_error ("Failed to connect to database: " ++ exn_msg e)
  else Raise e.

Definition connect (d : Driver) : M unit :=
  fun s =>
    let conn_str := build_connection_string (manager s) in
    match create_engine d conn_str with
    | Raise e => (connect_handler e, s)
    | Ok _ =>
        let s1 := mkSession (with_engine (manager s))
                            (trace s ++ [EngineCreated conn_str]) in
        match engine_connect d with
        | Raise e => (connect_handler e, s1)
        | Ok _ => (Ok tt, record Connected s1)
        end
    end.

(** [disconnect]: disposes of the engine if there is one. *)
Definition disconnect (s : Session) : Session :=
  if engine (manager s) then record EngineDisposed s else s.

(** [table_exists] and the columns of [get_table_info]: a failing
    inspection answers [False] and no column. *)
Definition table_exists (d : Driver) (table_name : string) : bool :=
  match get_table_names d with
  | Ok names => existsb (String.eqb table_name) names
  | Raise _ => false
  end.

Definition get_table_info (d : Driver) (table_name : string) : list string :=
  match get_columns d table_name with
  | Ok cols => match get_pk_constraint d table_name with
               | Ok _ => cols
               | Raise _ => []
               end
  | Raise _ => []
  end.

(** [if_exists not in ['fail', 'replace', 'append']] *)
Definition known_policy (if_exists : string) : bool :=
  String.eqb if_exists "fail" || String.eqb if_exists "replace"
  || String.eqb if_exists "append".

(** [df.empty]: no row or no column. *)
Definition empty (df : DataFrame) : bool :=
  Nat.eqb (nrows df) 0 || match columns df with [] => true | _ => false end.

(** The statements of the [try] of [load_df_to_postgres]. *)
Definition load_body (d : Driver) (df : DataFrame) (table_name if_exists : string)
    (chunk_size : nat) (validate_schema : bool) : M nat :=
  andthen (connect d) (fun _ =>
  andthen (fun s =>
             if String.eqb if_exists "replace" && validate_schema then (Ok tt, s)
             else if String.eqb if_exists "append" then
               if table_exists d table_name
               then (Ok tt, record (Appending (List.length
                                                 (get_table_info d table_name))) s)
               else (Ok tt, s)
             else (Ok tt, s))
          (fun _ =>
  andthen (fun s => match to_sql d df table_name if_exists chunk_size with
                    | Ok _ => (Ok tt, record (Written table_name (nrows df)) s)
                    | Raise e => (Raise e, s)
                    end)
          (fun _ => fun s => (Ok (nrows df), s)))).

(** The handlers and the [finally] of [load_df_to_postgres]. *)
Definition load_handlers (table_name : string) (r : outcome nat * Session)
    : outcome nat * Session :=
  let (o, s) := r in
  (match o with
   | Ok n => Ok n
   | Raise e =>
       if is_sqlalchemy_error e
       then load_error ("Database error loading to '" ++ table_name ++ "': "
                        ++ exn_msg e)
       else load_error ("Unexpected error loading to '" ++ table_name ++ "': "
                        ++ exn_msg e)
   end, disconnect s).

(** [load_df_to_postgres(df, table_name, if_exists, chunk_size,
    validate_schema)]: the result and the events. *)
Definition load_df_to_postgres (env : Environ) (d : Driver) (df : pyobj)
    (table_name if_exists : string) (chunk_size : nat) (validate_schema : bool)
    : outcome nat * list db_event :=
  match Pipeline.len df with
  | Raise e => (Raise e, [])
  | Ok _ =>
      match df with
      | PyOther _ => (load_error "Expected DataFrame, got other", [])
      | PyFrame frame =>
          if negb (Transform.truthy table_name)
          then (load_error "Invalid table name: ", [])
          else if negb (known_policy if_exists)
          then (load_error ("Invalid if_exists: " ++ if_exists), [])
          else if empty frame then (Ok 0, [])
          else
            match DatabaseManager_init env with
            | Raise e => (Raise e, [])
            | Ok m =>
                let (o, s) :=
                  load_handlers table_name
                    (load_body d frame table_name if_exists chunk_size
                               validate_schema (mkSession m [])) in
                (o, trace s)
            end
      end
  end.

(** The call [load_df_to_postgres(df_transformed, csv_file.stem)] of
    [process_file]. *)
Definition repo_load (env : Environ) (d : Driver) (df : pyobj)
    (table_name : string) : outcome nat :=
  fst (load_df_to_postgres env d df table_name "append" 5000 true).

End Loader.

(** *** Reading the events *)

Definition created (l : list db_event) : nat :=
  List.length (filter (fun ev => match ev with EngineCreated _ => true
                                          | _ => false end) l).

Definition disposed (l : list db_event) : nat :=
  List.length (filter (fun ev => match ev with EngineDisposed => true
                                          | _ => false end) l).

(** *** Examples *)

(** A server that accepts everything and knows no table. *)
Definition obliging : Driver :=
  mkDriver (fun _ => Ok tt) (Ok tt) (Ok []) (fun _ => Ok [])
           (fun _ => Ok tt) (fun _ _ _ _ => Ok tt).

(** A server that cannot be reached. *)
Definition unreachable : Driver :=
  mkDriver (fun _ => Ok tt)
           (Raise (mkExn (OtherException "SQLAlchemyError") "connection refused"))
           (Ok []) (fun _ => Ok []) (fun _ => Ok tt)
           (fun _ _ _ _ => Ok tt).

(** A server that loads but whose catalogue cannot be inspected. *)
Definition blind : Driver :=
  mkDriver (fun _ => Ok tt) (Ok tt)
           (Raise (mkExn (OtherException "SQLAlchemyError") "permission denied"))
           (fun _ => Raise (mkExn (OtherException "SQLAlchemyError")
                                  "permission denied"))
           (fun _ => Ok tt) (fun _ _ _ _ => Ok tt).

(** An environment without any of the variables, and one whose port is
    no number. *)
Definition bare : Environ := mkEnviron None None None None None.

Definition bad_port : Environ :=
  mkEnviron None None (Some "db.internal") (Some "54e2") None.

(** [str] for the examples: the port as it is shipped, or a
    placeholder. *)
Definition show (z : Z) : string :=
  if Z.eqb z 5432 then "5432" else "?".

Definition two_rows : DataFrame :=
  mkFrame 2 [mkSeries "id" numeric [Num 1; Num 2]].

End Load.

(** ** The runner over the repository's stages *)

Module Warehouse.

(** The files of [Ledger.disk] run through the repository's extractor,
    transformation and loader, with a database host configured; the
    loader reads the environment [env] and talks to [d]. *)
Definition stocked (env : Load.Environ) (d : Load.Driver) : Pipeline.World :=
  Pipeline.mkWorld true ["c.csv"; "a.csv"; "b.csv"]
    (fun f _ => Ledger.repo_extract Malformed.named Malformed.typed
                  Malformed.buffered (Ledger.disk f))
    (fun _ _ => Runs.repo_transform Coercion.numerals (fun df => df))
    (fun _ _ _ _ => Ok tt)
    (fun _ _ => Some "db.internal")
    (fun _ _ => Load.repo_load Coercion.decimal Load.show env d).

End Warehouse.

(** * Properties *)

(** ** Strings *)

Section Stripping.

Variable p : ascii -> bool.

Lemma lstrip_head (s : list ascii) (c : ascii) (s' : list ascii) :
  PyStr.lstrip p s = c :: s' -> p c = false.
Proof.
  induction s as [|a s IH]; simpl; [discriminate|].
  destruct (p a) eqn:Ha; [exact IH|].
  intros E; injection E as <- _; exact Ha.
Qed.

Lemma Forall_lstrip (Q : ascii -> Prop) (s : list ascii) :
  Forall Q s -> Forall Q (PyStr.lstrip p s).
Proof.
  induction 1 as [|a s Ha Hs IH]; simpl; [constructor|].
  destruct (p a); [exact IH | now constructor].
Qed.

Lemma Forall_rstrip (Q : ascii -> Prop) (s : list ascii) :
  Forall Q s -> Forall Q (PyStr.rstrip p s).
Proof.
  intros H. unfold PyStr.rstrip.
  apply Forall_rev, Forall_lstrip, Forall_rev, H.
Qed.

Lemma lstrip_is_suffix (s : list ascii) :
  exists pre, s = pre ++ PyStr.lstrip p s.
Proof.
  induction s as [|a s [pre IH]]; simpl.
  - now exists [].
  - destruct (p a).
    + exists (a :: pre). simpl. now f_equal.
    + now exists [].
Qed.

Lemma rstrip_is_prefix (s : list ascii) :
  exists suf, s = PyStr.rstrip p s ++ suf.
Proof.
  unfold PyStr.rstrip.
  destruct (lstrip_is_suffix (rev s)) as [pre E].
  exists (rev pre).
  rewrite <- rev_app_distr, <- E. symmetry. apply rev_involutive.
Qed.

Lemma strip_by_head (s : list ascii) (c : ascii) (s' : list ascii) :
  PyStr.strip_by p s = c :: s' -> p c = false.
Proof.
  unfold PyStr.strip_by. intros E.
  destruct (rstrip_is_prefix (PyStr.lstrip p s)) as [suf Hs].
  rewrite E in Hs. simpl in Hs.
  exact (lstrip_head _ _ _ Hs).
Qed.

Lemma strip_by_last (s : list ascii) (c : ascii) (s' : list ascii) :
  rev (PyStr.strip_by p s) = c :: s' -> p c = false.
Proof.
  unfold PyStr.strip_by, PyStr.rstrip. rewrite rev_involutive.
  apply lstrip_head.
Qed.

Lemma Forall_strip_by (Q : ascii -> Prop) (s : list ascii) :
  Forall Q s -> Forall Q (PyStr.strip_by p s).
Proof.
  intros H. apply Forall_rstrip, Forall_lstrip, H.
Qed.

Lemma lstrip_map (f : ascii -> ascii) (s : list ascii) :
  (forall c, p (f c) = p c) ->
  PyStr.lstrip p (map f s) = map f (PyStr.lstrip p s).
Proof.
  intros Hf. induction s as [|a s IH]; simpl; [reflexivity|].
  rewrite Hf. destruct (p a); [exact IH | reflexivity].
Qed.

Lemma strip_by_map (f : ascii -> ascii) (s : list ascii) :
  (forall c, p (f c) = p c) ->
  PyStr.strip_by p (map f s) = map f (PyStr.strip_by p s).
Proof.
  intros Hf. unfold PyStr.strip_by, PyStr.rstrip.
  rewrite (lstrip_map f s Hf), <- map_rev, (lstrip_map f _ Hf), map_rev.
  reflexivity.
Qed.

End Stripping.

Ltac each_code_point c :=
  destruct c as [[] [] [] [] [] [] [] []]; reflexivity.

Lemma isspace_tolower (c : ascii) :
  PyStr.isspace (PyStr.tolower c) = PyStr.isspace c.
Proof. each_code_point c. Qed.

(** A lower-cased character, with spaces and hyphens replaced, is never
    upper-case. *)
Lemma replaced_not_upper (c : ascii) :
  PyStr.isupper
    (let c1 := PyStr.tolower c in
     let c2 := if Ascii.eqb c1 " " then "_"%char else c1 in
     if Ascii.eqb c2 "-" then "_"%char else c2) = false.
Proof. each_code_point c. Qed.

Lemma replace_twice (c : ascii) :
  (let c2 := if Ascii.eqb c " " then "_"%char else c in
   if Ascii.eqb c2 "-" then "_"%char else c2)
  = if Ascii.eqb c " " || Ascii.eqb c "-" then "_"%char else c.
Proof. each_code_point c. Qed.

Lemma keep_allowed (c : ascii) :
  Transform.keep c = true -> PyStr.isupper c = false -> Names.allowed c = true.
Proof.
  unfold Transform.keep, Names.allowed, Names.lower_alnum.
  intros Hk Hu. rewrite Hu. simpl. now rewrite andb_true_r.
Qed.

Lemma normalize_name_chars (col : string) :
  list_ascii_of_string (Transform.normalize_name col)
  = PyStr.strip_chars ["_"%char]
      (filter Transform.keep
         (PyStr.replace "-" "_"
            (PyStr.replace " " "_"
               (PyStr.lower (PyStr.strip (list_ascii_of_string col)))))).
Proof.
  unfold Transform.normalize_name. apply list_ascii_of_string_of_list_ascii.
Qed.

Lemma normalize_name_normal (col : string) :
  Names.normal (Transform.normalize_name col) = true.
Proof.
  unfold Names.normal. rewrite normalize_name_chars.
  set (body := filter _ _).
  assert (Hall : Forall (fun c => Names.allowed c = true) body).
  { subst body. apply Forall_forall. intros c Hc.
    apply filter_In in Hc. destruct Hc as [Hin Hk].
    apply keep_allowed; [exact Hk|].
    unfold PyStr.replace, PyStr.lower in Hin.
    rewrite !map_map in Hin. apply in_map_iff in Hin.
    destruct Hin as [c0 [<- _]]. apply replaced_not_upper. }
  rewrite !andb_true_iff, !negb_true_iff. repeat split.
  - apply forallb_forall. apply Forall_forall.
    unfold PyStr.strip_chars. apply Forall_strip_by, Hall.
  - unfold Names.starts_with_underscore, PyStr.strip_chars.
    destruct (PyStr.strip_by _ body) as [|c s'] eqn:E; [reflexivity|].
    apply strip_by_head in E. unfold PyStr.mem in E. simpl in E.
    unfold Names.is_underscore.
    now rewrite orb_false_r in E.
  - unfold Names.ends_with_underscore, Names.starts_with_underscore,
      PyStr.strip_chars.
    destruct (rev (PyStr.strip_by _ body)) as [|c s'] eqn:E; [reflexivity|].
    apply strip_by_last in E. unfold PyStr.mem in E. simpl in E.
    unfold Names.is_underscore.
    now rewrite orb_false_r in E.
Qed.

(** *** Names of ASCII characters *)

Ltac each_ascii_code_point c :=
  destruct c as [[] [] [] [] [] [] [] []]; vm_compute;
  first [reflexivity | discriminate | intros; reflexivity | intros; discriminate].

Lemma tolower_ascii (c : ascii) :
  Names.ascii_char c = true -> PyStr.tolower c = Names.lower_case c.
Proof. each_ascii_code_point c. Qed.

Lemma isspace_ascii (c : ascii) :
  Names.ascii_char c = true -> PyStr.isspace c = Names.whitespace c.
Proof. each_ascii_code_point c. Qed.

Lemma keep_ascii (c : ascii) :
  Names.ascii_char c = true ->
  Transform.keep c = Names.alphanumeric c || Names.is_underscore c.
Proof. each_ascii_code_point c. Qed.

Lemma lower_case_ascii (c : ascii) :
  Names.ascii_char c = true -> Names.ascii_char (Names.lower_case c) = true.
Proof. each_ascii_code_point c. Qed.

Lemma replaced_ascii (c : ascii) :
  Names.ascii_char c = true ->
  Names.ascii_char (if Ascii.eqb c " " || Ascii.eqb c "-" then "_"%char else c)
  = true.
Proof. each_ascii_code_point c. Qed.

Lemma allowed_ascii (c : ascii) :
  Names.ascii_char c = true -> Names.allowed c = true ->
  Names.snake_char c = true.
Proof. each_ascii_code_point c. Qed.

Lemma drop_while_lstrip (p : ascii -> bool) (s : list ascii) :
  Names.drop_while p s = PyStr.lstrip p s.
Proof.
  induction s as [|c s IH]; simpl; [reflexivity|].
  destruct (p c); [exact IH | reflexivity].
Qed.

Lemma trim_strip_by (p : ascii -> bool) (s : list ascii) :
  Names.trim p s = PyStr.strip_by p s.
Proof.
  unfold Names.trim, PyStr.strip_by, PyStr.rstrip.
  now rewrite !drop_while_lstrip.
Qed.

Lemma lstrip_incl (p : ascii -> bool) (s : list ascii) (c : ascii) :
  In c (PyStr.lstrip p s) -> In c s.
Proof.
  induction s as [|a s IH]; simpl; [tauto|].
  destruct (p a); [intros H; right; now apply IH | simpl; tauto].
Qed.

Lemma lstrip_ext_in (p q : ascii -> bool) (s : list ascii) :
  (forall c, In c s -> p c = q c) -> PyStr.lstrip p s = PyStr.lstrip q s.
Proof.
  induction s as [|a s IH]; intros H; simpl; [reflexivity|].
  rewrite <- (H a (or_introl eq_refl)).
  destruct (p a); [|reflexivity].
  apply IH. intros c Hc. apply H. now right.
Qed.

Lemma strip_by_ext_in (p q : ascii -> bool) (s : list ascii) :
  (forall c, In c s -> p c = q c) -> PyStr.strip_by p s = PyStr.strip_by q s.
Proof.
  intros H. unfold PyStr.strip_by, PyStr.rstrip.
  rewrite (lstrip_ext_in p q s H). f_equal.
  apply lstrip_ext_in. intros c Hc.
  apply H. apply in_rev in Hc. now apply lstrip_incl in Hc.
Qed.

Lemma Forall_filter_keeps {A : Type} (Q : A -> Prop) (f : A -> bool)
    (l : list A) :
  Forall Q l -> Forall Q (filter f l).
Proof.
  induction 1 as [|a l Ha Hl IH]; simpl; [constructor|].
  destruct (f a); [now constructor | exact IH].
Qed.

Section AsciiName.

Variable col : string.
Hypothesis ascii_col : Names.ascii_name col = true.

Let chars : list ascii := list_ascii_of_string col.

Let is_ascii (c : ascii) : Prop := Names.ascii_char c = true.

Lemma ascii_chars : Forall is_ascii chars.
Proof. apply Forall_forall, forallb_forall, ascii_col. Qed.

Lemma lowered_ascii : Forall is_ascii (map Names.lower_case chars).
Proof.
  apply Forall_forall. intros c Hc. apply in_map_iff in Hc.
  destruct Hc as [c0 [<- H0]]. apply lower_case_ascii.
  exact (proj1 (Forall_forall _ _) ascii_chars c0 H0).
Qed.

Lemma trimmed_ascii :
  Forall is_ascii (Names.trim Names.whitespace (map Names.lower_case chars)).
Proof. rewrite trim_strip_by. apply Forall_strip_by, lowered_ascii. Qed.

(** The body of the loop of [normalize_columns] is the procedure with
    the space character in the place of internal whitespace. *)
Lemma normalize_name_procedure :
  Transform.normalize_name col = Names.space_normalize_name col.
Proof.
  unfold Transform.normalize_name, Names.space_normalize_name.
  fold chars. f_equal.
  assert (E1 : PyStr.lower (PyStr.strip chars)
               = Names.trim Names.whitespace (map Names.lower_case chars)).
  { unfold PyStr.strip, PyStr.lower.
    rewrite <- (strip_by_map PyStr.isspace PyStr.tolower _ isspace_tolower).
    rewrite (map_ext_in PyStr.tolower Names.lower_case chars).
    - rewrite trim_strip_by. apply strip_by_ext_in.
      intros c Hc. apply isspace_ascii.
      exact (proj1 (Forall_forall _ _) lowered_ascii c Hc).
    - intros c Hc. apply tolower_ascii.
      exact (proj1 (Forall_forall _ _) ascii_chars c Hc). }
  rewrite E1. set (s2 := Names.trim _ _).
  assert (E2 : PyStr.replace "-" "_" (PyStr.replace " " "_" s2)
               = map (fun c => if Ascii.eqb c " " || Ascii.eqb c "-"
                               then "_"%char else c) s2).
  { unfold PyStr.replace. rewrite map_map. apply map_ext.
    intros c. apply replace_twice. }
  rewrite E2. set (s3 := map _ s2).
  assert (H3 : Forall is_ascii s3).
  { subst s3. apply Forall_forall. intros c Hc. apply in_map_iff in Hc.
    destruct Hc as [c0 [<- H0]]. apply replaced_ascii.
    exact (proj1 (Forall_forall _ _) trimmed_ascii c0 H0). }
  rewrite (filter_ext_in Transform.keep
             (fun c => Names.alphanumeric c || Names.is_underscore c) s3).
  - rewrite trim_strip_by. unfold PyStr.strip_chars.
    apply strip_by_ext_in. intros c _.
    unfold PyStr.mem, Names.is_underscore. simpl. apply orb_false_r.
  - intros c Hc. apply keep_ascii.
    exact (proj1 (Forall_forall _ _) H3 c Hc).
Qed.

Lemma normalize_name_ascii :
  Forall is_ascii (list_ascii_of_string (Transform.normalize_name col)).
Proof.
  rewrite normalize_name_procedure. unfold Names.space_normalize_name.
  rewrite list_ascii_of_string_of_list_ascii, trim_strip_by.
  apply Forall_strip_by, Forall_filter_keeps.
  apply Forall_forall. intros c Hc. apply in_map_iff in Hc.
  destruct Hc as [c0 [<- H0]]. apply replaced_ascii.
  exact (proj1 (Forall_forall _ _) trimmed_ascii c0 H0).
Qed.

Lemma normalize_name_snake :
  Names.snake_case (Transform.normalize_name col) = true.
Proof.
  pose proof (normalize_name_normal col) as N.
  unfold Names.normal in N. unfold Names.snake_case.
  rewrite !andb_true_iff in *. destruct N as [[Na Ns] Ne].
  repeat split; try assumption.
  apply forallb_forall. intros c Hc. apply allowed_ascii.
  - exact (proj1 (Forall_forall _ _) normalize_name_ascii c Hc).
  - exact (proj1 (forallb_forall _ _) Na c Hc).
Qed.

End AsciiName.

(** C8, as amended.  For every table whose column names are ASCII,
    column-name normalization succeeds, keeps the rows and the values,
    and gives each column the name obtained by lower-casing, trimming
    surrounding whitespace, replacing the space character and the hyphen
    by an underscore, deleting every character that is neither
    alphanumeric nor an underscore, and trimming underscores at both
    ends; every resulting name contains only the letters a to z, digits
    and underscores and neither starts nor ends with an underscore. *)
Theorem normalize_columns_names (df : DataFrame) :
  forallb Names.ascii_name (map label (columns df)) = true ->
  exists df',
    Transform.normalize_columns df = Ok df'
    /\ nrows df' = nrows df
    /\ map values (columns df') = map values (columns df)
    /\ map label (columns df')
       = map Names.space_normalize_name (map label (columns df))
    /\ forallb Names.snake_case (map label (columns df')) = true.
Proof.
  intros A.
  assert (Ha : forall s, In s (columns df) -> Names.ascii_name (label s) = true).
  { intros s Hs. apply (proj1 (forallb_forall _ _) A). now apply in_map. }
  eexists. split; [reflexivity|]. simpl. repeat split.
  - now rewrite map_map.
  - rewrite !map_map. apply map_ext_in. intros s Hs.
    apply normalize_name_procedure, Ha, Hs.
  - rewrite map_map. apply forallb_forall. intros name Hin.
    apply in_map_iff in Hin. destruct Hin as [s [<- Hs]].
    apply normalize_name_snake, Ha, Hs.
Qed.

(** The theorem of C8 at the table [Names.stock]. *)
Lemma normalize_columns_names_stock :
  forallb Names.ascii_name (map label (columns Names.stock)) = true
  /\ exists df',
       Transform.normalize_columns Names.stock = Ok df'
       /\ map label (columns df') = ["unit_price_usd"; "qty_2"]
       /\ forallb Names.snake_case (map label (columns df')) = true.
Proof.
  split; [reflexivity|].
  destruct (normalize_columns_names Names.stock eq_refl)
    as (df' & E & _ & _ & L & S).
  exists df'. split; [exact E|]. split; [exact L | exact S].
Defined.

(** C8, as stated, fails on a name with a tab inside: the code deletes
    the tab, the stated procedure turns it into an underscore. *)
Lemma normalize_columns_deletes_tab :
  exists df',
    Transform.normalize_columns Names.price_list = Ok df'
    /\ forallb Names.ascii_name (map label (columns Names.price_list)) = true
    /\ map label (columns df') = ["unitprice"]
    /\ map Names.spec_normalize_name (map label (columns Names.price_list))
       = ["unit_price"]
    /\ map label (columns df')
       <> map Names.spec_normalize_name (map label (columns Names.price_list)).
Proof.
  eexists. split; [reflexivity|]. repeat split. discriminate.
Qed.
(** ** Type coercion *)

Lemma filter_singleton {A : Type} (f : A -> bool) (l : list A) (x y : A) :
  filter f l = [x] -> In y l -> f y = true -> y = x.
Proof.
  intros E Hin Hf.
  assert (H : In y (filter f l)) by (apply filter_In; split; assumption).
  rewrite E in H. destruct H as [H|[]]. now symmetry.
Qed.

Lemma frame_eta (df : DataFrame) : mkFrame (nrows df) (columns df) = df.
Proof. now destruct df. Qed.

Lemma label_count_labels (a b : DataFrame) (l : string) :
  map label (columns a) = map label (columns b) ->
  Coercion.label_count a l = Coercion.label_count b l.
Proof.
  unfold Coercion.label_count.
  generalize (columns a) (columns b). clear a b.
  induction l0 as [|x xs IH]; intros [|y ys]; simpl; try discriminate;
    [reflexivity|].
  intros E. injection E as E1 E2. rewrite E1.
  destruct (String.eqb (label y) l); simpl; auto.
Qed.

(** A label is listed among the text columns no more often than it
    occurs in the table. *)
Lemma object_columns_occurrences (df : DataFrame) (col : string) :
  count_occ string_dec (Pandas.object_columns df) col
  <= Coercion.label_count df col.
Proof.
  unfold Pandas.object_columns, Coercion.label_count.
  induction (columns df) as [|c cs IH]; simpl; [lia|].
  destruct (dtype_eqb (kind c) object); simpl.
  - destruct (string_dec (label c) col) as [->|N].
    + rewrite String.eqb_refl. simpl. lia.
    + apply String.eqb_neq in N. rewrite N. exact IH.
  - destruct (String.eqb (label c) col); simpl; lia.
Qed.

Lemma object_columns_counted (df : DataFrame) (col : string) :
  In col (Pandas.object_columns df) -> 1 <= Coercion.label_count df col.
Proof.
  intros Hin. apply (count_occ_In string_dec) in Hin.
  pose proof (object_columns_occurrences df col). lia.
Qed.



Section Coerce.

Variable numeric_values : list cell -> outcome (list cell).

Lemma label_as_numeric (s : Series) :
  label (Coercion.as_numeric numeric_values s) = label s.
Proof. unfold Coercion.as_numeric. now destruct (numeric_values _). Qed.

Lemma label_coerce (df : DataFrame) (cols : list string) (s : Series) :
  label (Coercion.coerce numeric_values df cols s) = label s.
Proof.
  unfold Coercion.coerce. destruct (_ && _); [apply label_as_numeric|].
  reflexivity.
Qed.

(** One turn of the loop. *)
Lemma convert_column_coerce (df : DataFrame) (n : nat) (col : string) :
  1 <= Coercion.label_count df col ->
  (forall s e, In s (columns df) -> label s = col ->
               numeric_values (values s) = Raise e ->
               Transform.value_or_type_error e = true) ->
  exists n',
    Transform.convert_column numeric_values (df, n) col
    = Ok (mkFrame (nrows df)
            (map (Coercion.coerce numeric_values df [col]) (columns df)), n').
Proof.
  intros Hc Hr. unfold Transform.convert_column, Pandas.getitem.
  unfold Coercion.label_count in Hc.
  assert (Hid : forall (keep_all : forall c, In c (columns df) ->
                          Coercion.coerce numeric_values df [col] c = c),
             map (Coercion.coerce numeric_values df [col]) (columns df)
             = columns df).
  { intros Hk. rewrite <- (map_id (columns df)) at 2.
    apply map_ext_in, Hk. }
  destruct (filter _ (columns df)) as [|s [|s2 rest]] eqn:F; simpl in Hc.
  - lia.
  - assert (Hs : In s (columns df) /\ String.eqb (label s) col = true).
    { assert (X : In s (filter (fun c => String.eqb (label c) col)
                               (columns df))) by (rewrite F; now left).
      apply filter_In in X. exact X. }
    destruct Hs as [Hs El].
    cbn [bind Pandas.to_numeric].
    destruct (numeric_values (values s)) as [vs|e] eqn:P; cbn [bind].
    + eexists. do 2 f_equal. unfold Pandas.setitem. f_equal.
      apply map_ext_in. intros c Hin. cbn [label kind values].
      unfold Coercion.coerce. cbn [existsb]. rewrite orb_false_r.
      destruct (String.eqb (label c) col) eqn:E; [|reflexivity].
      assert (c = s) by (eapply filter_singleton; eauto). subst c.
      apply String.eqb_eq in E. subst col.
      unfold Coercion.label_count. rewrite F. cbn [List.length Nat.eqb andb].
      unfold Coercion.as_numeric. now rewrite P.
    + rewrite (Hr s e Hs (proj1 (String.eqb_eq _ _) El) P).
      exists n. rewrite Hid, frame_eta; [reflexivity|].
      intros c Hin. unfold Coercion.coerce. cbn [existsb].
      rewrite orb_false_r.
      destruct (String.eqb (label c) col) eqn:E; [|reflexivity].
      assert (c = s) by (eapply filter_singleton; eauto). subst c.
      destruct (Nat.eqb _ 1); [|reflexivity]. cbn [andb].
      unfold Coercion.as_numeric. now rewrite P.
  - cbn [bind Pandas.to_numeric Transform.value_or_type_error exn_type].
    cbn. exists n. rewrite Hid, frame_eta; [reflexivity|].
    intros c Hin. unfold Coercion.coerce. cbn [existsb].
    rewrite orb_false_r.
    destruct (String.eqb (label c) col) eqn:E; [|reflexivity].
    apply String.eqb_eq in E. subst col.
    unfold Coercion.label_count. rewrite F. reflexivity.
Qed.

(** Running the loop for [col] and then for [cols] is running it for
    [col :: cols], when a label that occurs once in the table is
    listed once. *)
Lemma coerce_cons (df : DataFrame) (col : string) (cols : list string)
    (s : Series) :
  (Coercion.label_count df col = 1 -> ~ In col cols) ->
  Coercion.coerce numeric_values df cols
    (Coercion.coerce numeric_values df [col] s)
  = Coercion.coerce numeric_values df (col :: cols) s.
Proof.
  intros Hu. unfold Coercion.coerce at 2 3. cbn [existsb].
  rewrite orb_false_r.
  destruct (String.eqb (label s) col) eqn:E; cbn [orb andb].
  - apply String.eqb_eq in E. subst col.
    destruct (Nat.eqb (Coercion.label_count df (label s)) 1) eqn:C.
    + unfold Coercion.coerce. rewrite label_as_numeric.
      apply Nat.eqb_eq in C.
      assert (Hn : existsb (String.eqb (label s)) cols = false).
      { destruct (existsb _ cols) eqn:X; [|reflexivity].
        apply existsb_exists in X. destruct X as [l [Hl El]].
        apply String.eqb_eq in El. subst l. now destruct (Hu C). }
      now rewrite Hn.
    + unfold Coercion.coerce. now rewrite C, andb_false_r.
  - reflexivity.
Qed.

Lemma convert_loop_coerce (df0 : DataFrame) (cols : list string) :
  forall (df : DataFrame) (n : nat),
    map label (columns df) = map label (columns df0) ->
    (forall col, In col cols -> 1 <= Coercion.label_count df0 col) ->
    (forall col, Coercion.label_count df0 col = 1 ->
                 count_occ string_dec cols col <= 1) ->
    (forall s e, In s (columns df) -> In (label s) cols ->
                 numeric_values (values s) = Raise e ->
                 Transform.value_or_type_error e = true) ->
    exists n',
      Transform.convert_loop numeric_values cols (df, n)
      = Ok (mkFrame (nrows df)
              (map (Coercion.coerce numeric_values df0 cols) (columns df)),
            n').
Proof.
  induction cols as [|col cols IH]; intros df n Hl Hc Hu Hr.
  - simpl. exists n. f_equal. f_equal.
    rewrite <- (frame_eta df) at 1. f_equal.
    rewrite <- (map_id (columns df)) at 1. apply map_ext.
    intros s. unfold Coercion.coerce. reflexivity.
  - assert (Hfresh : Coercion.label_count df0 col = 1 -> ~ In col cols).
    { intros C Hin. specialize (Hu col C). cbn [count_occ] in Hu.
      destruct (string_dec col col) as [_|N]; [|now destruct N].
      apply (count_occ_In string_dec) in Hin. lia. }
    destruct (convert_column_coerce df n col) as [n1 E1].
    { rewrite (label_count_labels df df0 col Hl). apply Hc. now left. }
    { intros s e Hs El. apply Hr; [exact Hs | rewrite El; now left]. }
    change (Transform.convert_loop numeric_values (col :: cols) (df, n))
      with (bind (Transform.convert_column numeric_values (df, n) col)
                 (Transform.convert_loop numeric_values cols)).
    rewrite E1. unfold bind.
    destruct (IH (mkFrame (nrows df)
                    (map (Coercion.coerce numeric_values df [col])
                         (columns df))) n1)
      as [n2 E2].
    { simpl. rewrite map_map. rewrite <- Hl. apply map_ext.
      intros s. apply label_coerce. }
    { intros c Hin. apply Hc. now right. }
    { intros c C. specialize (Hu c C). cbn [count_occ] in Hu.
      destruct (string_dec col c); lia. }
    { cbn [columns]. intros s' e Hin' Hlab He.
      apply in_map_iff in Hin'. destruct Hin' as [s [Es Hs]].
      rewrite <- Es in Hlab, He. rewrite label_coerce in Hlab.
      revert He. unfold Coercion.coerce. cbn [existsb].
      rewrite orb_false_r, (label_count_labels df df0 _ Hl).
      destruct (String.eqb (label s) col) eqn:E; cbn [andb].
      - apply String.eqb_eq in E.
        destruct (Nat.eqb (Coercion.label_count df0 (label s)) 1) eqn:C.
        + apply Nat.eqb_eq in C. rewrite E in C, Hlab.
          now destruct (Hfresh C).
        + intros He. apply (Hr s e Hs); [now right | exact He].
      - intros He. apply (Hr s e Hs); [now right | exact He]. }
    rewrite E2. exists n2. simpl. do 3 f_equal.
    rewrite map_map. apply map_ext. intros s.
    unfold Coercion.coerce at 2.
    rewrite (label_count_labels df df0 _ Hl).
    fold (Coercion.coerce numeric_values df0 [col] s).
    apply coerce_cons, Hfresh.
Qed.

Lemma convert_dtypes_coerce (df : DataFrame) :
  Coercion.refusals_only numeric_values df ->
  exists n,
    Transform.convert_dtypes numeric_values df
    = Ok (mkFrame (nrows df)
            (map (Coercion.coerce numeric_values df (Pandas.object_columns df))
                 (columns df)), n).
Proof.
  intros Hr. unfold Transform.convert_dtypes.
  destruct (convert_loop_coerce df (Pandas.object_columns df) df 0 eq_refl
              (object_columns_counted df)) as [n E].
  - intros col C. rewrite <- C. apply object_columns_occurrences.
  - intros s e Hs _. now apply Hr.
  - rewrite E. now exists n.
Qed.

End Coerce.


Lemma numerals_refuses (cs : list cell) (e : exn) :
  Coercion.numerals cs = Raise e -> Transform.value_or_type_error e = true.
Proof.
  induction cs as [|c cs IH]; simpl; [discriminate|].
  destruct (Coercion.numeral c); [|now intros [= <-]].
  destruct (Coercion.numerals cs); simpl; [discriminate|].
  intros [= <-]. now apply IH.
Qed.


(** ** Extraction *)

(** Under [warn] the reader fails on no line: every line is kept or
    reported. *)
Lemma read_lines_total (size buffer : nat) (ls : list (list string)) :
  forall (opening : bool) (ex_fields room left : nat),
  exists rows n,
    Extract.read_lines warn size buffer opening ex_fields room left ls
    = Ok (rows, n)
    /\ List.length rows + n = List.length ls.
Proof.
  induction ls as [|l ls IH]; intros opening ex_fields room left.
  - exists [], 0. now split.
  - cbn [Extract.read_lines].
    destruct (negb opening && Nat.ltb ex_fields (List.length l)).
    + destruct (IH false ex_fields room left) as (rows & n & E & L).
      rewrite E. cbn [bind fst snd]. exists rows, (S n).
      split; [reflexivity|]. cbn [List.length]. lia.
    + set (row := l ++ repeat "" (ex_fields - List.length l)).
      assert (H : exists rows n,
                 match room, left with
                 | S (S room'), S left' =>
                     Extract.read_lines warn size buffer false
                       (List.length row) (S room') left' ls
                 | _, S (S left') =>
                     Extract.read_lines warn size buffer true
                       (List.length row) (Nat.min buffer (S left')) (S left') ls
                 | _, _ =>
                     Extract.read_lines warn size buffer true
                       (List.length row) (Nat.min buffer size) size ls
                 end = Ok (rows, n)
                 /\ List.length rows + n = List.length ls).
      { destruct room as [|[|room]]; destruct left as [|[|left]]; apply IH. }
      destruct H as (rows & n & E & L). rewrite E. cbn [bind fst snd].
      exists (row :: rows), n. split; [reflexivity|]. cbn [List.length]. lia.
Qed.

(** Within a pass, after the line that opens it, every line is measured
    against the same number of fields. *)
Lemma read_lines_rest (size buffer width : nat) (ls : list (list string)) :
  forall room left,
    List.length ls <= room -> room <= left ->
    Extract.read_lines warn size buffer false width room left ls
    = Ok (map (fun l => l ++ repeat "" (width - List.length l))
              (filter (fun l => negb (Nat.ltb width (List.length l))) ls),
          List.length (filter (fun l => Nat.ltb width (List.length l)) ls)).
Proof.
  induction ls as [|l ls IH]; intros room left Hr Hl; [reflexivity|].
  cbn [List.length] in Hr.
  cbn [Extract.read_lines negb andb filter].
  destruct (Nat.ltb width (List.length l)) eqn:E; cbn [negb].
  - rewrite IH by lia. reflexivity.
  - apply Nat.ltb_ge in E.
    replace (List.length (l ++ repeat "" (width - List.length l))) with width
      by (rewrite length_app, repeat_length; lia).
    destruct ls as [|l' ls].
    + now destruct room as [|[|room]]; destruct left as [|[|left]].
    + cbn [List.length] in Hr.
      destruct room as [|[|room]]; [lia | lia |].
      destruct left as [|left]; [lia|].
      rewrite IH by (cbn [List.length]; lia). reflexivity.
Qed.

(** The rows the reader keeps under [warn] and the lines it reports,
    when it reads the lines in one pass. *)
Lemma read_lines_warn (f : Extract.SourceFile) (size buffer room left : nat) :
  List.length (Extract.lines f) <= room -> room <= left ->
  Extract.read_lines warn size buffer true (List.length (Extract.header f))
    room left (Extract.lines f)
  = Ok (map (Malformed.completed f) (Malformed.kept f), Malformed.skipped f).
Proof.
  unfold Malformed.kept, Malformed.skipped, Malformed.completed,
    Malformed.too_long, Malformed.expected.
  destruct (Extract.lines f) as [|l ls]; [reflexivity|]. intros Hp Hl.
  cbn [List.length] in Hp.
  cbn [Extract.read_lines negb andb hd firstn skipn app map].
  set (h := List.length (Extract.header f)).
  replace (List.length (l ++ repeat "" (h - List.length l)))
    with (Nat.max h (List.length l))
    by (rewrite length_app, repeat_length; lia).
  replace (h - List.length l) with (Nat.max h (List.length l) - List.length l)
    by lia.
  destruct ls as [|l' ls].
  - now destruct room as [|[|room]]; destruct left as [|[|left]].
  - cbn [List.length] in Hp.
    destruct room as [|[|room]]; [lia | lia |].
    destruct left as [|left]; [lia|].
    rewrite read_lines_rest by (cbn [List.length]; lia). reflexivity.
Qed.

Lemma kept_or_skipped (f : Extract.SourceFile) :
  List.length (Malformed.kept f) + Malformed.skipped f
  = List.length (Extract.lines f).
Proof.
  unfold Malformed.kept, Malformed.skipped.
  rewrite length_app.
  pose proof (filter_length (Malformed.too_long f) (skipn 1 (Extract.lines f))).
  destruct (Extract.lines f) as [|l ls]; [reflexivity|].
  cbn [firstn skipn List.length] in *. lia.
Qed.

Lemma chunks_of_concat {A : Type} (size fuel : nat) :
  forall l : list A,
    List.length l <= fuel ->
    List.concat (Extract.chunks_of fuel (S size) l) = l.
Proof.
  induction fuel as [|fuel IH]; intros l Hl.
  - destruct l; [reflexivity | simpl in Hl; lia].
  - destruct l as [|x l]; [reflexivity|].
    change (Extract.chunks_of (S fuel) (S size) (x :: l))
      with (firstn (S size) (x :: l)
            :: Extract.chunks_of fuel (S size) (skipn (S size) (x :: l))).
    cbn [List.concat]. rewrite IH.
    + apply firstn_skipn.
    + rewrite length_skipn. simpl in *. lia.
Qed.

Lemma concat_frames_nrows (step := fun acc d =>
    mkFrame (nrows acc + nrows d)
            (Extract.append_columns (columns acc) (columns d)))
    (cs : list DataFrame) :
  forall acc, nrows (fold_left step cs acc) = nrows acc + list_sum (map nrows cs).
Proof.
  induction cs as [|c cs IH]; intros acc; simpl; [lia|].
  rewrite IH. simpl. lia.
Qed.

Lemma chunk_frames_nrows (column_names : list string -> list string)
    (column_of : list (list string) -> nat -> dtype * list cell)
    (names : list string) (lead : nat) (chunks : list (list (list string))) :
  list_sum (map nrows (map (Extract.frame_of column_names column_of names lead)
                           chunks))
  = List.length (List.concat chunks).
Proof.
  induction chunks as [|c chunks IH]; simpl; [reflexivity|].
  rewrite IH, length_app. reflexivity.
Qed.

(** The frames of the chunks hold the rows that were read. *)
Lemma chunked_frames_nrows (column_names : list string -> list string)
    (column_of : list (list string) -> nat -> dtype * list cell)
    (names : list string) (lead size : nat) (rows : list (list string)) :
  exists df,
    Extract.concat
      (match rows with
       | [] => [Extract.frame_of column_names column_of names lead []]
       | r :: rs =>
           map (Extract.frame_of column_names column_of names lead)
               (Extract.chunks_of (List.length (r :: rs)) (S size) (r :: rs))
       end) = Ok df
    /\ nrows df = List.length rows.
Proof.
  destruct rows as [|r rs].
  - eexists. split; reflexivity.
  - set (rows := r :: rs).
    change (Extract.chunks_of (List.length rows) (S size) rows)
      with (firstn (S size) rows
            :: Extract.chunks_of (List.length rs) (S size) (skipn (S size) rows)).
    cbn [map Extract.concat].
    eexists. split; [reflexivity|].
    rewrite concat_frames_nrows, chunk_frames_nrows.
    cbn [Extract.frame_of nrows]. rewrite <- length_app.
    change (firstn (S size) rows
            ++ List.concat (Extract.chunks_of (List.length rs) (S size)
                              (skipn (S size) rows)))
      with (List.concat (Extract.chunks_of (List.length rows) (S size) rows)).
    now rewrite chunks_of_concat by lia.
Qed.

Lemma readable_parts (f : Extract.SourceFile) :
  Malformed.readable f = true -> Malformed.tokenizes f = true ->
  Extract.validate_file f = Ok tt /\ Extract.open_file f = Ok tt.
Proof.
  unfold Malformed.readable, Malformed.tokenizes, Extract.validate_file,
    Extract.open_file.
  rewrite !andb_true_iff. intros [[[[He Hf] Hs] Hd] Hh] Ht.
  rewrite He, Hf, Hs, Hd. simpl.
  destruct (Extract.read_error f); [discriminate|].
  destruct (Extract.header f); [discriminate | now split].
Qed.

(** What the extractor returns for a file it can read. *)
Lemma extractor_on_readable (column_names : list string -> list string)
    (column_of : list (list string) -> nat -> dtype * list cell)
    (buffer_lines : nat -> nat)
    (f : Extract.SourceFile) (chunksize : option nat) :
  Malformed.readable f = true -> Malformed.tokenizes f = true ->
  exists df reported,
    Extract.DataExtractor_extract_csv column_names column_of buffer_lines
      f chunksize
    = Ok (df, reported)
    /\ nrows df + reported = List.length (Extract.lines f)
    /\ (Malformed.one_pass buffer_lines f chunksize ->
        reported = Malformed.skipped f
        /\ nrows df = List.length (Malformed.kept f)
        /\ (Extract.chunked chunksize f = false ->
            df = Extract.frame_of column_names column_of (Extract.header f)
                   (Malformed.expected f - List.length (Extract.header f))
                   (map (Malformed.completed f) (Malformed.kept f)))).
Proof.
  intros R T. destruct (readable_parts f R T) as [Hv Ho].
  unfold Extract.DataExtractor_extract_csv, Malformed.one_pass.
  rewrite Hv. cbn [bind].
  destruct (Extract.chunked chunksize f) eqn:C.
  - destruct chunksize as [[|size]|]; try discriminate.
    unfold Extract.read_csv_chunks. rewrite Ho. cbn [bind].
    change (Extract.table_width f) with (Malformed.expected f).
    set (buffer := buffer_lines (Malformed.expected f)).
    destruct (read_lines_total (S size) buffer (Extract.lines f) true
                (List.length (Extract.header f)) (Nat.min buffer (S size))
                (S size))
      as (rows & n & E & L).
    rewrite E. cbn [bind fst snd].
    destruct (chunked_frames_nrows column_names column_of (Extract.header f)
                (Extract.leading_cols f) size rows) as (df & Ec & N).
    rewrite Ec. cbn [bind Extract.extract_handlers].
    exists df, n. split; [reflexivity|]. split; [lia|].
    intros O. rewrite read_lines_warn in E by (exact O || apply Nat.le_min_r).
    injection E as <- <-. split; [reflexivity|].
    split; [|discriminate]. now rewrite N, length_map.
  - unfold Extract.read_csv. rewrite Ho. cbn [bind].
    change (Extract.table_width f) with (Malformed.expected f).
    set (buffer := buffer_lines (Malformed.expected f)).
    destruct (read_lines_total buffer buffer (Extract.lines f) true
                (List.length (Extract.header f)) buffer buffer)
      as (rows & n & E & L).
    rewrite E. cbn [bind fst snd Extract.extract_handlers].
    eexists; eexists. split; [reflexivity|]. cbn [Extract.frame_of nrows].
    split; [exact L|].
    intros O. rewrite read_lines_warn in E by (exact O || apply Nat.le_refl).
    injection E as <- <-. split; [reflexivity|].
    split; [apply length_map | reflexivity].
Qed.

(** C7, as amended.  The extractor never consults the configuration: on
    every file it can read, with or without chunking, it succeeds and
    handles the data lines as the reader does under [warn], so that every
    data line is either a row of the result or reported as skipped.
    Where the tokenizer reads the data lines in one pass, the first data
    line is always kept; a later line is dropped, and reported, when it
    has more fields than the reader expects, which are those of the
    header or those of the first data line when it has more; every other
    line is kept, a short one completed with empty fields; and the
    columns are read from the kept lines, after the fields the first
    data line has beyond the header. *)
Theorem extract_csv_policy_is_warn (column_names : list string -> list string)
    (column_of : list (list string) -> nat -> dtype * list cell)
    (buffer_lines : nat -> nat)
    (f : Extract.SourceFile) (chunksize : option nat) :
  Malformed.readable f = true -> Malformed.tokenizes f = true ->
  exists df reported,
    Extract.DataExtractor_extract_csv column_names column_of buffer_lines
      f chunksize
    = Ok (df, reported)
    /\ nrows df + reported = List.length (Extract.lines f)
    /\ (Malformed.one_pass buffer_lines f chunksize ->
        reported = Malformed.skipped f
        /\ nrows df = List.length (Malformed.kept f)
        /\ (Extract.chunked chunksize f = false ->
            columns df
            = map (fun j =>
                     let (k, vs) :=
                       column_of (map (Malformed.completed f) (Malformed.kept f))
                                 (Malformed.expected f
                                  - List.length (Extract.header f) + j) in
                     mkSeries (nth j (column_names (Extract.header f)) "") k vs)
                  (seq 0 (List.length (Extract.header f))))).
Proof.
  intros R T.
  destruct (extractor_on_readable column_names column_of buffer_lines
              f chunksize R T) as (df & n & E & L & H).
  exists df, n. split; [exact E|]. split; [exact L|].
  intros O. destruct (H O) as (Hn & N & F).
  split; [exact Hn|]. split; [exact N|].
  intros C. now rewrite (F C).
Qed.

Lemma receipts_one_pass :
  Malformed.one_pass Malformed.buffered Malformed.receipts None.
Proof. apply Nat.leb_le. vm_compute. reflexivity. Qed.

(** The theorem of C7 at the file [Malformed.receipts], whose first data
    line has a field more than the header: that line is kept, its first
    field left out of the columns, the short line completed and the line
    of four fields dropped. *)
Lemma extract_csv_policy_is_warn_receipts :
  exists df,
    Extract.DataExtractor_extract_csv Malformed.named Malformed.typed
      Malformed.buffered Malformed.receipts None
    = Ok (df, 1)
    /\ nrows df = 2
    /\ columns df = [mkSeries "id" numeric [Num 1; Num 30];
                     mkSeries "amount" numeric [Num 20; Null]].
Proof.
  destruct (extract_csv_policy_is_warn Malformed.named Malformed.typed
              Malformed.buffered Malformed.receipts None eq_refl eq_refl)
    as (df & n & E & _ & H).
  destruct (H receipts_one_pass) as (Hn & N & C).
  exists df. split; [rewrite E, Hn; reflexivity|]. split; [exact N|].
  rewrite (C eq_refl). reflexivity.
Defined.

(** C7, as stated, fails under a configuration that selects [error]: the
    file with a line of three fields under a header of two is extracted,
    the long line dropped, where the configured policy asks for a
    failure. *)
Lemma configured_policy_ignored :
  Config.EXTRACT_ON_BAD_LINES Malformed.strict = error
  /\ Extract.spec_extract_csv Malformed.named Malformed.typed
       Malformed.buffered Malformed.strict Malformed.invoices None
     = Raise (mkExn ExtractionError "CSV parse error: Error tokenizing data")
  /\ Extract.DataExtractor_extract_csv Malformed.named Malformed.typed
       Malformed.buffered Malformed.invoices None
     = Ok (mkFrame 2 [mkSeries "id" numeric [Num 1; Num 3];
                      mkSeries "amount" numeric [Num 20; Null]], 1).
Proof. repeat split. Qed.

(** ** The file runner *)

Section FileRunner.

Import Pipeline.
Import Runs.

Variable w : World.
Variable csv_file : string.

Ltac read_log :=
  unfold attempts_logged, files_taken_up, reports;
  repeat rewrite <- app_assoc; simpl;
  repeat rewrite flat_map_app; simpl; repeat rewrite app_nil_r;
  try reflexivity.

Ltac through_body :=
  unfold attempt_result, succeeds, extracted, rows_read, attempt_result,
    attempt_body, seqM, info, update, call, try_except_LoadError, emit;
  simpl;
  repeat match goal with
         | |- context [extract_csv w csv_file ?j] =>
             destruct (extract_csv w csv_file j) as [[?|[?|]]|?] eqn:?; simpl
         | |- context [transform w csv_file ?j ?a] =>
             destruct (transform w csv_file j a) as [[?|[?|]]|?] eqn:?; simpl
         | |- context [to_csv w csv_file ?j ?a ?b] =>
             destruct (to_csv w csv_file j a b) as [?|?] eqn:?; simpl
         | |- context [truthy ?x] => destruct (truthy x) eqn:?; simpl
         | |- context [load_df_to_postgres w csv_file ?j ?a ?b] =>
             destruct (load_df_to_postgres w csv_file j a b) as [?|?] eqn:?;
             simpl
         | |- context [is_load_error ?e] =>
             destruct (is_load_error e) eqn:?; simpl
         end.

(** One attempt: its result does not depend on the state it starts
    from, and it leaves the failure counters alone. *)
Lemma attempt_body_effect (j max_retries : nat) (s : State) :
  fst (attempt_body w csv_file j max_retries s) = attempt_result w csv_file j
  /\ effect s (snd (attempt_body w csv_file j max_retries s)) [j]
            (if succeeds w csv_file j then 1 else 0)
            (extracted w csv_file j).
Proof.
  split.
  - through_body; reflexivity.
  - split; through_body;
      try (eexists; rewrite <- ?app_assoc; reflexivity);
      try congruence; try lia; read_log.
Qed.

Lemma effect_refl (s : State) : effect s s [] 0 0.
Proof.
  split; rewrite ?app_nil_r, ?Nat.add_0_r; try reflexivity.
  exists []. now rewrite app_nil_r.
Qed.

Lemma effect_trans (s1 s2 s3 : State) (a1 a2 : list nat) (p1 p2 r1 r2 : nat) :
  effect s1 s2 a1 p1 r1 -> effect s2 s3 a2 p2 r2 ->
  effect s1 s3 (a1 ++ a2) (p1 + p2) (r1 + r2).
Proof.
  intros [[l1 L1] A1 F1 R1 X1 E1 P1 W1] [[l2 L2] A2 F2 R2 X2 E2 P2 W2].
  split; try congruence; try lia.
  - exists (l1 ++ l2). now rewrite L2, L1, app_assoc.
  - now rewrite A2, A1, app_assoc.
Qed.

Lemma effect_retrying (s : State) (j : nat) (msg : string) :
  effect s (emit (Retrying j msg) s) [] 0 0.
Proof.
  split; unfold emit; simpl; rewrite ?Nat.add_0_r; try reflexivity;
    try read_log.
  now eexists.
Qed.

Lemma fails_retryably_result (j : nat) :
  fails_retryably w csv_file j = true ->
  exists e, attempt_result w csv_file j = Raise e /\ retryable e = true.
Proof.
  unfold fails_retryably.
  destruct (attempt_result w csv_file j) as [|e]; [discriminate|].
  intros H. now exists e.
Qed.

Lemma fails_not_succeeds (j : nat) :
  fails_retryably w csv_file j = true -> succeeds w csv_file j = false.
Proof.
  unfold fails_retryably, succeeds.
  now destruct (attempt_result w csv_file j).
Qed.

(** The four ways one turn of the loop ends. *)
Lemma retry_loop_success (max_retries j : nat) (rest : list nat) (s : State) :
  succeeds w csv_file j = true ->
  retry_loop w csv_file max_retries (j :: rest) s
  = (true, snd (attempt_body w csv_file j max_retries s)).
Proof.
  unfold succeeds. intros H. cbn [retry_loop].
  destruct (attempt_body_effect j max_retries s) as [Hr _].
  destruct (attempt_body w csv_file j max_retries s) as [r s1].
  simpl in *. subst r.
  now destruct (attempt_result w csv_file j).
Qed.

Lemma retry_loop_again (max_retries j : nat) (rest : list nat) (s : State)
    (e : exn) :
  attempt_result w csv_file j = Raise e -> retryable e = true ->
  j < max_retries ->
  retry_loop w csv_file max_retries (j :: rest) s
  = retry_loop w csv_file max_retries rest
      (emit (Retrying j (exn_msg e))
            (snd (attempt_body w csv_file j max_retries s))).
Proof.
  intros H Hre Hlt. cbn [retry_loop].
  destruct (attempt_body_effect j max_retries s) as [Hr _].
  destruct (attempt_body w csv_file j max_retries s) as [r s1].
  simpl in *. subst r. rewrite H, Hre.
  apply Nat.ltb_lt in Hlt. now rewrite Hlt.
Qed.

Lemma retry_loop_give_up (max_retries j : nat) (rest : list nat) (s : State)
    (e : exn) :
  attempt_result w csv_file j = Raise e -> retryable e = true ->
  max_retries <= j ->
  retry_loop w csv_file max_retries (j :: rest) s
  = (false, fail_file (csv_file ++ ": " ++ exn_msg e)
                      (snd (attempt_body w csv_file j max_retries s))).
Proof.
  intros H Hre Hge. cbn [retry_loop].
  destruct (attempt_body_effect j max_retries s) as [Hr _].
  destruct (attempt_body w csv_file j max_retries s) as [r s1].
  simpl in *. subst r. rewrite H, Hre.
  apply Nat.ltb_ge in Hge. now rewrite Hge.
Qed.

Lemma retry_loop_fatal (max_retries j : nat) (rest : list nat) (s : State)
    (e : exn) :
  attempt_result w csv_file j = Raise e -> retryable e = false ->
  retry_loop w csv_file max_retries (j :: rest) s
  = (false, fail_file (csv_file ++ ": Unexpected error: " ++ exn_msg e)
                      (snd (attempt_body w csv_file j max_retries s))).
Proof.
  intros H Hre. cbn [retry_loop].
  destruct (attempt_body_effect j max_retries s) as [Hr _].
  destruct (attempt_body w csv_file j max_retries s) as [r s1].
  simpl in *. subst r. now rewrite H, Hre.
Qed.

(** A run of attempts that all fail with a stage error, below the
    bound: the loop goes through them. *)
Lemma retry_loop_retries (max_retries n : nat) :
  forall (a : nat) (rest : list nat) (s : State),
    (forall j, a <= j < a + n -> fails_retryably w csv_file j = true) ->
    a + n <= max_retries ->
    exists s',
      retry_loop w csv_file max_retries (seq a n ++ rest) s
      = retry_loop w csv_file max_retries rest s'
      /\ effect s s' (seq a n) 0
                (list_sum (map (extracted w csv_file) (seq a n))).
Proof.
  induction n as [|n IH]; intros a rest s Hf Hb.
  - exists s. split; [reflexivity | apply effect_refl].
  - destruct (fails_retryably_result a) as (e & He & Hre); [apply Hf; lia|].
    cbn [seq app]. rewrite (retry_loop_again _ _ _ _ e He Hre) by lia.
    destruct (IH (S a) rest
                (emit (Retrying a (exn_msg e))
                      (snd (attempt_body w csv_file a max_retries s))))
      as (s' & Es & Eff).
    { intros j Hj. apply Hf. lia. }
    { lia. }
    exists s'. split; [exact Es|].
    destruct (attempt_body_effect a max_retries s) as [_ E1].
    rewrite (fails_not_succeeds a) in E1 by (apply Hf; lia).
    pose proof (effect_trans _ _ _ _ _ _ _ _ _
                  (effect_trans _ _ _ _ _ _ _ _ _ E1
                     (effect_retrying _ a (exn_msg e))) Eff) as E.
    simpl in E. rewrite Nat.add_0_r in E. exact E.
Qed.

Lemma after_processing (s : State) :
  attempts_logged (log (emit (Processing csv_file) s)) = attempts_logged (log s)
  /\ stats (emit (Processing csv_file) s) = stats s
  /\ files_taken_up (log (emit (Processing csv_file) s))
     = files_taken_up (log s) ++ [csv_file]
  /\ reports (log (emit (Processing csv_file) s)) = reports (log s).
Proof. unfold emit. simpl. repeat split; read_log. Qed.

(** The loop of [process_file] up to attempt [k]. *)
Lemma process_file_reaches (max_retries k : nat) (s : State) :
  1 <= k <= max_retries ->
  (forall j, 1 <= j < k -> fails_retryably w csv_file j = true) ->
  exists s',
    process_file w csv_file max_retries s
    = retry_loop w csv_file max_retries (k :: seq (S k) (max_retries - k)) s'
    /\ effect (emit (Processing csv_file) s) s' (seq 1 (k - 1)) 0
              (list_sum (map (extracted w csv_file) (seq 1 (k - 1)))).
Proof.
  intros Hk Hf. unfold process_file.
  assert (E : seq 1 max_retries
              = seq 1 (k - 1) ++ k :: seq (S k) (max_retries - k)).
  { replace max_retries with ((k - 1) + S (max_retries - k)) at 1 by lia.
    rewrite seq_app. replace (1 + (k - 1)) with k by lia. reflexivity. }
  rewrite E. apply retry_loop_retries; [|lia].
  intros j Hj. apply Hf. lia.
Qed.

Lemma seq_snoc (k : nat) : 1 <= k -> seq 1 (k - 1) ++ [k] = seq 1 k.
Proof.
  intros Hk. replace k with ((k - 1) + 1) at 3 by lia.
  rewrite seq_app. simpl. do 2 f_equal. lia.
Qed.

Lemma fail_file_effect (msg : string) (s : State) :
  attempts_logged (log (fail_file msg s)) = attempts_logged (log s)
  /\ files_taken_up (log (fail_file msg s)) = files_taken_up (log s)
  /\ reports (log (fail_file msg s)) = reports (log s)
  /\ files_failed (stats (fail_file msg s)) = files_failed (stats s) + 1
  /\ files_processed (stats (fail_file msg s)) = files_processed (stats s)
  /\ rows_extracted (stats (fail_file msg s)) = rows_extracted (stats s)
  /\ errors (stats (fail_file msg s)) = errors (stats s) ++ [msg].
Proof. unfold fail_file. simpl. repeat split; read_log. Qed.

End FileRunner.

Section Bound.

Import Pipeline.
Import Runs.

Variable w : World.
Variable csv_file : string.
Variable max_retries : nat.

(** Whatever the collaborators do, the loop makes consecutive
    attempts and never more than the range holds. *)
Lemma retry_loop_bound (n : nat) :
  forall (a : nat) (s : State),
    exists m,
      m <= n
      /\ attempts_logged (log (snd (retry_loop w csv_file max_retries (seq a n) s)))
         = attempts_logged (log s) ++ seq a m.
Proof.
  induction n as [|n IH]; intros a s.
  - exists 0. simpl. now rewrite app_nil_r.
  - cbn [seq].
    destruct (attempt_body_effect w csv_file a max_retries s)
      as [_ [_ A _ _ _ _ _ _]].
    destruct (attempt_result w csv_file a) as [[]|e] eqn:Res.
    + rewrite retry_loop_success by (unfold succeeds; now rewrite Res).
      exists 1. split; [lia | exact A].
    + destruct (retryable e) eqn:Hre.
      * destruct (Nat.lt_ge_cases a max_retries) as [Hlt|Hge].
        -- rewrite (retry_loop_again w csv_file _ _ _ _ e Res Hre Hlt).
           destruct (IH (S a)
                       (emit (Retrying a (exn_msg e))
                             (snd (attempt_body w csv_file a max_retries s))))
             as (m & Hm & Hl).
           destruct (effect_retrying
                       (snd (attempt_body w csv_file a max_retries s)) a
                       (exn_msg e)) as [_ A2 _ _ _ _ _ _].
           exists (S m). split; [lia|].
           rewrite Hl, A2, A, app_nil_r, <- app_assoc. reflexivity.
        -- rewrite (retry_loop_give_up w csv_file _ _ _ _ e Res Hre Hge).
           exists 1. split; [lia|]. cbn [snd].
           destruct (fail_file_effect (csv_file ++ ": " ++ exn_msg e)
                       (snd (attempt_body w csv_file a max_retries s)))
             as (FA & _).
           now rewrite FA.
      * rewrite (retry_loop_fatal w csv_file _ _ _ _ e Res Hre).
        exists 1. split; [lia|]. cbn [snd].
        destruct (fail_file_effect
                    (csv_file ++ ": Unexpected error: " ++ exn_msg e)
                    (snd (attempt_body w csv_file a max_retries s)))
          as (FA & _).
        now rewrite FA.
Qed.

Lemma process_file_bound (s : State) :
  exists m,
    m <= max_retries
    /\ attempts_logged (log (snd (process_file w csv_file max_retries s)))
       = attempts_logged (log s) ++ seq 1 m.
Proof.
  unfold process_file.
  destruct (retry_loop_bound max_retries 1 (emit (Processing csv_file) s))
    as (m & Hm & Hl).
  exists m. split; [exact Hm|].
  destruct (after_processing csv_file s) as (PA & _).
  now rewrite Hl, PA.
Qed.

End Bound.

Section FileOutcomes.

Import Pipeline.
Import Runs.

Variable w : World.
Variable csv_file : string.
Variable max_retries : nat.
Variable s : State.

Lemma total_snoc (k : nat) :
  1 <= k -> extracted_through w csv_file (k - 1) + extracted w csv_file k
  = extracted_through w csv_file k.
Proof.
  intros Hk. unfold extracted_through. rewrite <- (seq_snoc k Hk).
  rewrite map_app, list_sum_app. simpl. lia.
Qed.

(** Attempt [k] is reached and ends normally. *)
Lemma process_file_success (k : nat) :
  1 <= k <= max_retries ->
  (forall j, 1 <= j < k -> fails_retryably w csv_file j = true) ->
  succeeds w csv_file k = true ->
  fst (process_file w csv_file max_retries s) = true
  /\ effect (emit (Processing csv_file) s)
            (snd (process_file w csv_file max_retries s))
            (seq 1 k) 1 (extracted_through w csv_file k)
  /\ exists s1 l,
       log s1 = log s ++ l
       /\ snd (process_file w csv_file max_retries s)
          = snd (attempt_body w csv_file k max_retries s1).
Proof.
  intros Hk Hf Hs.
  destruct (process_file_reaches w csv_file max_retries k s Hk Hf)
    as (s1 & E & Eff).
  rewrite E, (retry_loop_success w csv_file _ _ _ _ Hs). simpl.
  split; [reflexivity|]. split.
  - destruct (attempt_body_effect w csv_file k max_retries s1) as [_ E2].
    rewrite Hs in E2.
    pose proof (effect_trans _ _ _ _ _ _ _ _ _ Eff E2) as E3.
    rewrite (seq_snoc k) in E3 by lia.
    fold (extracted_through w csv_file (k - 1)) in E3. rewrite (total_snoc k) in E3 by lia.
    exact E3.
  - destruct (effect_log _ _ _ _ _ Eff) as [l Hl].
    exists s1. eexists. split; [|reflexivity].
    rewrite Hl. unfold emit. simpl. rewrite <- app_assoc. reflexivity.
Qed.

(** Attempt [k] is reached and ends with an exception that is no stage
    error. *)
Lemma process_file_fatal (k : nat) (e : exn) :
  1 <= k <= max_retries ->
  (forall j, 1 <= j < k -> fails_retryably w csv_file j = true) ->
  attempt_result w csv_file k = Raise e ->
  retryable e = false ->
  exists s2,
    process_file w csv_file max_retries s
    = (false, fail_file (csv_file ++ ": Unexpected error: " ++ exn_msg e) s2)
    /\ effect (emit (Processing csv_file) s) s2 (seq 1 k) 0 (extracted_through w csv_file k).
Proof.
  intros Hk Hf He Hre.
  destruct (process_file_reaches w csv_file max_retries k s Hk Hf)
    as (s1 & E & Eff).
  rewrite E, (retry_loop_fatal w csv_file _ _ _ _ e He Hre).
  eexists. split; [reflexivity|].
  destruct (attempt_body_effect w csv_file k max_retries s1) as [_ E2].
  assert (Hs : succeeds w csv_file k = false)
    by (unfold succeeds; now rewrite He).
  rewrite Hs in E2.
  pose proof (effect_trans _ _ _ _ _ _ _ _ _ Eff E2) as E3.
  rewrite (seq_snoc k) in E3 by lia.
  fold (extracted_through w csv_file (k - 1)) in E3. rewrite (total_snoc k) in E3 by lia.
  exact E3.
Qed.

(** Every attempt ends with a stage error. *)
Lemma process_file_exhausted :
  1 <= max_retries ->
  (forall j, 1 <= j <= max_retries -> fails_retryably w csv_file j = true) ->
  exists e s2,
    attempt_result w csv_file max_retries = Raise e
    /\ retryable e = true
    /\ process_file w csv_file max_retries s
       = (false, fail_file (csv_file ++ ": " ++ exn_msg e) s2)
    /\ effect (emit (Processing csv_file) s) s2 (seq 1 max_retries) 0
              (extracted_through w csv_file max_retries).
Proof.
  intros Hm Hf.
  destruct (process_file_reaches w csv_file max_retries max_retries s)
    as (s1 & E & Eff); [lia | intros j Hj; apply Hf; lia |].
  destruct (fails_retryably_result w csv_file max_retries) as (e & He & Hre);
    [apply Hf; lia|].
  rewrite E, (retry_loop_give_up w csv_file _ _ _ _ e He Hre) by lia.
  exists e. eexists.
  split; [exact He|]. split; [exact Hre|]. split; [reflexivity|].
  destruct (attempt_body_effect w csv_file max_retries max_retries s1)
    as [_ E2].
  rewrite (fails_not_succeeds w csv_file max_retries) in E2
    by (apply Hf; lia).
  pose proof (effect_trans _ _ _ _ _ _ _ _ _ Eff E2) as E3.
  rewrite (seq_snoc max_retries) in E3 by lia.
  fold (extracted_through w csv_file (max_retries - 1)) in E3.
  rewrite (total_snoc max_retries) in E3 by lia.
  exact E3.
Qed.

End FileOutcomes.

(** ** Claims about one file *)

Import Pipeline.
Import Runs.

Lemma not_stage_error (e : exn) :
  exn_type e <> ExtractionError -> exn_type e <> TransformError ->
  exn_type e <> LoadError -> retryable e = false.
Proof.
  unfold retryable. destruct (exn_type e); intros H1 H2 H3;
    [now elim H1 | now elim H2 | now elim H3 | reflexivity].
Qed.

Lemma constant_rows_from (w : World) (csv_file : string) (n k : nat) :
  forall a,
    (forall j, a <= j < a + k -> rows_read w csv_file j = Some n) ->
    list_sum (map (extracted w csv_file) (seq a k)) = k * n.
Proof.
  induction k as [|k IH]; intros a H; [reflexivity|].
  change (list_sum (map (extracted w csv_file) (seq a (S k))))
    with (extracted w csv_file a
          + list_sum (map (extracted w csv_file) (seq (S a) k))).
  rewrite IH by (intros j Hj; apply H; lia).
  unfold extracted. rewrite H by lia. lia.
Qed.

Lemma constant_rows (w : World) (csv_file : string) (n k : nat) :
  (forall j, 1 <= j <= k -> rows_read w csv_file j = Some n) ->
  extracted_through w csv_file k = k * n.
Proof.
  intros H. apply constant_rows_from. intros j Hj. apply H. lia.
Qed.

(** C1.  [max_retries] defaults to 3, and no more than [max_retries]
    attempts are ever made.  If the attempts before attempt
    [k <= max_retries] all end with a stage error (ExtractionError,
    TransformError or LoadError) and attempt [k] goes through, the file
    is successful after exactly the attempts 1 to [k], each of which
    starts the sequence afresh; if every attempt ends with a stage
    error, the file is not successful, exactly the attempts 1 to
    [max_retries] are made, and the file is counted as failed. *)
Theorem process_file_retry_policy (w : World) (csv_file : string)
    (max_retries : nat) (s : State) :
  let r := process_file w csv_file max_retries s in
  default_max_retries = 3
  /\ (exists m,
        m <= max_retries
        /\ attempts_logged (log (snd r)) = attempts_logged (log s) ++ seq 1 m)
  /\ (forall k,
        1 <= k <= max_retries ->
        (forall j, 1 <= j < k -> fails_retryably w csv_file j = true) ->
        succeeds w csv_file k = true ->
        fst r = true
        /\ attempts_logged (log (snd r)) = attempts_logged (log s) ++ seq 1 k
        /\ files_processed (stats (snd r)) = files_processed (stats s) + 1
        /\ files_failed (stats (snd r)) = files_failed (stats s)
        /\ errors (stats (snd r)) = errors (stats s))
  /\ ((forall j, 1 <= j <= max_retries -> fails_retryably w csv_file j = true) ->
      fst r = false
      /\ attempts_logged (log (snd r))
         = attempts_logged (log s) ++ seq 1 max_retries
      /\ files_processed (stats (snd r)) = files_processed (stats s)
      /\ (1 <= max_retries ->
          files_failed (stats (snd r)) = files_failed (stats s) + 1
          /\ exists e,
               attempt_result w csv_file max_retries = Raise e
               /\ errors (stats (snd r))
                  = errors (stats s) ++ [csv_file ++ ": " ++ exn_msg e]%string)).
Proof.
  intros r. subst r. split; [reflexivity|].
  split; [apply process_file_bound|].
  destruct (after_processing csv_file s) as (PA & PS & _ & _).
  split.
  - intros k Hk Hf Hs.
    destruct (process_file_success w csv_file max_retries s k Hk Hf Hs)
      as (Hr & [_ A _ _ X E P _] & _).
    rewrite PA in A. rewrite PS in X, E, P. now repeat split.
  - intros Hf. destruct max_retries as [|m].
    + unfold process_file. simpl. rewrite app_nil_r.
      split; [reflexivity|]. split; [exact PA|]. split; [reflexivity | lia].
    + destruct (process_file_exhausted w csv_file (S m) s) as
        (e & s2 & He & _ & Ep & [_ A _ _ X E P _]); [lia | exact Hf |].
      rewrite Ep. cbn [fst snd].
      destruct (fail_file_effect (csv_file ++ ": " ++ exn_msg e) s2)
        as (FA & _ & _ & FX & FP & _ & FE).
      rewrite PA in A. rewrite PS in X, E, P.
      split; [reflexivity|]. split; [congruence|]. split; [lia|].
      intros _. split; [lia|]. exists e. split; [exact He | congruence].
Qed.

(** The theorem of C1 in the world [flaky], where the third attempt is
    the first to go through, and in the world [unreadable], where none
    does. *)
Lemma process_file_retry_policy_examples :
  (fst (process_file flaky "a.csv" 3 start) = true
   /\ attempts_logged (log (snd (process_file flaky "a.csv" 3 start))) = [1; 2; 3])
  /\ (fst (process_file unreadable "a.csv" 3 start) = false
      /\ attempts_logged (log (snd (process_file unreadable "a.csv" 3 start)))
         = [1; 2; 3]
      /\ files_failed (stats (snd (process_file unreadable "a.csv" 3 start))) = 1).
Proof.
  split.
  - destruct (process_file_retry_policy flaky "a.csv" 3 start)
      as (_ & _ & H & _).
    destruct (H 3) as (Hr & Ha & _).
    + lia.
    + intros j Hj. assert (Hc : j = 1 \/ j = 2) by lia.
      destruct Hc; subst j; reflexivity.
    + reflexivity.
    + split; [exact Hr | exact Ha].
  - destruct (process_file_retry_policy unreadable "a.csv" 3 start)
      as (_ & _ & _ & H).
    destruct H as (Hr & Ha & _ & Hx).
    + intros j _. reflexivity.
    + destruct Hx as [Hx _]; [lia|].
      split; [exact Hr|]. split; [exact Ha | exact Hx].
Defined.

(** C4.  If the attempts before attempt [k <= max_retries] end with
    stage errors and attempt [k] raises an exception that is none of
    ExtractionError, TransformError and LoadError, the file is failed at
    once: the result is [False], attempt [k] is the last one made, the
    failure counter goes up by one and the error is recorded as
    unexpected. *)
Theorem unexpected_exception_is_fatal (w : World) (csv_file : string)
    (max_retries : nat) (s : State) (k : nat) (e : exn) :
  1 <= k <= max_retries ->
  (forall j, 1 <= j < k -> fails_retryably w csv_file j = true) ->
  attempt_result w csv_file k = Raise e ->
  exn_type e <> ExtractionError ->
  exn_type e <> TransformError ->
  exn_type e <> LoadError ->
  let r := process_file w csv_file max_retries s in
  fst r = false
  /\ attempts_logged (log (snd r)) = attempts_logged (log s) ++ seq 1 k
  /\ files_failed (stats (snd r)) = files_failed (stats s) + 1
  /\ files_processed (stats (snd r)) = files_processed (stats s)
  /\ errors (stats (snd r))
     = errors (stats s) ++ [csv_file ++ ": Unexpected error: " ++ exn_msg e]%string.
Proof.
  intros Hk Hf He H1 H2 H3 r. subst r.
  destruct (after_processing csv_file s) as (PA & PS & _ & _).
  destruct (process_file_fatal w csv_file max_retries s k e Hk Hf He
              (not_stage_error e H1 H2 H3))
    as (s2 & Ep & [_ A _ _ X E P _]).
  rewrite Ep. cbn [fst snd].
  destruct (fail_file_effect
              (csv_file ++ ": Unexpected error: " ++ exn_msg e) s2)
    as (FA & _ & _ & FX & FP & _ & FE).
  rewrite PA in A. rewrite PS in X, E, P.
  split; [reflexivity|]. split; [congruence|]. split; [lia|].
  split; [lia | congruence].
Qed.

(** The theorem of C4 in the world [disk_error]: writing the processed
    file raises an [OSError] on the first attempt. *)
Lemma unexpected_exception_is_fatal_disk_error :
  attempt_result disk_error "a.csv" 1
  = Raise (mkExn (OtherException "OSError") "No space left")
  /\ fst (process_file disk_error "a.csv" 3 start) = false
  /\ attempts_logged (log (snd (process_file disk_error "a.csv" 3 start))) = [1]
  /\ files_failed (stats (snd (process_file disk_error "a.csv" 3 start))) = 1.
Proof.
  split; [reflexivity|].
  destruct (unexpected_exception_is_fatal disk_error "a.csv" 3 start 1
              (mkExn (OtherException "OSError") "No space left"))
    as (Hr & Ha & Hx & _).
  - lia.
  - intros j Hj. lia.
  - reflexivity.
  - discriminate.
  - discriminate.
  - discriminate.
  - split; [exact Hr|]. split; [exact Ha | exact Hx].
Defined.

(** C10.  If on each attempt before attempt [k <= max_retries]
    extraction delivers the [n] rows of the file and a later stage ends
    the attempt with a stage error, and attempt [k] extracts the [n] rows
    and goes through, then [rows_extracted] has grown by [k * n]: the
    file's rows are counted once per attempt, and with a second attempt
    and a non-empty file the counter exceeds the rows of the file. *)
Theorem rows_extracted_counts_every_attempt (w : World) (csv_file : string)
    (max_retries : nat) (s : State) (k n : nat) :
  1 <= k <= max_retries ->
  (forall j, 1 <= j < k ->
             rows_read w csv_file j = Some n
             /\ fails_retryably w csv_file j = true) ->
  rows_read w csv_file k = Some n ->
  succeeds w csv_file k = true ->
  let r := process_file w csv_file max_retries s in
  fst r = true
  /\ rows_extracted (stats (snd r)) = rows_extracted (stats s) + k * n
  /\ (2 <= k -> 1 <= n ->
      rows_extracted (stats s) + n < rows_extracted (stats (snd r))).
Proof.
  intros Hk Hf Hn Hs r. subst r.
  destruct (after_processing csv_file s) as (_ & PS & _ & _).
  destruct (process_file_success w csv_file max_retries s k Hk) as
    (Hr & [_ _ _ _ _ _ _ R] & _); [intros j Hj; now apply Hf | exact Hs |].
  rewrite PS in R. rewrite (constant_rows w csv_file n k) in R.
  - split; [exact Hr|]. split; [exact R|]. intros H2 H1. rewrite R. nia.
  - intros j Hj. destruct (Nat.eq_dec j k) as [->|Hne]; [exact Hn|].
    apply Hf. lia.
Qed.

(** The theorem of C10 in the world [flaky]: three rows, counted on each
    of the three attempts. *)
Lemma rows_extracted_counts_every_attempt_flaky :
  rows_read flaky "a.csv" 3 = Some 3
  /\ rows_extracted (stats (snd (process_file flaky "a.csv" 3 start))) = 9.
Proof.
  split; [reflexivity|].
  destruct (rows_extracted_counts_every_attempt flaky "a.csv" 3 start 3 3)
    as (_ & H & _).
  - lia.
  - intros j Hj. assert (Hc : j = 1 \/ j = 2) by lia.
    destruct Hc; subst j; split; reflexivity.
  - reflexivity.
  - reflexivity.
  - exact H.
Defined.

(** An attempt whose optional load raises a [LoadError]: it goes
    through, and the log ends with the save, the skipped load and the
    success. *)
Lemma attempt_body_load_skipped (w : World) (csv_file : string)
    (k max_retries : nat) (s : State) (df df_transformed : pyobj)
    (n n_t : nat) (e : exn) :
  extract_csv w csv_file k = Ok df ->
  len df = Ok n ->
  transform w csv_file k df = Ok df_transformed ->
  len df_transformed = Ok n_t ->
  to_csv w csv_file k df_transformed (PROCESSED_DIR ++ "/" ++ csv_file) = Ok tt ->
  truthy (getenv_POSTGRES_HOST w csv_file k) = true ->
  load_df_to_postgres w csv_file k df_transformed (stem csv_file) = Raise e ->
  exn_type e = LoadError ->
  attempt_body w csv_file k max_retries s
  = (Ok tt,
     mkState (add_file_processed
                (add_rows_transformed n_t (add_rows_extracted n (stats s))))
             (log s ++ [Attempt k max_retries; Transforming;
                        Saving (PROCESSED_DIR ++ "/" ++ csv_file);
                        Saved n_t; LoadingToDatabase;
                        LoadSkipped (exn_msg e); Succeeded csv_file])).
Proof.
  intros He Hn Ht Hnt Hs Hh Hl Hc.
  unfold attempt_body, seqM, info, update, call, try_except_LoadError, emit.
  cbn [fst snd stats log].
  rewrite He, Hn. cbn [stats log]. rewrite Ht, Hnt. cbn [stats log].
  rewrite Hs, ?Hnt. cbn [stats log]. rewrite Hh, Hl.
  unfold is_load_error. rewrite Hc. cbn [stats log].
  repeat rewrite <- app_assoc. reflexivity.
Qed.

(** C3.  When attempt [k] is reached, extraction, transformation and the
    writing of the processed file succeed, a database host is configured
    and the load raises a [LoadError], the error is logged as a skipped
    load after the processed file was saved, the file is successful and
    counted as processed, and neither the failure counter nor the error
    list changes. *)
Theorem optional_load_error_is_swallowed (w : World) (csv_file : string)
    (max_retries : nat) (s : State) (k : nat) (df df_transformed : pyobj)
    (n n_t : nat) (e : exn) :
  1 <= k <= max_retries ->
  (forall j, 1 <= j < k -> fails_retryably w csv_file j = true) ->
  extract_csv w csv_file k = Ok df ->
  len df = Ok n ->
  transform w csv_file k df = Ok df_transformed ->
  len df_transformed = Ok n_t ->
  to_csv w csv_file k df_transformed (PROCESSED_DIR ++ "/" ++ csv_file) = Ok tt ->
  truthy (getenv_POSTGRES_HOST w csv_file k) = true ->
  load_df_to_postgres w csv_file k df_transformed (stem csv_file) = Raise e ->
  exn_type e = LoadError ->
  let r := process_file w csv_file max_retries s in
  fst r = true
  /\ files_processed (stats (snd r)) = files_processed (stats s) + 1
  /\ files_failed (stats (snd r)) = files_failed (stats s)
  /\ errors (stats (snd r)) = errors (stats s)
  /\ exists l,
       log (snd r)
       = l ++ [Saving (PROCESSED_DIR ++ "/" ++ csv_file); Saved n_t;
               LoadingToDatabase; LoadSkipped (exn_msg e); Succeeded csv_file].
Proof.
  intros Hk Hf He Hn Ht Hnt Hs Hh Hl Hc r. subst r.
  assert (Hok : succeeds w csv_file k = true).
  { unfold succeeds, attempt_result.
    now rewrite (attempt_body_load_skipped w csv_file k 0 _ df df_transformed
                   n n_t e He Hn Ht Hnt Hs Hh Hl Hc). }
  destruct (after_processing csv_file s) as (_ & PS & _ & _).
  destruct (process_file_success w csv_file max_retries s k Hk Hf Hok)
    as (Hr & [_ _ _ _ X E P _] & s1 & l & _ & Hsnd).
  rewrite PS in X, E, P. repeat split; try assumption.
  rewrite Hsnd.
  rewrite (attempt_body_load_skipped w csv_file k max_retries s1 df
             df_transformed n n_t e He Hn Ht Hnt Hs Hh Hl Hc).
  cbn [snd log].
  exists (log s1 ++ [Attempt k max_retries; Transforming]).
  now rewrite <- app_assoc.
Qed.

(** The theorem of C3 in the world [database_down]. *)
Lemma optional_load_error_is_swallowed_database_down :
  fst (process_file database_down "a.csv" 3 start) = true
  /\ files_failed (stats (snd (process_file database_down "a.csv" 3 start))) = 0
  /\ errors (stats (snd (process_file database_down "a.csv" 3 start))) = [].
Proof.
  destruct (optional_load_error_is_swallowed database_down "a.csv" 3 start 1
              three_rows three_rows 3 3
              (mkExn LoadError "Failed to connect to database"))
    as (Hr & _ & Hx & He & _); try reflexivity.
  - lia.
  - intros j Hj. lia.
  - split; [exact Hr|]. split; [exact Hx | exact He].
Defined.

(** ** The type check of [transform] *)

Lemma transform_rejects_other
    (numeric_values : list cell -> outcome (list cell))
    (fillna_mean : DataFrame -> DataFrame) (size : option nat)
    (normalize_cols remove_dups : bool) (handle_missing : string)
    (convert_types : bool) :
  Transform.transform numeric_values fillna_mean (PyOther size)
    normalize_cols remove_dups handle_missing convert_types
  = Raise (mkExn TransformError "Expected DataFrame, got other").
Proof. reflexivity. Qed.

(** C2, as amended.  A value that is not a [DataFrame] makes [transform]
    raise a [TransformError] before any step runs, whichever steps are
    selected; the file runner treats it as it treats every
    [TransformError], as a stage error: when the extractor hands over
    such a value on every attempt, the sequence is re-run until
    [max_retries] attempts are made, and the file is then failed. *)
Theorem type_mismatch_is_a_stage_error
    (numeric_values : list cell -> outcome (list cell))
    (fillna_mean : DataFrame -> DataFrame) :
  (forall size normalize_cols remove_dups handle_missing convert_types,
     exists e,
       Transform.transform numeric_values fillna_mean (PyOther size)
         normalize_cols remove_dups handle_missing convert_types = Raise e
       /\ exn_type e = TransformError
       /\ retryable e = true)
  /\ (forall w csv_file max_retries s,
        (forall j df, transform w csv_file j df
                      = repo_transform numeric_values fillna_mean df) ->
        (forall j, 1 <= j <= max_retries ->
                   exists n, extract_csv w csv_file j = Ok (PyOther (Some n))) ->
        1 <= max_retries ->
        let r := process_file w csv_file max_retries s in
        fst r = false
        /\ attempts_logged (log (snd r))
           = attempts_logged (log s) ++ seq 1 max_retries
        /\ files_processed (stats (snd r)) = files_processed (stats s)
        /\ files_failed (stats (snd r)) = files_failed (stats s) + 1).
Proof.
  split.
  - intros. eexists. rewrite transform_rejects_other. now repeat split.
  - intros w csv_file max_retries s Ht He Hm r. subst r.
    assert (Hf : forall j, 1 <= j <= max_retries ->
                           fails_retryably w csv_file j = true).
    { intros j Hj. destruct (He j Hj) as [n Hn].
      unfold fails_retryably, attempt_result, attempt_body, seqM, info,
        update, call. cbn [fst snd stats log emit].
      rewrite Hn. cbn [len]. rewrite Ht. reflexivity. }
    destruct (process_file_exhausted w csv_file max_retries s Hm Hf)
      as (e & s2 & _ & _ & Ep & [_ A _ _ X _ P _]).
    destruct (after_processing csv_file s) as (PA & PS & _ & _).
    rewrite Ep. cbn [fst snd].
    destruct (fail_file_effect (csv_file ++ ": " ++ exn_msg e) s2)
      as (FA & _ & _ & FX & FP & _ & _).
    rewrite PA in A. rewrite PS in X, P.
    split; [reflexivity|]. split; [congruence|]. split; lia.
Qed.

(** The theorem of C2 in the world [mistyped]. *)
Lemma type_mismatch_is_a_stage_error_mistyped :
  fst (process_file mistyped "a.csv" 3 start) = false
  /\ attempts_logged (log (snd (process_file mistyped "a.csv" 3 start)))
     = [1; 2; 3].
Proof.
  destruct (type_mismatch_is_a_stage_error Coercion.numerals (fun df => df))
    as [_ H].
  destruct (H mistyped "a.csv" 3 start) as (Hr & Ha & _).
  - reflexivity.
  - intros j _. now exists 2.
  - lia.
  - split; [exact Hr | exact Ha].
Defined.

(** C2, as stated, fails where the extractor hands over a list: the
    [TransformError] of the type check is retried twice before the file
    is failed. *)
Lemma type_mismatch_is_retried :
  repo_transform Coercion.numerals (fun df => df) (PyOther (Some 2))
  = Raise (mkExn TransformError "Expected DataFrame, got other")
  /\ log (snd (process_file mistyped "a.csv" 3 start))
     = [Processing "a.csv";
        Attempt 1 3; Transforming; Retrying 1 "Expected DataFrame, got other";
        Attempt 2 3; Transforming; Retrying 2 "Expected DataFrame, got other";
        Attempt 3 3; Transforming;
        Failed "a.csv: Expected DataFrame, got other"].
Proof. split; reflexivity. Qed.

(** ** The pipeline run *)

Section EveryFile.

Variable w : World.

Ltac read_log :=
  unfold attempts_logged, files_taken_up, reports;
  repeat rewrite <- app_assoc; simpl;
  repeat rewrite flat_map_app; simpl; repeat rewrite app_nil_r;
  try reflexivity.

(** What [process_file] leaves behind when the loop has at least one
    turn: no file taken up, no report, and exactly one of the two file
    counters moved, a failure with its message. *)
Lemma retry_loop_settles (csv_file : string) (max_retries n : nat) :
  forall (a : nat) (s : State),
    1 <= n -> a + n = S max_retries ->
    let r := retry_loop w csv_file max_retries (seq a n) s in
    files_taken_up (log (snd r)) = files_taken_up (log s)
    /\ reports (log (snd r)) = reports (log s)
    /\ files_processed (stats (snd r)) + files_failed (stats (snd r))
       = files_processed (stats s) + files_failed (stats s) + 1
    /\ List.length (errors (stats (snd r))) + files_failed (stats s)
       = List.length (errors (stats s)) + files_failed (stats (snd r)).
Proof.
  induction n as [|n IH]; intros a s Hn Ha; [lia|].
  cbn [seq]. cbv zeta.
  destruct (attempt_body_effect w csv_file a max_retries s)
    as [_ [_ _ F R X E P _]].
  destruct (attempt_result w csv_file a) as [[]|e] eqn:Res.
  - rewrite retry_loop_success by (unfold succeeds; now rewrite Res).
    unfold succeeds in P. rewrite Res in P. cbn [fst snd].
    repeat split; try assumption; try lia. rewrite E. lia.
  - unfold succeeds in P. rewrite Res in P.
    destruct (retryable e) eqn:Hre.
    + destruct (Nat.lt_ge_cases a max_retries) as [Hlt|Hge].
      * rewrite (retry_loop_again w csv_file _ _ _ _ e Res Hre Hlt).
        specialize (IH (S a)
                      (emit (Retrying a (exn_msg e))
                            (snd (attempt_body w csv_file a max_retries s)))).
        cbv zeta in IH.
        destruct IH as (IF & IR & IC & IE); [lia | lia |].
        destruct (effect_retrying
                    (snd (attempt_body w csv_file a max_retries s)) a
                    (exn_msg e)) as [_ _ F2 R2 X2 E2 P2 _].
        split; [congruence|]. split; [congruence|].
        rewrite E2, E in IE. split; lia.
      * rewrite (retry_loop_give_up w csv_file _ _ _ _ e Res Hre Hge).
        cbn [fst snd].
        destruct (fail_file_effect (csv_file ++ ": " ++ exn_msg e)
                    (snd (attempt_body w csv_file a max_retries s)))
          as (_ & FF & FR & FX & FP & _ & FE).
        repeat split; try congruence; try lia.
        rewrite FE, length_app, E, FX. simpl. lia.
    + rewrite (retry_loop_fatal w csv_file _ _ _ _ e Res Hre).
      cbn [fst snd].
      destruct (fail_file_effect
                  (csv_file ++ ": Unexpected error: " ++ exn_msg e)
                  (snd (attempt_body w csv_file a max_retries s)))
        as (_ & FF & FR & FX & FP & _ & FE).
      repeat split; try congruence; try lia.
      rewrite FE, length_app, E, FX. simpl. lia.
Qed.

Lemma process_file_settles (csv_file : string) (max_retries : nat) (s : State) :
  1 <= max_retries ->
  let r := process_file w csv_file max_retries s in
  files_taken_up (log (snd r)) = files_taken_up (log s) ++ [csv_file]
  /\ reports (log (snd r)) = reports (log s)
  /\ files_processed (stats (snd r)) + files_failed (stats (snd r))
     = files_processed (stats s) + files_failed (stats s) + 1
  /\ List.length (errors (stats (snd r))) + files_failed (stats s)
     = List.length (errors (stats s)) + files_failed (stats (snd r)).
Proof.
  intros Hm. unfold process_file.
  destruct (retry_loop_settles csv_file max_retries max_retries 1
              (emit (Processing csv_file) s)) as (F & R & C & E);
    [lia | lia |].
  destruct (after_processing csv_file s) as (_ & PS & PF & PR).
  cbv zeta. rewrite PS in C, E. rewrite PF in F. rewrite PR in R.
  now repeat split.
Qed.

(** The loop of [run] over the files. *)
Lemma every_file_taken_up (files : list string) :
  forall s : State,
    let s' := fold_left
                (fun s csv_file =>
                   snd (process_file w csv_file default_max_retries s))
                files s in
    files_taken_up (log s') = files_taken_up (log s) ++ files
    /\ reports (log s') = reports (log s)
    /\ files_processed (stats s') + files_failed (stats s')
       = files_processed (stats s) + files_failed (stats s)
         + List.length files
    /\ List.length (errors (stats s')) + files_failed (stats s)
       = List.length (errors (stats s)) + files_failed (stats s').
Proof.
  induction files as [|f files IH]; intros s; cbv zeta.
  - simpl. rewrite app_nil_r. repeat split; lia.
  - cbn [fold_left].
    destruct (process_file_settles f default_max_retries s) as (F & R & C & E);
      [unfold default_max_retries; lia|].
    destruct (IH (snd (process_file w f default_max_retries s)))
      as (F2 & R2 & C2 & E2).
    repeat split.
    + rewrite F2, F, <- app_assoc. reflexivity.
    + congruence.
    + rewrite C2, C. simpl. lia.
    + lia.
Qed.

Lemma listing_effect (files : list string) :
  forall s : State,
    let s' := fold_left (fun s f => emit (Listed f) s) files s in
    stats s' = stats s
    /\ files_taken_up (log s') = files_taken_up (log s)
    /\ reports (log s') = reports (log s).
Proof.
  induction files as [|f files IH]; intros s; cbv zeta; [now repeat split|].
  cbn [fold_left]. destruct (IH (emit (Listed f) s)) as (S1 & F1 & R1).
  rewrite S1, F1, R1. unfold emit. simpl. repeat split; read_log.
Qed.

End EveryFile.

Lemma run_missing_dir (w : World) :
  raw_dir_exists w = false ->
  run w = (false, mkState new_stats [Started; RawDirMissing]).
Proof. intros H. unfold run. now rewrite H. Qed.

(** The state of [run] when the files have been worked through, before
    the report. *)
Lemma run_with_files (w : World) :
  raw_dir_exists w = true ->
  sorted (glob_csv w) <> [] ->
  exists s,
    run w = (Nat.eqb (files_failed (stats s)) 0,
             mkState (stats s) ((log s ++ [Statistics (stats s)]) ++ [Completed]))
    /\ files_taken_up (log s) = sorted (glob_csv w)
    /\ reports (log s) = []
    /\ files_processed (stats s) + files_failed (stats s)
       = List.length (sorted (glob_csv w))
    /\ List.length (errors (stats s)) = files_failed (stats s).
Proof.
  intros Hd Hne. unfold run. rewrite Hd. cbn [negb].
  destruct (sorted (glob_csv w)) as [|f files] eqn:Hs; [now elim Hne|].
  cbv zeta.
  set (s0 := emit (Found _) _).
  set (s1 := fold_left (fun s f => emit (Listed f) s) (f :: files) s0).
  destruct (listing_effect (f :: files) s0) as (S1 & F1 & R1).
  fold s1 in S1, F1, R1.
  destruct (every_file_taken_up w (f :: files) s1) as (F2 & R2 & C2 & E2).
  set (s2 := fold_left _ (f :: files) s1) in *.
  exists s2. split; [reflexivity|].
  rewrite F2, R2, F1, R1. rewrite S1 in C2, E2.
  repeat split; try reflexivity.
  - simpl in C2. simpl. lia.
  - simpl in E2. lia.
Qed.

(** C5.  When the raw directory exists, the run returns success if and
    only if the count of failed files is zero, and a run that discovers
    no input file returns success; when the raw directory does not
    exist, the run returns failure at once: the counters are untouched,
    no file is taken up and no attempt is made. *)
Theorem run_verdict (w : World) :
  let r := run w in
  (raw_dir_exists w = true ->
   (fst r = true <-> files_failed (stats (snd r)) = 0))
  /\ (raw_dir_exists w = true -> glob_csv w = [] ->
      fst r = true /\ stats (snd r) = new_stats)
  /\ (raw_dir_exists w = false ->
      fst r = false
      /\ stats (snd r) = new_stats
      /\ files_taken_up (log (snd r)) = []
      /\ attempts_logged (log (snd r)) = []).
Proof.
  cbv zeta. split; [|split].
  - intros Hd. destruct (sorted (glob_csv w)) as [|f files] eqn:Hs.
    + unfold run. rewrite Hd, Hs. simpl. now split.
    + destruct (run_with_files w Hd) as (s & E & _); [now rewrite Hs|].
      rewrite E. cbn [fst snd stats]. apply Nat.eqb_eq.
  - intros Hd Hg. unfold run. rewrite Hd, Hg. simpl. now split.
  - intros Hd. rewrite (run_missing_dir w Hd). now repeat split.
Qed.

(** The theorem of C5 in three worlds: a file fails, the directory is
    missing, every file is fine. *)
Lemma run_verdict_examples :
  (fst (run disk_error) = false
   /\ files_failed (stats (snd (run disk_error))) <> 0)
  /\ (fst (run no_raw_dir) = false
      /\ stats (snd (run no_raw_dir)) = new_stats)
  /\ fst (run steady) = true.
Proof.
  split; [|split].
  - destruct (run_verdict disk_error) as (H & _).
    destruct (H eq_refl) as [H1 H2].
    assert (Hx : files_failed (stats (snd (run disk_error))) <> 0)
      by (vm_compute; discriminate).
    split; [|exact Hx].
    destruct (fst (run disk_error)); [now elim Hx; apply H1 | reflexivity].
  - destruct (run_verdict no_raw_dir) as (_ & _ & H).
    destruct (H eq_refl) as (H1 & H2 & _). now split.
  - destruct (run_verdict steady) as (H & _).
    apply (H eq_refl). reflexivity.
Defined.

(** C6.  When the raw directory exists, the run takes up the discovered
    files in sorted order, each as often as it was discovered, whatever
    happens to the files before it: every file ends up counted as
    processed or as failed, every failure has its message in the error
    list, and the one report is written after the last file. *)
Theorem run_takes_up_every_file (w : World) :
  raw_dir_exists w = true ->
  let r := run w in
  files_taken_up (log (snd r)) = sorted (glob_csv w)
  /\ Permutation (glob_csv w) (files_taken_up (log (snd r)))
  /\ Sorted (fun a b => String.leb a b = true) (files_taken_up (log (snd r)))
  /\ files_processed (stats (snd r)) + files_failed (stats (snd r))
     = List.length (glob_csv w)
  /\ List.length (errors (stats (snd r))) = files_failed (stats (snd r))
  /\ (glob_csv w <> [] ->
      exists l,
        log (snd r) = l ++ [Statistics (stats (snd r)); Completed]
        /\ files_taken_up l = sorted (glob_csv w)
        /\ reports l = []).
Proof.
  intros Hd. cbv zeta.
  assert (Hp : Permutation (glob_csv w) (sorted (glob_csv w)))
    by apply PathSort.Permuted_sort.
  assert (Hs : Sorted (fun a b => String.leb a b = true) (sorted (glob_csv w)))
    by apply PathSort.Sorted_sort.
  destruct (sorted (glob_csv w)) as [|f files] eqn:Hsort.
  - apply Permutation_sym, Permutation_nil in Hp.
    unfold run. rewrite Hd, Hsort, Hp. simpl.
    repeat split; try constructor. intros H. now elim H.
  - destruct (run_with_files w Hd) as (s & E & F & R & C & X);
      [now rewrite Hsort|].
    rewrite Hsort in F, C.
    assert (Ht : files_taken_up ((log s ++ [Statistics (stats s)]) ++ [Completed])
                 = f :: files).
    { unfold files_taken_up in *. rewrite !flat_map_app. simpl.
      now rewrite !app_nil_r. }
    rewrite E. cbn [fst snd stats log]. rewrite Ht.
    split; [reflexivity|]. split; [exact Hp|]. split; [exact Hs|].
    split; [rewrite C; symmetry; apply (Permutation_length Hp)|].
    split; [exact X|].
    intros _. exists (log s). rewrite <- app_assoc. now repeat split.
Qed.

(** The theorem of C6 in the world [disk_error]: [a.csv] fails, [b.csv]
    and [c.csv] are still taken up, in that order. *)
Lemma run_takes_up_every_file_disk_error :
  files_taken_up (log (snd (run disk_error))) = ["a.csv"; "b.csv"; "c.csv"]
  /\ files_processed (stats (snd (run disk_error))) = 2
  /\ files_failed (stats (snd (run disk_error))) = 1.
Proof.
  destruct (run_takes_up_every_file disk_error eq_refl) as (H & _).
  split; [rewrite H; reflexivity | split; reflexivity].
Defined.

(** * Further properties *)

(** ** Rows of a table *)

Lemma select_map_filter {A : Type} (f : A -> bool) (l : list A) :
  Pandas.select (map f l) l = filter f l.
Proof.
  induction l as [|x l IH]; simpl; [reflexivity|].
  rewrite IH. now destruct (f x).
Qed.

Lemma select_length {A : Type} (mask : list bool) :
  forall l : list A,
    List.length l = List.length mask ->
    List.length (Pandas.select mask l) = List.length (filter (fun b => b) mask).
Proof.
  induction mask as [|b mask IH]; intros [|x l] H; simpl in *;
    try reflexivity; try discriminate.
  injection H as H. destruct b; simpl; now rewrite IH.
Qed.

Lemma select_all {A : Type} (l : list A) :
  Pandas.select (repeat true (List.length l)) l = l.
Proof. induction l as [|x l IH]; simpl; [reflexivity | now rewrite IH]. Qed.

Lemma filter_all_true (n : nat) :
  List.length (filter (fun b : bool => b) (repeat true n)) = n.
Proof. induction n as [|n IH]; simpl; [reflexivity | now rewrite IH]. Qed.

Lemma rows_length (df : DataFrame) :
  List.length (Pandas.rows df) = nrows df.
Proof. unfold Pandas.rows. now rewrite length_map, length_seq. Qed.

Lemma well_formed_columns (df : DataFrame) :
  Shape.well_formed df = true <->
  Forall (fun s => List.length (values s) = nrows df) (columns df).
Proof.
  unfold Shape.well_formed. rewrite forallb_forall, Forall_forall.
  split; intros H s Hs; specialize (H s Hs); now apply Nat.eqb_eq.
Qed.

(** The first row, then the rows of the table without it. *)
Lemma rows_step (n : nat) (cols : list Series) :
  Pandas.rows (mkFrame (S n) cols)
  = map (fun s => hd Null (values s)) cols
    :: Pandas.rows
         (mkFrame n (map (fun s => mkSeries (label s) (kind s) (tl (values s)))
                         cols)).
Proof.
  unfold Pandas.rows. cbn [nrows seq map]. f_equal.
  - unfold Pandas.row. cbn [columns]. apply map_ext.
    intros s. now destruct (values s).
  - rewrite <- seq_shift, map_map. apply map_ext. intros i.
    unfold Pandas.row. cbn [columns]. rewrite map_map. apply map_ext.
    intros s. cbn [values]. now destruct (values s); destruct i.
Qed.

(** Keeping rows by a mask keeps the corresponding rows. *)
Lemma rows_take (mask : list bool) :
  forall (n : nat) (cols : list Series),
    List.length mask = n ->
    Forall (fun s => List.length (values s) = n) cols ->
    Pandas.rows (Pandas.take mask (mkFrame n cols))
    = Pandas.select mask (Pandas.rows (mkFrame n cols)).
Proof.
  induction mask as [|b mask IH]; intros n cols Hn Hc.
  - simpl in Hn. subst n. reflexivity.
  - simpl in Hn. subst n. rewrite rows_step.
    set (tails := map (fun s => mkSeries (label s) (kind s) (tl (values s))) cols).
    assert (Ht : Forall (fun s => List.length (values s) = List.length mask) tails).
    { subst tails. apply Forall_forall. intros s Hs.
      apply in_map_iff in Hs. destruct Hs as [s0 [<- Hs0]].
      rewrite Forall_forall in Hc. specialize (Hc s0 Hs0). simpl.
      destruct (values s0); simpl in *; [discriminate | now injection Hc]. }
    specialize (IH (List.length mask) tails eq_refl Ht).
    assert (Hsel : forall s, In s cols ->
              Pandas.select (b :: mask) (values s)
              = if b then hd Null (values s) :: Pandas.select mask (tl (values s))
                else Pandas.select mask (tl (values s))).
    { intros s Hs. rewrite Forall_forall in Hc. specialize (Hc s Hs).
      destruct (values s); [discriminate | reflexivity]. }
    cbn [Pandas.select]. destruct b.
    + rewrite <- IH. unfold Pandas.take. cbn [filter List.length nrows columns].
      rewrite rows_step. f_equal.
      * rewrite map_map. apply map_ext_in. intros s Hs. cbn [values].
        now rewrite (Hsel s Hs).
      * do 2 f_equal. subst tails. rewrite !map_map. apply map_ext_in.
        intros s Hs. cbn [label kind values]. now rewrite (Hsel s Hs).
    + rewrite <- IH. unfold Pandas.take. cbn [filter nrows columns].
      do 2 f_equal. subst tails. rewrite !map_map. apply map_ext_in.
      intros s Hs. cbn [label kind values]. now rewrite (Hsel s Hs).
Qed.

Lemma rows_take_frame (mask : list bool) (df : DataFrame) :
  Shape.well_formed df = true ->
  List.length mask = nrows df ->
  Pandas.rows (Pandas.take mask df) = Pandas.select mask (Pandas.rows df).
Proof.
  intros Hw Hm. apply well_formed_columns in Hw.
  destruct df as [n cols]. now apply rows_take.
Qed.

Lemma take_well_formed (mask : list bool) (df : DataFrame) :
  Shape.well_formed df = true ->
  List.length mask = nrows df ->
  Shape.well_formed (Pandas.take mask df) = true.
Proof.
  intros Hw Hm. apply well_formed_columns. apply well_formed_columns in Hw.
  unfold Pandas.take. cbn [nrows columns]. apply Forall_forall.
  intros s Hs. apply in_map_iff in Hs. destruct Hs as [s0 [<- Hs0]].
  cbn [values]. rewrite Forall_forall in Hw.
  apply select_length. rewrite (Hw s0 Hs0). now symmetry.
Qed.

Lemma take_all (df : DataFrame) :
  Shape.well_formed df = true ->
  Pandas.take (repeat true (nrows df)) df = df.
Proof.
  intros Hw. apply well_formed_columns in Hw.
  destruct df as [n cols]. unfold Pandas.take. cbn [nrows columns] in *.
  rewrite filter_all_true. f_equal.
  rewrite <- (map_id cols) at 2. apply map_ext_in. intros s Hs.
  rewrite Forall_forall in Hw. rewrite <- (Hw s Hs), select_all.
  now destruct s.
Qed.

Lemma take_nrows_le (mask : list bool) (df : DataFrame) :
  nrows (Pandas.take mask df) <= List.length mask.
Proof. unfold Pandas.take. cbn [nrows]. apply filter_length_le. Qed.

(** ** Missing values *)

Lemma mask_count {A : Type} (f : A -> bool) (l : list A) :
  List.length (filter (fun b : bool => b) (map f l)) = List.length (filter f l).
Proof.
  induction l as [|x l IH]; simpl; [reflexivity|].
  destruct (f x); simpl; now rewrite IH.
Qed.

Lemma dropna_rows (keep_row : list cell -> bool) (df : DataFrame) :
  Shape.well_formed df = true ->
  let df' := Pandas.take (map keep_row (Pandas.rows df)) df in
  Pandas.rows df' = filter keep_row (Pandas.rows df)
  /\ nrows df' = List.length (filter keep_row (Pandas.rows df))
  /\ nrows df' + List.length (filter (fun r => negb (keep_row r)) (Pandas.rows df))
     = nrows df
  /\ Shape.well_formed df' = true.
Proof.
  intros Hw df'. subst df'.
  assert (Hm : List.length (map keep_row (Pandas.rows df)) = nrows df)
    by now rewrite length_map, rows_length.
  split; [|split; [|split]].
  - now rewrite rows_take_frame, select_map_filter.
  - unfold Pandas.take. cbn [nrows]. apply mask_count.
  - unfold Pandas.take. cbn [nrows]. rewrite mask_count, filter_length.
    apply rows_length.
  - now apply take_well_formed.
Qed.


(** X1.  On a table whose columns all have one value per row, the
    strategy [drop_all] keeps, in order, exactly the rows that hold at
    least one value, reports the number of rows without any value as
    removed, and returns a table of the same shape. *)
Theorem drop_all_removes_empty_rows (fillna_mean : DataFrame -> DataFrame)
    (df : DataFrame) :
  Shape.well_formed df = true ->
  exists df',
    Transform.handle_missing_values fillna_mean df "drop_all"
    = Ok (df', List.length (filter Shape.all_missing (Pandas.rows df)))
    /\ Pandas.rows df'
       = filter (fun r => negb (Shape.all_missing r)) (Pandas.rows df)
    /\ map label (columns df') = map label (columns df)
    /\ Shape.well_formed df' = true.
Proof.
  intros Hw.
  destruct (dropna_rows (fun r => negb (Shape.all_missing r)) df Hw)
    as (Hr & Hn & Hc & Hw').
  exists (Pandas.dropna_all df).
  unfold Transform.handle_missing_values. cbn [String.eqb Ascii.eqb Bool.eqb].
  unfold reraise_as. split; [|split; [exact Hr | split; [|exact Hw']]].
  - do 2 f_equal. unfold Pandas.dropna_all. fold Shape.all_missing.
    rewrite (filter_ext (fun r => negb (negb (Shape.all_missing r)))
                        Shape.all_missing) in Hc
      by (intros r; apply negb_involutive).
    change (fun r : list cell => negb (forallb isnull r))
      with (fun r => negb (Shape.all_missing r)).
    lia.
  - unfold Pandas.dropna_all, Pandas.take. cbn [columns].
    rewrite map_map. reflexivity.
Qed.

(** The theorem of X1 at the table [Shape.readings]. *)
Lemma drop_all_removes_empty_rows_readings :
  exists df',
    Transform.handle_missing_values (fun d => d) Shape.readings "drop_all"
    = Ok (df', 1)
    /\ Pandas.rows df' = [[Str "a"; Num 4]; [Str "a"; Num 4]].
Proof.
  destruct (drop_all_removes_empty_rows (fun d => d) Shape.readings eq_refl)
    as (df' & E & Hr & _).
  exists df'. split; [exact E | exact Hr].
Defined.

(** X2.  On a table whose columns all have one value per row, the
    strategy [drop_any] keeps, in order, exactly the rows that lack no
    value and reports the others as removed; when the table has a
    column, it keeps no more rows than [drop_all] does. *)
Theorem drop_any_removes_incomplete_rows (fillna_mean : DataFrame -> DataFrame)
    (df : DataFrame) :
  Shape.well_formed df = true ->
  exists df',
    Transform.handle_missing_values fillna_mean df "drop_any"
    = Ok (df', List.length (filter Shape.any_missing (Pandas.rows df)))
    /\ Pandas.rows df'
       = filter (fun r => negb (Shape.any_missing r)) (Pandas.rows df)
    /\ Shape.well_formed df' = true
    /\ (columns df <> [] -> nrows df' <= nrows (Pandas.dropna_all df)).
Proof.
  intros Hw.
  destruct (dropna_rows (fun r => negb (Shape.any_missing r)) df Hw)
    as (Hr & Hn & Hc & Hw').
  destruct (dropna_rows (fun r => negb (Shape.all_missing r)) df Hw)
    as (_ & Hn2 & _ & _).
  exists (Pandas.dropna_any df).
  unfold Transform.handle_missing_values. cbn [String.eqb Ascii.eqb Bool.eqb].
  unfold reraise_as. split; [|split; [exact Hr | split; [exact Hw'|]]].
  - do 2 f_equal. unfold Pandas.dropna_any. fold Shape.any_missing.
    rewrite (filter_ext (fun r => negb (negb (Shape.any_missing r)))
                        Shape.any_missing) in Hc
      by (intros r; apply negb_involutive).
    change (fun r : list cell => negb (existsb isnull r))
      with (fun r => negb (Shape.any_missing r)).
    lia.
  - intros Hcols. unfold Pandas.dropna_any, Pandas.dropna_all.
    change (fun r : list cell => negb (existsb isnull r))
      with (fun r => negb (Shape.any_missing r)).
    change (fun r : list cell => negb (forallb isnull r))
      with (fun r => negb (Shape.all_missing r)).
    rewrite Hn, Hn2.
    assert (Hrow : forall r, In r (Pandas.rows df) ->
                             Shape.all_missing r = true ->
                             Shape.any_missing r = true).
    { intros r Hin Ha. unfold Pandas.rows in Hin.
      apply in_map_iff in Hin. destruct Hin as [i [<- _]].
      unfold Pandas.row in *. destruct (columns df) as [|s cols];
        [now elim Hcols|].
      unfold Shape.all_missing, Shape.any_missing in *. simpl in *.
      apply andb_true_iff in Ha. destruct Ha as [Ha _]. now rewrite Ha. }
    clear -Hrow. induction (Pandas.rows df) as [|r rs IH]; simpl; [lia|].
    assert (IH' : List.length (filter (fun r => negb (Shape.any_missing r)) rs)
                  <= List.length (filter (fun r => negb (Shape.all_missing r)) rs)).
    { apply IH. intros r0 Hin. apply Hrow. now right. }
    specialize (Hrow r (or_introl eq_refl)).
    destruct (Shape.all_missing r) eqn:Ea; simpl.
    + rewrite (Hrow eq_refl). simpl. exact IH'.
    + destruct (Shape.any_missing r); simpl; lia.
Qed.

(** The theorem of X2 at the table [Shape.readings]. *)
Lemma drop_any_removes_incomplete_rows_readings :
  exists df',
    Transform.handle_missing_values (fun d => d) Shape.readings "drop_any"
    = Ok (df', 1)
    /\ nrows df' <= nrows (Pandas.dropna_all Shape.readings).
Proof.
  destruct (drop_any_removes_incomplete_rows (fun d => d) Shape.readings eq_refl)
    as (df' & E & _ & _ & Hle).
  exists df'. split; [exact E|]. apply Hle. discriminate.
Defined.

(** ** Duplicate rows *)

Lemma cell_eqb_eq (a b : cell) : cell_eqb a b = true <-> a = b.
Proof.
  destruct a as [|s|x|u], b as [|t|y|v]; simpl; split; intros H;
    try reflexivity; try discriminate.
  - apply String.eqb_eq in H. now subst.
  - injection H as ->. apply String.eqb_refl.
  - apply Z.eqb_eq in H. now subst.
  - injection H as ->. apply Z.eqb_refl.
  - apply String.eqb_eq in H. now subst.
  - injection H as ->. apply String.eqb_refl.
Qed.

Lemma list_eqb_eq (a : list cell) : forall b, Pandas.list_eqb a b = true <-> a = b.
Proof.
  induction a as [|x a IH]; intros [|y b]; simpl; split; intros H;
    try reflexivity; try discriminate.
  - apply andb_true_iff in H. destruct H as [H1 H2].
    apply cell_eqb_eq in H1. apply IH in H2. now subst.
  - injection H as -> ->. apply andb_true_iff. split.
    + now apply cell_eqb_eq.
    + now apply IH.
Qed.

Lemma seen_In (r : list cell) (seen : list (list cell)) :
  existsb (Pandas.list_eqb r) seen = true <-> In r seen.
Proof.
  rewrite existsb_exists. split.
  - intros [x [Hx E]]. apply list_eqb_eq in E. now subst.
  - intros H. exists r. split; [exact H | now apply list_eqb_eq].
Qed.

Lemma first_occurrences_length (rs : list (list cell)) :
  forall seen, List.length (Pandas.first_occurrences seen rs) = List.length rs.
Proof.
  induction rs as [|r rs IH]; intros seen; simpl; [reflexivity|].
  destruct (existsb _ seen); simpl; now rewrite IH.
Qed.

(** What the mask of first occurrences keeps: every row once, none that
    was seen before, and every row that was not. *)
Lemma first_occurrences_keep (rs : list (list cell)) :
  forall seen,
    let kept := Pandas.select (Pandas.first_occurrences seen rs) rs in
    NoDup kept
    /\ (forall r, In r kept -> In r rs /\ ~ In r seen)
    /\ (forall r, In r rs -> In r kept \/ In r seen).
Proof.
  induction rs as [|r rs IH]; intros seen; cbv zeta.
  - simpl. split; [apply NoDup_nil|]. split; intros r H; destruct H.
  - cbn [Pandas.first_occurrences].
    destruct (existsb (Pandas.list_eqb r) seen) eqn:E.
    + apply seen_In in E. cbn [Pandas.select].
      destruct (IH seen) as (N & K & A). split; [exact N|]. split.
      * intros r0 H0. destruct (K r0 H0). split; [now right | assumption].
      * intros r0 [<-|H0]; [now right | now apply A].
    + assert (Hns : ~ In r seen).
      { intros H. apply seen_In in H. rewrite H in E. discriminate. }
      cbn [Pandas.select].
      destruct (IH (r :: seen)) as (N & K & A). split; [|split].
      * constructor; [|exact N]. intros H. destruct (K r H) as [_ Hn].
        apply Hn. now left.
      * intros r0 [<-|H0]; [split; [now left | exact Hns]|].
        destruct (K r0 H0) as [H1 H2]. split; [now right|].
        intros H3. apply H2. now right.
      * intros r0 [<-|H0]; [left; now left|].
        destruct (A r0 H0) as [H1|[<-|H1]];
          [left; now right | left; now left | now right].
Qed.

Lemma first_occurrences_of_distinct (rs : list (list cell)) :
  forall seen,
    NoDup rs -> (forall r, In r rs -> ~ In r seen) ->
    Pandas.first_occurrences seen rs = repeat true (List.length rs).
Proof.
  induction rs as [|r rs IH]; intros seen N D; simpl; [reflexivity|].
  inversion N as [|? ? Hr N']; subst.
  destruct (existsb (Pandas.list_eqb r) seen) eqn:E.
  - apply seen_In in E. elim (D r); [now left | exact E].
  - f_equal. apply IH; [exact N'|].
    intros r0 H0 [<-|H1]; [contradiction|].
    apply (D r0); [now right | exact H1].
Qed.

(** The content of the next theorem, for use in later proofs. *)
Lemma drop_duplicates_rows (df : DataFrame) :
  Shape.well_formed df = true ->
  exists df' removed,
    Transform.remove_duplicates df = Ok (df', removed)
    /\ (columns df <> [] -> NoDup (Pandas.rows df'))
    /\ (columns df = [] -> df' = df /\ removed = 0)
    /\ (forall r, In r (Pandas.rows df') <-> In r (Pandas.rows df))
    /\ nrows df' + removed = nrows df
    /\ map label (columns df') = map label (columns df)
    /\ Shape.well_formed df' = true.
Proof.
  intros Hw. unfold Transform.remove_duplicates, reraise_as.
  destruct (Pandas.empty df) eqn:Em.
  - exists df, 0. unfold Pandas.drop_duplicates. rewrite Em, Nat.sub_diag.
    split; [reflexivity|]. split.
    { intros Hc. unfold Pandas.empty in Em.
      destruct (columns df); [contradiction|].
      rewrite orb_false_r in Em. apply Nat.eqb_eq in Em.
      unfold Pandas.rows. rewrite Em. constructor. }
    split; [now split|]. split; [tauto|]. split; [lia|].
    split; [reflexivity | exact Hw].
  - assert (Ed : Pandas.drop_duplicates df
                 = Pandas.take (Pandas.first_occurrences [] (Pandas.rows df)) df)
      by (unfold Pandas.drop_duplicates; now rewrite Em).
    assert (Hm : List.length (Pandas.first_occurrences [] (Pandas.rows df))
                 = nrows df)
      by now rewrite first_occurrences_length, rows_length.
    exists (Pandas.drop_duplicates df),
           (nrows df - nrows (Pandas.drop_duplicates df)).
    split; [reflexivity|].
    destruct (first_occurrences_keep (Pandas.rows df) []) as (N & K & A).
    rewrite Ed. rewrite (rows_take_frame _ df Hw Hm).
    split; [intros _; exact N|]. split; [|split; [|split; [|split]]].
    + intros Hc. unfold Pandas.empty in Em. rewrite Hc, orb_true_r in Em.
      discriminate.
    + intros r. split; [intros H; now apply K|].
      intros H. destruct (A r H) as [H1|[]]. exact H1.
    + pose proof (take_nrows_le
                    (Pandas.first_occurrences [] (Pandas.rows df)) df).
      lia.
    + unfold Pandas.take. cbn [columns]. now rewrite map_map.
    + now apply take_well_formed.
Qed.

(** X3.  On a table whose columns all have one value per row,
    [remove_duplicates] returns a table that holds exactly the rows that
    occur in the input and in which, when the table has a column, no row
    occurs twice; a table without columns is returned as it is, with no
    row reported; the count it reports and the rows it keeps add up to
    the rows it was given. *)
Theorem remove_duplicates_keeps_each_row_once (df : DataFrame) :
  Shape.well_formed df = true ->
  exists df' removed,
    Transform.remove_duplicates df = Ok (df', removed)
    /\ (columns df <> [] -> NoDup (Pandas.rows df'))
    /\ (columns df = [] -> df' = df /\ removed = 0)
    /\ (forall r, In r (Pandas.rows df') <-> In r (Pandas.rows df))
    /\ nrows df' + removed = nrows df
    /\ map label (columns df') = map label (columns df)
    /\ Shape.well_formed df' = true.
Proof. intros; eapply drop_duplicates_rows; eauto. Qed.

(** The theorem of X3 at the table [Shape.readings]. *)
Lemma remove_duplicates_keeps_each_row_once_readings :
  exists df' removed,
    Transform.remove_duplicates Shape.readings = Ok (df', removed)
    /\ NoDup (Pandas.rows df')
    /\ nrows df' + removed = 3.
Proof.
  destruct (remove_duplicates_keeps_each_row_once Shape.readings eq_refl)
    as (df' & removed & E & N & _ & _ & C & _).
  exists df', removed. split; [exact E|]. split; [|exact C].
  apply N. discriminate.
Defined.

(** X4.  Duplicate removal is idempotent: applied to its own result on a
    table whose columns all have one value per row, it returns that
    result unchanged and reports no row removed. *)
Theorem remove_duplicates_idempotent (df df' : DataFrame) (removed : nat) :
  Shape.well_formed df = true ->
  Transform.remove_duplicates df = Ok (df', removed) ->
  Transform.remove_duplicates df' = Ok (df', 0).
Proof.
  intros Hw E.
  destruct (drop_duplicates_rows df Hw)
    as (d & n & E' & N & _ & _ & _ & L & Hw').
  rewrite E in E'. injection E' as <- <-.
  unfold Transform.remove_duplicates, reraise_as, Pandas.drop_duplicates.
  destruct (Pandas.empty df') eqn:Em; [now rewrite Nat.sub_diag|].
  assert (Hc : columns df <> []).
  { intros Hc. rewrite Hc in L. unfold Pandas.empty in Em.
    destruct (columns df'); [|discriminate].
    rewrite orb_true_r in Em. discriminate. }
  rewrite (first_occurrences_of_distinct (Pandas.rows df') [] (N Hc))
    by (intros r _ []).
  rewrite rows_length, (take_all df' Hw'), Nat.sub_diag. reflexivity.
Qed.

(** The theorem of X4 at the table [Shape.readings]. *)
Lemma remove_duplicates_idempotent_readings :
  exists df',
    Transform.remove_duplicates Shape.readings = Ok (df', 1)
    /\ Transform.remove_duplicates df' = Ok (df', 0).
Proof.
  eexists. split; [reflexivity|].
  apply (remove_duplicates_idempotent Shape.readings _ 1 eq_refl eq_refl).
Defined.

(** ** Normalization applied twice *)

Lemma allowed_is_fixed (c : ascii) :
  negb (Names.allowed c)
  || (negb (PyStr.isspace c) && Ascii.eqb (PyStr.tolower c) c
      && negb (Ascii.eqb c " ") && negb (Ascii.eqb c "-") && Transform.keep c)
  = true.
Proof. each_code_point c. Qed.

Lemma allowed_facts (c : ascii) :
  Names.allowed c = true ->
  PyStr.isspace c = false /\ PyStr.tolower c = c
  /\ Ascii.eqb c " " = false /\ Ascii.eqb c "-" = false
  /\ Transform.keep c = true.
Proof.
  intros H. pose proof (allowed_is_fixed c) as F. rewrite H in F.
  simpl in F. rewrite !andb_true_iff, !negb_true_iff in F.
  destruct F as [[[[F1 F2] F3] F4] F5].
  apply Ascii.eqb_eq in F2. now repeat split.
Qed.

Lemma lstrip_nothing (p : ascii -> bool) (s : list ascii) :
  match s with c :: _ => p c = false | [] => True end ->
  PyStr.lstrip p s = s.
Proof. destruct s as [|c s]; simpl; [reflexivity|]. now intros ->. Qed.

Lemma strip_by_nothing (p : ascii -> bool) (s : list ascii) :
  match s with c :: _ => p c = false | [] => True end ->
  match rev s with c :: _ => p c = false | [] => True end ->
  PyStr.strip_by p s = s.
Proof.
  intros Hh Hl. unfold PyStr.strip_by, PyStr.rstrip.
  rewrite (lstrip_nothing p s Hh), (lstrip_nothing p (rev s) Hl).
  apply rev_involutive.
Qed.

(** A name in normal form is left as it is. *)
Lemma normal_name_fixed (name : string) :
  Names.normal name = true -> Transform.normalize_name name = name.
Proof.
  unfold Names.normal. rewrite !andb_true_iff, !negb_true_iff.
  intros [[Ha Hs] He]. rewrite forallb_forall in Ha.
  unfold Transform.normalize_name.
  set (s := list_ascii_of_string name) in *.
  assert (Hrev : forall c, In c (rev s) -> Names.allowed c = true)
    by (intros c Hc; apply Ha; now apply in_rev).
  assert (E1 : PyStr.strip s = s).
  { apply strip_by_nothing.
    - destruct s as [|c s']; [exact I|].
      apply (allowed_facts c). apply Ha. now left.
    - destruct (rev s) as [|c s'] eqn:R; [exact I|].
      apply (allowed_facts c). apply Hrev. now left. }
  assert (E2 : PyStr.lower s = s).
  { unfold PyStr.lower. rewrite <- (map_id s) at 2. apply map_ext_in.
    intros c Hc. now apply (allowed_facts c), Ha. }
  assert (E3 : PyStr.replace "-" "_" (PyStr.replace " " "_" s) = s).
  { unfold PyStr.replace. rewrite map_map. rewrite <- (map_id s) at 2.
    apply map_ext_in. intros c Hc.
    destruct (allowed_facts c (Ha c Hc)) as (_ & _ & F3 & F4 & _).
    now rewrite F3, F4. }
  assert (E4 : filter Transform.keep s = s).
  { apply forallb_filter_id, forallb_forall. intros c Hc.
    now apply (allowed_facts c), Ha. }
  assert (E5 : PyStr.strip_chars ["_"%char] s = s).
  { apply strip_by_nothing.
    - unfold Names.starts_with_underscore, Names.is_underscore in Hs.
      destruct s as [|c s']; [exact I|]. unfold PyStr.mem. simpl.
      now rewrite Hs.
    - unfold Names.ends_with_underscore, Names.starts_with_underscore,
        Names.is_underscore in He.
      destruct (rev s) as [|c s']; [exact I|]. unfold PyStr.mem. simpl.
      now rewrite He. }
  rewrite E1, E2, E3, E4, E5. subst s. apply string_of_list_ascii_of_string.
Qed.


(** X5.  Column-name normalization is idempotent: normalizing the
    result of a normalization returns the same table. *)
Theorem normalize_columns_idempotent (df df' : DataFrame) :
  Transform.normalize_columns df = Ok df' ->
  Transform.normalize_columns df' = Ok df'.
Proof.
  unfold Transform.normalize_columns, reraise_as. intros E.
  injection E as <-. cbn [nrows columns]. do 2 f_equal.
  rewrite map_map. apply map_ext. intros s. cbn [label kind values].
  now rewrite normal_name_fixed by apply normalize_name_normal.
Qed.

(** The theorem of X5 at the table [Coercion.quantities]. *)
Lemma normalize_columns_idempotent_quantities :
  exists df',
    Transform.normalize_columns Coercion.quantities = Ok df'
    /\ Transform.normalize_columns df' = Ok df'.
Proof.
  eexists. split; [reflexivity|].
  apply (normalize_columns_idempotent Coercion.quantities). reflexivity.
Defined.

(** ** The steps of [transform] together *)

Lemma within_refl (a : DataFrame) : Shape.within a a.
Proof. unfold Shape.within. auto. Qed.

Lemma within_trans (a b c : DataFrame) :
  Shape.within a b -> Shape.within b c -> Shape.within a c.
Proof.
  unfold Shape.within. intros (N1 & L1 & W1) (N2 & L2 & W2).
  split; [lia|]. split; [congruence | auto].
Qed.

Lemma take_within (f : list cell -> bool) (df : DataFrame) :
  Shape.within df (Pandas.take (map f (Pandas.rows df)) df).
Proof.
  assert (Hm : List.length (map f (Pandas.rows df)) = nrows df)
    by now rewrite length_map, rows_length.
  split; [|split].
  - rewrite <- Hm. apply take_nrows_le.
  - unfold Pandas.take. cbn [columns]. now rewrite map_map.
  - intros Hw. now apply take_well_formed.
Qed.

Lemma drop_duplicates_within (df : DataFrame) :
  Shape.within df (Pandas.drop_duplicates df).
Proof.
  assert (Hm : List.length (Pandas.first_occurrences [] (Pandas.rows df))
               = nrows df)
    by now rewrite first_occurrences_length, rows_length.
  unfold Pandas.drop_duplicates.
  destruct (Pandas.empty df); [apply within_refl|].
  split; [|split].
  - rewrite <- Hm. apply take_nrows_le.
  - unfold Pandas.take. cbn [columns]. now rewrite map_map.
  - intros Hw. now apply take_well_formed.
Qed.

Lemma handle_missing_within (fillna_mean : DataFrame -> DataFrame)
    (df : DataFrame) (strategy : string) :
  String.eqb strategy "fill_mean" = false ->
  exists df' n,
    Transform.handle_missing_values fillna_mean df strategy = Ok (df', n)
    /\ Shape.within df df'.
Proof.
  intros Hs. unfold Transform.handle_missing_values, reraise_as.
  destruct (String.eqb strategy "drop_all");
    [|destruct (String.eqb strategy "drop_any")]; [| |rewrite Hs];
    eexists; eexists; (split; [reflexivity|]).
  - apply take_within.
  - apply take_within.
  - apply within_refl.
Qed.

Section Converting.

Variable numeric_values : list cell -> outcome (list cell).

(** The loop of [convert_dtypes] keeps the rows and the labels,
    whenever it ends. *)
Lemma convert_column_rows (df df' : DataFrame) (n n' : nat) (col : string) :
  Transform.convert_column numeric_values (df, n) col = Ok (df', n') ->
  nrows df' = nrows df
  /\ map label (columns df') = map label (columns df).
Proof.
  unfold Transform.convert_column.
  destruct (bind (Pandas.getitem df col) _) as [s|e].
  - intros [= <- _]. split; [reflexivity|].
    unfold Pandas.setitem. cbn [columns]. rewrite map_map.
    apply map_ext. intros c. now destruct (String.eqb (label c) col).
  - destruct (Transform.value_or_type_error e); [|discriminate].
    now intros [= <- _].
Qed.

Lemma convert_loop_rows (cols : list string) :
  forall (df df' : DataFrame) (n n' : nat),
    Transform.convert_loop numeric_values cols (df, n) = Ok (df', n') ->
    nrows df' = nrows df
    /\ map label (columns df') = map label (columns df).
Proof.
  induction cols as [|col cols IH]; intros df df' n n'.
  - now intros [= <- _].
  - cbn [Transform.convert_loop].
    destruct (Transform.convert_column numeric_values (df, n) col)
      as [[d1 n1]|e] eqn:E1; cbn [bind]; [|discriminate].
    intros E2. destruct (convert_column_rows _ _ _ _ _ E1) as [N1 L1].
    destruct (IH _ _ _ _ E2) as [N2 L2]. split; congruence.
Qed.

Lemma convert_dtypes_rows (df df' : DataFrame) (n : nat) :
  Transform.convert_dtypes numeric_values df = Ok (df', n) ->
  nrows df' = nrows df
  /\ map label (columns df') = map label (columns df).
Proof.
  unfold Transform.convert_dtypes, reraise_as.
  destruct (Transform.convert_loop _ _ _) as [[d k]|e] eqn:E; [|discriminate].
  intros [= <- _]. exact (convert_loop_rows _ _ _ _ _ E).
Qed.

Lemma coerce_values_length (df : DataFrame) (cols : list string)
    (s : Series) :
  Shape.length_preserving numeric_values ->
  List.length (values (Coercion.coerce numeric_values df cols s))
  = List.length (values s).
Proof.
  intros Hl. unfold Coercion.coerce. destruct (_ && _); [|reflexivity].
  unfold Coercion.as_numeric.
  destruct (numeric_values (values s)) as [vs|e] eqn:E; [|reflexivity].
  cbn [values]. now apply Hl.
Qed.

Lemma convert_dtypes_within (df : DataFrame) :
  Shape.only_refuses numeric_values ->
  exists df' n,
    Transform.convert_dtypes numeric_values df = Ok (df', n)
    /\ nrows df' = nrows df
    /\ map label (columns df') = map label (columns df)
    /\ (Shape.length_preserving numeric_values ->
        Shape.well_formed df = true -> Shape.well_formed df' = true).
Proof.
  intros Hr.
  destruct (convert_dtypes_coerce numeric_values df) as [n E].
  { intros s e _. apply Hr. }
  eexists. exists n. split; [exact E|]. split; [|split].
  - reflexivity.
  - cbn [columns]. rewrite map_map. apply map_ext. intros s.
    apply label_coerce.
  - intros Hl Hw. apply well_formed_columns. apply well_formed_columns in Hw.
    cbn [nrows columns]. apply Forall_forall. intros s Hs.
    apply in_map_iff in Hs. destruct Hs as [s0 [<- Hs0]].
    rewrite (coerce_values_length _ _ _ Hl).
    rewrite Forall_forall in Hw. now apply Hw.
Qed.

Variable fillna_mean : DataFrame -> DataFrame.

(** [transform] up to the conversion of types. *)
Lemma transform_until_types (df : DataFrame)
    (normalize_cols remove_dups : bool) (handle_missing : string) :
  String.eqb handle_missing "fill_mean" = false ->
  exists df3,
    (forall convert_types,
       Transform.transform numeric_values fillna_mean (PyFrame df)
         normalize_cols remove_dups handle_missing convert_types
       = Transform.transform_handlers
           (if convert_types
            then let! r := Transform.convert_dtypes numeric_values df3 in
                 Ok (fst r)
            else Ok df3))
    /\ nrows df3 <= nrows df
    /\ map label (columns df3)
       = (if normalize_cols
          then map Transform.normalize_name (map label (columns df))
          else map label (columns df))
    /\ (Shape.well_formed df = true -> Shape.well_formed df3 = true).
Proof.
  intros Hs. unfold Transform.transform.
  (* normalization *)
  set (df1 := if normalize_cols
              then mkFrame (nrows df)
                     (map (fun s => mkSeries (Transform.normalize_name (label s))
                                             (kind s) (values s)) (columns df))
              else df).
  assert (E1 : (if normalize_cols then Transform.normalize_columns df
                else Ok df) = Ok df1)
    by (subst df1; now destruct normalize_cols).
  assert (N1 : nrows df1 = nrows df)
    by (subst df1; now destruct normalize_cols).
  assert (L1 : map label (columns df1)
               = if normalize_cols
                 then map Transform.normalize_name (map label (columns df))
                 else map label (columns df)).
  { subst df1. destruct normalize_cols; [|reflexivity].
    cbn [columns]. now rewrite !map_map. }
  assert (W1 : Shape.well_formed df = true -> Shape.well_formed df1 = true).
  { subst df1. destruct normalize_cols; [|auto].
    intros Hw. apply well_formed_columns. apply well_formed_columns in Hw.
    cbn [nrows columns]. apply Forall_forall. intros s Hin.
    apply in_map_iff in Hin. destruct Hin as [s0 [<- Hs0]]. cbn [values].
    rewrite Forall_forall in Hw. now apply Hw. }
  rewrite E1. cbn [bind].
  (* missing values *)
  assert (H2 : exists df2,
             (if Transform.truthy handle_missing
              then let! r := Transform.handle_missing_values fillna_mean df1
                               handle_missing in Ok (fst r)
              else Ok df1) = Ok df2 /\ Shape.within df1 df2).
  { destruct (Transform.truthy handle_missing).
    - destruct (handle_missing_within fillna_mean df1 handle_missing Hs)
        as (d & n & E & Wi).
      rewrite E. now exists d.
    - exists df1. split; [reflexivity | apply within_refl]. }
  destruct H2 as (df2 & E2 & Wi2). rewrite E2. cbn [bind].
  (* duplicates *)
  assert (H3 : exists df3,
             (if remove_dups
              then let! r := Transform.remove_duplicates df2 in Ok (fst r)
              else Ok df2) = Ok df3 /\ Shape.within df2 df3).
  { destruct remove_dups.
    - eexists. split; [reflexivity | apply drop_duplicates_within].
    - exists df2. split; [reflexivity | apply within_refl]. }
  destruct H3 as (df3 & E3 & Wi3). rewrite E3. cbn [bind].
  exists df3.
  destruct (within_trans _ _ _ Wi2 Wi3) as (N & L & W).
  split; [|split; [lia | split; [congruence | auto]]].
  intros convert_types. f_equal.
  destruct convert_types; [|reflexivity].
  now destruct (Transform.convert_dtypes numeric_values df3) as [[d k]|e].
Qed.

(** Whenever [transform] returns, the result has no more rows than
    the input and the labels of the input, normalized if asked for. *)
Lemma transform_rows (df df' : DataFrame)
    (normalize_cols remove_dups : bool) (handle_missing : string)
    (convert_types : bool) :
  String.eqb handle_missing "fill_mean" = false ->
  Transform.transform numeric_values fillna_mean (PyFrame df) normalize_cols
    remove_dups handle_missing convert_types = Ok df' ->
  nrows df' <= nrows df
  /\ map label (columns df')
     = (if normalize_cols
        then map Transform.normalize_name (map label (columns df))
        else map label (columns df)).
Proof.
  intros Hs.
  destruct (transform_until_types df normalize_cols remove_dups
              handle_missing Hs) as (df3 & E & N & L & _).
  rewrite E. destruct convert_types.
  - destruct (Transform.convert_dtypes numeric_values df3) as [[d k]|e] eqn:C;
      cbn [bind Transform.transform_handlers fst].
    + intros [= <-]. destruct (convert_dtypes_rows _ _ _ C) as [N4 L4].
      split; [lia | congruence].
    + now destruct (exn_type e).
  - cbn [Transform.transform_handlers]. intros [= <-]. now split.
Qed.

(** The content of the next theorem, for use in later proofs. *)
Lemma transform_on_frame (df : DataFrame)
    (normalize_cols remove_dups : bool) (handle_missing : string)
    (convert_types : bool) :
  String.eqb handle_missing "fill_mean" = false ->
  Shape.only_refuses numeric_values ->
  exists df',
    Transform.transform numeric_values fillna_mean (PyFrame df)
      normalize_cols remove_dups handle_missing convert_types = Ok df'
    /\ nrows df' <= nrows df
    /\ List.length (columns df') = List.length (columns df)
    /\ map label (columns df')
       = (if normalize_cols
          then map Transform.normalize_name (map label (columns df))
          else map label (columns df))
    /\ (normalize_cols = true ->
        forallb Names.ascii_name (map label (columns df)) = true ->
        forallb Names.snake_case (map label (columns df')) = true)
    /\ (Shape.length_preserving numeric_values ->
        Shape.well_formed df = true -> Shape.well_formed df' = true).
Proof.
  intros Hs Hr.
  destruct (transform_until_types df normalize_cols remove_dups
              handle_missing Hs) as (df3 & E & N & L & W).
  rewrite E.
  assert (H4 : exists df4,
             (if convert_types
              then let! r := Transform.convert_dtypes numeric_values df3 in
                   Ok (fst r)
              else Ok df3) = Ok df4
             /\ nrows df4 = nrows df3
             /\ map label (columns df4) = map label (columns df3)
             /\ (Shape.length_preserving numeric_values ->
                 Shape.well_formed df3 = true ->
                 Shape.well_formed df4 = true)).
  { destruct convert_types.
    - destruct (convert_dtypes_within df3 Hr) as (d & n & Ec & Hc).
      rewrite Ec. now exists d.
    - exists df3. now repeat split. }
  destruct H4 as (df4 & E4 & N4 & L4 & W4). rewrite E4.
  cbn [Transform.transform_handlers].
  exists df4. split; [reflexivity|]. split; [lia|]. split.
  { rewrite <- (length_map label (columns df4)), L4, L.
    destruct normalize_cols; now rewrite !length_map. }
  split; [congruence|]. split; [|auto].
  intros -> A. rewrite L4, L. apply forallb_forall. intros name Hin.
  apply in_map_iff in Hin. destruct Hin as [l [<- Hl]].
  apply normalize_name_snake.
  exact (proj1 (forallb_forall _ _) A l Hl).
Qed.

End Converting.

(** X6.  On every [DataFrame], with any selection of steps and any
    missing-value strategy other than [fill_mean], [transform] succeeds
    when [pd.to_numeric] raises nothing but [ValueError] and
    [TypeError]; the result has no more rows than the input and as many
    columns; it keeps the labels unless they are normalized, in which
    case ASCII labels come out made of the letters a to z, digits and
    underscores, without an underscore at either end; and it has one
    value per row in every column if the input has and [pd.to_numeric]
    returns as many values as it is given. *)
Theorem transform_shape (numeric_values : list cell -> outcome (list cell))
    (fillna_mean : DataFrame -> DataFrame) (df : DataFrame)
    (normalize_cols remove_dups : bool) (handle_missing : string)
    (convert_types : bool) :
  String.eqb handle_missing "fill_mean" = false ->
  Shape.only_refuses numeric_values ->
  exists df',
    Transform.transform numeric_values fillna_mean (PyFrame df) normalize_cols
      remove_dups handle_missing convert_types = Ok df'
    /\ nrows df' <= nrows df
    /\ List.length (columns df') = List.length (columns df)
    /\ map label (columns df')
       = (if normalize_cols
          then map Transform.normalize_name (map label (columns df))
          else map label (columns df))
    /\ (normalize_cols = true ->
        forallb Names.ascii_name (map label (columns df)) = true ->
        forallb Names.snake_case (map label (columns df')) = true)
    /\ (Shape.length_preserving numeric_values ->
        Shape.well_formed df = true -> Shape.well_formed df' = true).
Proof. intros; eapply transform_on_frame; eauto. Qed.

Lemma numerals_only_refuses : Shape.only_refuses Coercion.numerals.
Proof. intros vs e. apply numerals_refuses. Qed.

Lemma numerals_length_preserving : Shape.length_preserving Coercion.numerals.
Proof.
  intros vs. induction vs as [|c cs IH]; intros vs'; simpl.
  - now intros [= <-].
  - destruct (Coercion.numeral c); [|discriminate].
    destruct (Coercion.numerals cs) as [r|e]; simpl; [|discriminate].
    intros [= <-]. simpl. f_equal. now apply IH.
Qed.

(** The theorem of X6 at the table [Shape.readings] with the arguments
    of [process_file]. *)
Lemma transform_shape_readings :
  exists df',
    Transform.transform Coercion.numerals (fun d => d) (PyFrame Shape.readings)
      true true "drop_all" true = Ok df'
    /\ nrows df' <= 3
    /\ map label (columns df') = ["sensor"; "value"]
    /\ forallb Names.snake_case (map label (columns df')) = true
    /\ Shape.well_formed df' = true.
Proof.
  destruct (transform_shape Coercion.numerals (fun d => d) Shape.readings
              true true "drop_all" true eq_refl numerals_only_refuses)
    as (df' & E & N & _ & L & S & W).
  exists df'. split; [exact E|]. split; [exact N|]. split; [exact L|].
  split; [now apply S | apply W; [apply numerals_length_preserving|]].
  reflexivity.
Defined.
(** ** Extraction: success, failure and the shape of the result *)

Lemma extract_handlers_raise {A : Type} (r : outcome A) (e : exn) :
  Extract.extract_handlers r = Raise e -> exn_type e = ExtractionError.
Proof.
  unfold Extract.extract_handlers, Extract.extraction_error.
  destruct r as [a|e0]; [discriminate|].
  destruct (exn_type e0) eqn:T; intros H;
    try (injection H as <-; assumption);
    try (injection H as <-; reflexivity).
  destruct (String.eqb name "UnicodeDecodeError");
    [|destruct (String.eqb name "ParserError")];
    injection H as <-; reflexivity.
Qed.

Lemma extract_handlers_fails {A : Type} (e : exn) :
  exists e', Extract.extract_handlers (@Raise A e) = Raise e'.
Proof.
  unfold Extract.extract_handlers, Extract.extraction_error.
  destruct (exn_type e); try (now eexists).
  destruct (String.eqb name "UnicodeDecodeError");
    [|destruct (String.eqb name "ParserError")]; now eexists.
Qed.

Lemma nth_seq_all {A : Type} (l : list A) (d : A) :
  map (fun j => nth j l d) (seq 0 (List.length l)) = l.
Proof.
  induction l as [|x l IH]; [reflexivity|].
  cbn [List.length seq map nth]. f_equal.
  rewrite <- seq_shift, map_map. exact IH.
Qed.

Section Reading.

Variable column_names : list string -> list string.
Variable column_of : list (list string) -> nat -> dtype * list cell.
Variable buffer_lines : nat -> nat.

Lemma extract_unreadable (f : Extract.SourceFile) (chunksize : option nat) :
  Malformed.readable f && Malformed.tokenizes f = false ->
  exists e,
    Extract.DataExtractor_extract_csv column_names column_of buffer_lines
      f chunksize
    = Raise e.
Proof.
  unfold Malformed.readable, Malformed.tokenizes,
    Extract.DataExtractor_extract_csv, Extract.validate_file,
    Extract.read_csv_chunks, Extract.read_csv, Extract.open_file.
  destruct (Extract.path_exists f); [|now eexists].
  destruct (Extract.is_file f); [|now eexists].
  destruct (N.ltb 0 (Extract.st_size f)); [|now eexists].
  cbn [negb andb bind].
  destruct (Extract.chunked chunksize f);
    destruct (Extract.decodes f); cbn [negb andb bind];
    try (intros _; now eexists);
    destruct (Extract.read_error f);
    try (intros _; cbn [bind]; apply extract_handlers_fails);
    destruct (Extract.header f); cbn [andb]; try discriminate;
    intros _; now eexists.
Qed.

Lemma frame_of_shape (f : Extract.SourceFile) (lead : nat)
    (rows : list (list string)) :
  let df := Extract.frame_of column_names column_of (Extract.header f)
              lead rows in
  map label (columns df) = Malformed.labels column_names f
  /\ (Shape.one_value_per_row column_of -> Shape.well_formed df = true).
Proof.
  cbv zeta. unfold Extract.frame_of, Malformed.labels. cbn [columns nrows].
  split.
  - rewrite map_map. apply map_ext. intros j.
    now destruct (column_of rows _).
  - intros Hv. apply well_formed_columns. cbn [columns nrows].
    apply Forall_forall. intros s Hs. apply in_map_iff in Hs.
    destruct Hs as [j [<- _]].
    specialize (Hv rows (lead + j)).
    now destruct (column_of rows _).
Qed.

Lemma append_columns_shape (n m : nat) (a : list Series) :
  forall b,
    map label b = map label a ->
    Forall (fun s => List.length (values s) = n) a ->
    Forall (fun s => List.length (values s) = m) b ->
    map label (Extract.append_columns a b) = map label a
    /\ Forall (fun s => List.length (values s) = n + m)
              (Extract.append_columns a b).
Proof.
  induction a as [|x a IH]; intros [|y b] L Wa Wb; simpl in *;
    try discriminate.
  - split; [reflexivity | constructor].
  - injection L as L0 L. inversion Wa; subst. inversion Wb; subst.
    destruct (IH b L) as [L' W']; try assumption.
    split; [now rewrite L'|]. constructor; [|exact W'].
    cbn [values]. now rewrite length_app.
Qed.

Lemma append_columns_labels (a : list Series) :
  forall b,
    map label b = map label a ->
    map label (Extract.append_columns a b) = map label a.
Proof.
  induction a as [|x a IH]; intros [|y b] L; simpl in *; try discriminate.
  - reflexivity.
  - injection L as L0 L. now rewrite (IH b L).
Qed.

Lemma concat_shape (f : Extract.SourceFile) (lead : nat)
    (chunks : list (list (list string))) :
  forall acc,
    map label (columns acc) = Malformed.labels column_names f ->
    let df := fold_left
                (fun acc d =>
                   mkFrame (nrows acc + nrows d)
                     (Extract.append_columns (columns acc) (columns d)))
                (map (Extract.frame_of column_names column_of
                        (Extract.header f) lead) chunks) acc in
    map label (columns df) = Malformed.labels column_names f
    /\ (Shape.one_value_per_row column_of ->
        Shape.well_formed acc = true -> Shape.well_formed df = true).
Proof.
  induction chunks as [|c chunks IH]; intros acc L; cbv zeta; simpl.
  - now split.
  - destruct (frame_of_shape f lead c) as [Lc Wc].
    assert (L' : map label
                   (Extract.append_columns (columns acc)
                      (columns (Extract.frame_of column_names column_of
                                  (Extract.header f) lead c)))
                 = Malformed.labels column_names f).
    { rewrite append_columns_labels; [exact L | now rewrite Lc, L]. }
    destruct (IH (mkFrame (nrows acc + List.length c)
                    (Extract.append_columns (columns acc)
                       (columns (Extract.frame_of column_names column_of
                                   (Extract.header f) lead c)))) L')
      as [L2 W2].
    split; [exact L2|]. intros Hv W. apply (W2 Hv).
    apply well_formed_columns. apply well_formed_columns in W.
    specialize (Wc Hv). apply well_formed_columns in Wc.
    cbn [nrows columns].
    apply (append_columns_shape (nrows acc) (List.length c));
      [now rewrite Lc, L | exact W | exact Wc].
Qed.

(** The frames of the chunks, put together, have the shape of the
    header. *)
Lemma chunked_frames_shape (f : Extract.SourceFile) (lead size : nat)
    (rows : list (list string)) :
  forall df,
    Extract.concat
      (match rows with
       | [] => [Extract.frame_of column_names column_of (Extract.header f)
                  lead []]
       | r :: rs =>
           map (Extract.frame_of column_names column_of (Extract.header f)
                  lead)
               (Extract.chunks_of (List.length (r :: rs)) (S size) (r :: rs))
       end) = Ok df ->
    map label (columns df) = Malformed.labels column_names f
    /\ (Shape.one_value_per_row column_of -> Shape.well_formed df = true).
Proof.
  destruct rows as [|r rs]; intros df.
  - cbn [Extract.concat fold_left]. intros H. injection H as <-.
    apply (frame_of_shape f lead []).
  - set (rows := r :: rs).
    change (Extract.chunks_of (List.length rows) (S size) rows)
      with (firstn (S size) rows
            :: Extract.chunks_of (List.length rs) (S size)
                 (skipn (S size) rows)).
    cbn [map Extract.concat]. intros H. injection H as <-.
    destruct (frame_of_shape f lead (firstn (S size) rows)) as [L W].
    destruct (concat_shape f lead
                (Extract.chunks_of (List.length rs) (S size)
                   (skipn (S size) rows)) _ L) as [L' W'].
    split; [exact L' | now auto].
Qed.

(** The content of the next theorem, for use in later proofs. *)
Lemma extract_csv_on_readable (f : Extract.SourceFile)
    (chunksize : option nat) :
  Malformed.readable f = true -> Malformed.tokenizes f = true ->
  exists df,
    Extract.extract_csv column_names column_of buffer_lines f chunksize
    = Ok df
    /\ map label (columns df) = Malformed.labels column_names f
    /\ (column_names (Extract.header f) = Extract.header f ->
        map label (columns df) = Extract.header f)
    /\ nrows df <= List.length (Extract.lines f)
    /\ (Malformed.one_pass buffer_lines f chunksize ->
        nrows df = List.length (Malformed.kept f))
    /\ (Shape.one_value_per_row column_of -> Shape.well_formed df = true).
Proof.
  intros R T.
  destruct (extractor_on_readable column_names column_of buffer_lines
              f chunksize R T) as (df & n & E & L & H).
  assert (Hk : map label (columns df) = Malformed.labels column_names f ->
               column_names (Extract.header f) = Extract.header f ->
               map label (columns df) = Extract.header f).
  { intros Ll K. rewrite Ll. unfold Malformed.labels. rewrite K.
    apply nth_seq_all. }
  assert (S : map label (columns df) = Malformed.labels column_names f
              /\ (Shape.one_value_per_row column_of ->
                  Shape.well_formed df = true)).
  { destruct (readable_parts f R T) as [Hv Ho]. revert E.
    unfold Extract.DataExtractor_extract_csv. rewrite Hv. cbn [bind].
    destruct (Extract.chunked chunksize f) eqn:C.
    - destruct chunksize as [[|size]|]; try discriminate.
      unfold Extract.read_csv_chunks. rewrite Ho. cbn [bind].
      destruct (read_lines_total (S size)
                  (buffer_lines (Extract.table_width f))
                  (Extract.lines f) true (List.length (Extract.header f))
                  (Nat.min (buffer_lines (Extract.table_width f)) (S size))
                  (S size))
        as (rows & m & Er & _).
      rewrite Er. cbn [bind fst snd].
      destruct (chunked_frames_nrows column_names column_of
                  (Extract.header f) (Extract.leading_cols f) size rows)
        as (d & Ec & _).
      rewrite Ec. cbn [bind Extract.extract_handlers].
      intros X. injection X as <- _.
      exact (chunked_frames_shape f _ size rows d Ec).
    - unfold Extract.read_csv. rewrite Ho. cbn [bind].
      destruct (read_lines_total (buffer_lines (Extract.table_width f))
                  (buffer_lines (Extract.table_width f))
                  (Extract.lines f) true (List.length (Extract.header f))
                  (buffer_lines (Extract.table_width f))
                  (buffer_lines (Extract.table_width f)))
        as (rows & m & Er & _).
      rewrite Er. cbn [bind fst snd Extract.extract_handlers].
      intros X. injection X as <- _. apply frame_of_shape. }
  exists df. unfold Extract.extract_csv. rewrite E. cbn [bind fst].
  destruct S as [Ls Ws].
  split; [reflexivity|]. split; [exact Ls|]. split; [now apply Hk|].
  split; [lia|]. split; [|exact Ws].
  intros O. now destruct (H O) as (_ & N & _).
Qed.

End Reading.

(** X7.  [extract_csv] succeeds exactly on the files that exist, are
    regular files, are not empty, decode, are read without an exception
    of the reader (as an unclosed quote raises) and have a header line,
    with or without chunking; whenever it fails, the exception is an
    [ExtractionError], whatever went wrong underneath. *)
Theorem extract_csv_succeeds_iff_readable
    (column_names : list string -> list string)
    (column_of : list (list string) -> nat -> dtype * list cell)
    (buffer_lines : nat -> nat)
    (f : Extract.SourceFile) (chunksize : option nat) :
  (Malformed.readable f && Malformed.tokenizes f = true <->
   exists r,
     Extract.DataExtractor_extract_csv column_names column_of buffer_lines
       f chunksize
     = Ok r)
  /\ (forall e,
        Extract.DataExtractor_extract_csv column_names column_of buffer_lines
          f chunksize
        = Raise e ->
        exn_type e = ExtractionError)
  /\ (forall e,
        Extract.extract_csv column_names column_of buffer_lines f chunksize
        = Raise e ->
        exn_type e = ExtractionError).
Proof.
  split; [|split].
  - split.
    + intros H. apply andb_true_iff in H. destruct H as [R T].
      destruct (extractor_on_readable column_names column_of buffer_lines
                  f chunksize R T) as (df & n & E & _).
      eexists. exact E.
    + intros [r E].
      destruct (Malformed.readable f && Malformed.tokenizes f) eqn:R;
        [reflexivity|].
      destruct (extract_unreadable column_names column_of buffer_lines
                  f chunksize R) as [e E'].
      rewrite E in E'. discriminate.
  - intros e. apply extract_handlers_raise.
  - intros e. unfold Extract.extract_csv.
    destruct (Extract.DataExtractor_extract_csv _ _ _ f chunksize)
      as [r|e0] eqn:E; [discriminate|].
    cbn [bind]. intros H. injection H as <-.
    revert E. apply extract_handlers_raise.
Qed.

(** The theorem of X7 at the file [Malformed.invoices], which is read,
    and at the file [Malformed.unclosed], which is not. *)
Lemma extract_csv_succeeds_iff_readable_examples :
  (exists r,
     Extract.DataExtractor_extract_csv Malformed.named Malformed.typed
       Malformed.buffered Malformed.invoices None = Ok r)
  /\ (forall r,
        Extract.DataExtractor_extract_csv Malformed.named Malformed.typed
          Malformed.buffered Malformed.unclosed None <> Ok r)
  /\ (exists e,
        Extract.DataExtractor_extract_csv Malformed.named Malformed.typed
          Malformed.buffered Malformed.unclosed None = Raise e
        /\ exn_type e = ExtractionError).
Proof.
  split; [|split].
  - apply (extract_csv_succeeds_iff_readable Malformed.named Malformed.typed
             Malformed.buffered Malformed.invoices None). reflexivity.
  - intros r E.
    assert (H : Malformed.readable Malformed.unclosed
                && Malformed.tokenizes Malformed.unclosed = true).
    { apply (extract_csv_succeeds_iff_readable Malformed.named Malformed.typed
               Malformed.buffered Malformed.unclosed None). now exists r. }
    discriminate H.
  - eexists. split; [reflexivity|].
    apply (extract_csv_succeeds_iff_readable Malformed.named Malformed.typed
             Malformed.buffered Malformed.unclosed None). reflexivity.
Defined.

(** X8.  On every file it can read, with or without chunking, the
    extractor returns a table with one column per header field, named
    as [read_csv] names the header fields (by the header itself when
    [read_csv] keeps its names), with no more rows than the file has
    data lines, with one row per data line kept when the tokenizer reads
    the data lines in one pass, and with one value per row in every
    column when [read_csv] gives every column one value per row. *)
Theorem extract_csv_shape (column_names : list string -> list string)
    (column_of : list (list string) -> nat -> dtype * list cell)
    (buffer_lines : nat -> nat)
    (f : Extract.SourceFile) (chunksize : option nat) :
  Malformed.readable f = true -> Malformed.tokenizes f = true ->
  exists df,
    Extract.extract_csv column_names column_of buffer_lines f chunksize = Ok df
    /\ map label (columns df) = Malformed.labels column_names f
    /\ (column_names (Extract.header f) = Extract.header f ->
        map label (columns df) = Extract.header f)
    /\ nrows df <= List.length (Extract.lines f)
    /\ (Malformed.one_pass buffer_lines f chunksize ->
        nrows df = List.length (Malformed.kept f))
    /\ (Shape.one_value_per_row column_of -> Shape.well_formed df = true).
Proof. intros; eapply extract_csv_on_readable; eauto. Qed.

Lemma typed_one_value_per_row : Shape.one_value_per_row Malformed.typed.
Proof.
  intros rows j. unfold Malformed.typed.
  destruct (Coercion.numerals _) as [vs|e] eqn:E; cbn [snd].
  - rewrite (numerals_length_preserving _ _ E). apply length_map.
  - apply length_map.
Qed.

(** The theorem of X8 at the file [Malformed.receipts]. *)
Lemma extract_csv_shape_receipts :
  exists df,
    Extract.extract_csv Malformed.named Malformed.typed Malformed.buffered
      Malformed.receipts None
    = Ok df
    /\ map label (columns df) = ["id"; "amount"]
    /\ nrows df = 2
    /\ Shape.well_formed df = true.
Proof.
  destruct (extract_csv_shape Malformed.named Malformed.typed
              Malformed.buffered Malformed.receipts None eq_refl eq_refl)
    as (df & E & _ & L & _ & N & W).
  exists df. split; [exact E|]. split; [exact (L eq_refl)|].
  split; [exact (N receipts_one_pass) | exact (W typed_one_value_per_row)].
Defined.

(** X9.  Extraction followed by the transformation [process_file] asks
    for: on every file the extractor can read both succeed, when
    [pd.to_numeric] raises nothing but [ValueError] and [TypeError]; the
    result is labelled with the normalized names of the columns in
    order, has no more rows than the file has data lines, no more than
    the data lines kept when the tokenizer reads them in one pass, and
    holds one value per row in every column when [read_csv] and
    [pd.to_numeric] do. *)
Theorem extract_then_transform (column_names : list string -> list string)
    (column_of : list (list string) -> nat -> dtype * list cell)
    (buffer_lines : nat -> nat)
    (numeric_values : list cell -> outcome (list cell))
    (fillna_mean : DataFrame -> DataFrame) (f : Extract.SourceFile)
    (chunksize : option nat) :
  Malformed.readable f = true -> Malformed.tokenizes f = true ->
  Shape.only_refuses numeric_values ->
  exists df df',
    Extract.extract_csv column_names column_of buffer_lines f chunksize = Ok df
    /\ Runs.repo_transform numeric_values fillna_mean (PyFrame df)
       = Ok (PyFrame df')
    /\ map label (columns df')
       = map Transform.normalize_name (Malformed.labels column_names f)
    /\ nrows df' <= List.length (Extract.lines f)
    /\ (Malformed.one_pass buffer_lines f chunksize ->
        nrows df' <= List.length (Malformed.kept f))
    /\ (Shape.one_value_per_row column_of ->
        Shape.length_preserving numeric_values ->
        Shape.well_formed df' = true).
Proof.
  intros R T Hr.
  destruct (extract_csv_on_readable column_names column_of buffer_lines
              f chunksize R T) as (df & E & L & _ & N & K & W).
  destruct (transform_on_frame numeric_values fillna_mean df true true
              "drop_all" true eq_refl Hr) as (df' & E' & N' & _ & L' & _ & W').
  exists df, df'. split; [exact E|]. unfold Runs.repo_transform.
  rewrite E'. cbn [bind]. split; [reflexivity|]. split; [now rewrite L', L|].
  split; [lia|]. split; [|auto].
  intros O. specialize (K O). lia.
Qed.

(** The theorem of X9 at the file [Malformed.receipts]. *)
Lemma extract_then_transform_receipts :
  exists df df',
    Extract.extract_csv Malformed.named Malformed.typed Malformed.buffered
      Malformed.receipts None
    = Ok df
    /\ Runs.repo_transform Coercion.numerals (fun d => d) (PyFrame df)
       = Ok (PyFrame df')
    /\ map label (columns df') = ["id"; "amount"]
    /\ nrows df' <= 2.
Proof.
  destruct (extract_then_transform Malformed.named Malformed.typed
              Malformed.buffered Coercion.numerals (fun d => d)
              Malformed.receipts None eq_refl eq_refl numerals_only_refuses)
    as (df & df' & E & E' & L & _ & N & _).
  exists df, df'. split; [exact E|]. split; [exact E'|].
  split; [exact L | exact (N receipts_one_pass)].
Defined.

(** ** What a run preserves *)

Section RunInvariant.

Variable w : World.
Variable concerns : string -> Prop.
Variable P : State -> Prop.

Hypothesis P_attempt :
  forall csv_file j max_retries s,
    concerns csv_file -> P s ->
    P (snd (attempt_body w csv_file j max_retries s)).
Hypothesis P_emit :
  forall ev s, Ledger.runner_event ev = true -> P s -> P (emit ev s).
Hypothesis P_fail :
  forall csv_file detail s,
    concerns csv_file -> P s ->
    P (fail_file (csv_file ++ ": " ++ detail) s).

Lemma retry_loop_invariant (csv_file : string) (max_retries : nat)
    (attempts : list nat) :
  concerns csv_file ->
  forall s, P s -> P (snd (retry_loop w csv_file max_retries attempts s)).
Proof.
  intros Hc. induction attempts as [|a attempts IH]; intros s Hs;
    [exact Hs|].
  cbn [retry_loop].
  pose proof (P_attempt csv_file a max_retries s Hc Hs) as Ha.
  destruct (attempt_body w csv_file a max_retries s) as [[u|e] s1];
    cbn [snd] in *; [exact Ha|].
  destruct (retryable e).
  - destruct (Nat.ltb a max_retries).
    + apply IH. now apply P_emit.
    + now apply P_fail.
  - apply (P_fail csv_file ("Unexpected error: " ++ exn_msg e) s1 Hc Ha).
Qed.

Lemma process_file_invariant (csv_file : string) (max_retries : nat)
    (s : State) :
  concerns csv_file -> P s ->
  P (snd (process_file w csv_file max_retries s)).
Proof.
  intros Hc Hs. unfold process_file.
  apply retry_loop_invariant; [exact Hc | now apply P_emit].
Qed.

Lemma files_invariant (max_retries : nat) (files : list string) :
  (forall f, In f files -> concerns f) ->
  forall s, P s ->
    P (fold_left (fun s csv_file =>
                    snd (process_file w csv_file max_retries s)) files s).
Proof.
  induction files as [|f files IH]; intros Hf s Hs; [exact Hs|].
  cbn [fold_left]. apply IH.
  - intros f0 H0. apply Hf. now right.
  - apply process_file_invariant; [apply Hf; now left | exact Hs].
Qed.

Lemma listing_invariant (files : list string) :
  forall s, P s -> P (fold_left (fun s f => emit (Listed f) s) files s).
Proof.
  induction files as [|f files IH]; intros s Hs; [exact Hs|].
  cbn [fold_left]. apply IH. now apply P_emit.
Qed.

Lemma run_invariant :
  (forall f, In f (glob_csv w) -> concerns f) ->
  P (mkState new_stats []) -> P (snd (run w)).
Proof.
  intros Hf H0. unfold run.
  assert (Hin : forall f, In f (sorted (glob_csv w)) -> concerns f).
  { intros f H. apply Hf.
    eapply Permutation_in; [|exact H].
    apply Permutation_sym, PathSort.Permuted_sort. }
  destruct (raw_dir_exists w); cbn [negb snd].
  - destruct (sorted (glob_csv w)) as [|f files] eqn:E; cbn [snd].
    + now repeat apply P_emit.
    + unfold log_stats. apply P_emit; [reflexivity|].
      apply P_emit; [reflexivity|].
      apply files_invariant; [exact Hin|].
      apply listing_invariant. now repeat apply P_emit.
  - now repeat apply P_emit.
Qed.

End RunInvariant.


Lemma load_events_app (l1 l2 : list event) :
  Ledger.load_events (l1 ++ l2) = Ledger.load_events l1 ++ Ledger.load_events l2.
Proof. apply filter_app. Qed.

(** X10.  When no database host is configured for any file of the run,
    the load stage is never entered: no row is counted as loaded and the
    log holds no load event, whatever else happens to the files. *)
Theorem run_without_host_never_loads (w : World) :
  (forall csv_file j,
     In csv_file (glob_csv w) ->
     truthy (getenv_POSTGRES_HOST w csv_file j) = false) ->
  rows_loaded (stats (snd (run w))) = 0
  /\ Ledger.load_events (log (snd (run w))) = [].
Proof.
  intros Hh.
  apply (run_invariant w (fun f => In f (glob_csv w))
           (fun s => rows_loaded (stats s) = 0
                     /\ Ledger.load_events (log s) = [])).
  - intros csv_file j max_retries s Hc [H1 H2].
    specialize (Hh csv_file j Hc).
    unfold attempt_body, seqM, info, update, call, try_except_LoadError, emit.
    rewrite Hh. simpl.
    repeat match goal with
           | |- context [extract_csv w csv_file ?j] =>
               destruct (extract_csv w csv_file j) as [[?|[?|]]|?] eqn:?; simpl
           | |- context [transform w csv_file ?j ?a] =>
               destruct (transform w csv_file j a) as [[?|[?|]]|?] eqn:?; simpl
           | |- context [to_csv w csv_file ?j ?a ?b] =>
               destruct (to_csv w csv_file j a b) as [?|?] eqn:?; simpl
           end;
      (split; [exact H1|]);
      repeat rewrite load_events_app; rewrite H2; reflexivity.
  - intros ev s He [H1 H2]. unfold emit. cbn [stats log].
    split; [exact H1|]. rewrite load_events_app, H2.
    now destruct ev.
  - intros csv_file detail s _ [H1 H2]. unfold fail_file. cbn [stats log].
    split; [exact H1|]. now rewrite load_events_app, H2.
  - auto.
  - now split.
Qed.

(** The theorem of X10 in the world [disk_error]. *)
Lemma run_without_host_never_loads_disk_error :
  rows_loaded (stats (snd (run disk_error))) = 0.
Proof.
  apply (run_without_host_never_loads disk_error). intros f j _. reflexivity.
Defined.

(** Whenever the transformation of [process_file] returns, it was given
    a [DataFrame] and returns one with no more rows. *)
Lemma repo_transform_rows (numeric_values : list cell -> outcome (list cell))
    (fillna_mean : DataFrame -> DataFrame) (x y : pyobj) :
  repo_transform numeric_values fillna_mean x = Ok y ->
  exists df d, x = PyFrame df /\ y = PyFrame d /\ nrows d <= nrows df.
Proof.
  unfold repo_transform. destruct x as [df|size]; [|discriminate].
  destruct (Transform.transform _ _ _ _ _ _ _) as [d|e] eqn:E; [|discriminate].
  cbn [bind]. intros [= <-]. exists df, d.
  destruct (transform_rows numeric_values fillna_mean df d true true
              "drop_all" true eq_refl E) as [N _].
  now repeat split.
Qed.

(** X11.  In a run whose transformation is the repository's
    [transform], the rows counted as transformed never exceed the rows
    counted as extracted, whatever the other collaborators do. *)
Theorem run_transforms_no_more_than_extracted
    (numeric_values : list cell -> outcome (list cell))
    (fillna_mean : DataFrame -> DataFrame) (w : World) :
  (forall csv_file j df,
     In csv_file (glob_csv w) ->
     transform w csv_file j df = repo_transform numeric_values fillna_mean df) ->
  rows_transformed (stats (snd (run w))) <= rows_extracted (stats (snd (run w))).
Proof.
  intros Ht.
  apply (run_invariant w (fun f => In f (glob_csv w))
           (fun s => rows_transformed (stats s) <= rows_extracted (stats s))).
  - intros csv_file j max_retries s Hc Hs.
    unfold attempt_body, seqM, info, update, call, try_except_LoadError, emit.
    cbn [fst snd stats log].
    destruct (extract_csv w csv_file j) as [x|e]; [|exact Hs].
    rewrite (Ht csv_file j x Hc).
    destruct (repo_transform numeric_values fillna_mean x) as [y|e] eqn:E.
    + destruct (repo_transform_rows _ _ _ _ E) as (df & d & -> & -> & N).
      cbn [len stats log].
      repeat match goal with
             | |- context [to_csv w csv_file ?j ?a ?b] =>
                 destruct (to_csv w csv_file j a b) as [?|?] eqn:?; simpl
             | |- context [truthy ?x] => destruct (truthy x) eqn:?; simpl
             | |- context [load_df_to_postgres w csv_file ?j ?a ?b] =>
                 destruct (load_df_to_postgres w csv_file j a b) as [?|?] eqn:?;
                 simpl
             | |- context [is_load_error ?e] =>
                 destruct (is_load_error e) eqn:?; simpl
             end; lia.
    + destruct (len x) as [n|e0]; cbn [stats log snd fst]; simpl; lia.
  - intros ev s _ Hs. exact Hs.
  - intros csv_file detail s _ Hs. exact Hs.
  - auto.
  - simpl. lia.
Qed.

(** The theorem of X11 in the world [Ledger.on_disk]. *)
Lemma run_transforms_no_more_than_extracted_on_disk :
  rows_transformed (stats (snd (run Ledger.on_disk)))
  <= rows_extracted (stats (snd (run Ledger.on_disk))).
Proof.
  apply (run_transforms_no_more_than_extracted Coercion.numerals
           (fun df => df) Ledger.on_disk).
  intros f j df _. reflexivity.
Defined.

(** X12.  Every message in the error list of a run names the file that
    failed: it is the name of a discovered file, a colon and a space,
    and the detail. *)
Theorem run_errors_name_files (w : World) :
  Forall (Ledger.names_file (glob_csv w)) (errors (stats (snd (run w)))).
Proof.
  apply (run_invariant w (fun f => In f (glob_csv w))
           (fun s => Forall (Ledger.names_file (glob_csv w)) (errors (stats s)))).
  - intros csv_file j max_retries s _ Hs.
    destruct (attempt_body_effect w csv_file j max_retries s)
      as [_ [_ _ _ _ _ E _ _]].
    now rewrite E.
  - intros ev s _ Hs. exact Hs.
  - intros csv_file detail s Hc Hs. unfold fail_file. cbn [stats errors].
    apply Forall_app. split; [exact Hs|]. constructor; [|constructor].
    now exists csv_file, detail.
  - auto.
  - constructor.
Qed.

Section Verdict.

Variable w : World.
Variable csv_file : string.
Variable max_retries : nat.

(** The loop, entered with at least one attempt left in the range,
    ends with a verdict that the counters and the error list bear
    out. *)
Lemma retry_loop_verdict (n : nat) :
  forall (a : nat) (s : State),
    1 <= n -> a + n = S max_retries ->
    let r := retry_loop w csv_file max_retries (seq a n) s in
    (fst r = true
     /\ files_processed (stats (snd r)) = files_processed (stats s) + 1
     /\ files_failed (stats (snd r)) = files_failed (stats s)
     /\ errors (stats (snd r)) = errors (stats s))
    \/ (fst r = false
        /\ files_processed (stats (snd r)) = files_processed (stats s)
        /\ files_failed (stats (snd r)) = files_failed (stats s) + 1
        /\ exists detail,
             errors (stats (snd r))
             = errors (stats s) ++ [csv_file ++ ": " ++ detail]%string).
Proof.
  induction n as [|n IH]; intros a s Hn Ha; [lia|].
  cbn [seq]. cbv zeta.
  destruct (attempt_body_effect w csv_file a max_retries s)
    as [_ [_ _ _ _ X E P _]].
  destruct (attempt_result w csv_file a) as [[]|e] eqn:Res.
  - rewrite retry_loop_success by (unfold succeeds; now rewrite Res).
    unfold succeeds in P. rewrite Res in P. cbn [fst snd]. left.
    now repeat split.
  - unfold succeeds in P. rewrite Res in P. rewrite Nat.add_0_r in P.
    destruct (retryable e) eqn:Hre.
    + destruct (Nat.lt_ge_cases a max_retries) as [Hlt|Hge].
      * rewrite (retry_loop_again w csv_file _ _ _ _ e Res Hre Hlt).
        set (s1 := emit (Retrying a (exn_msg e))
                        (snd (attempt_body w csv_file a max_retries s))).
        assert (Hst : stats s1
                      = stats (snd (attempt_body w csv_file a max_retries s)))
          by reflexivity.
        destruct (IH (S a) s1) as [(R & Pp & Xx & Ee)|(R & Pp & Xx & d & Ee)];
          [lia | lia | left | right]; rewrite Hst in *.
        -- split; [exact R|]. split; [lia|]. split; [lia | congruence].
        -- split; [exact R|]. split; [lia|]. split; [lia|].
           exists d. congruence.
      * rewrite (retry_loop_give_up w csv_file _ _ _ _ e Res Hre Hge).
        cbn [fst snd]. right.
        destruct (fail_file_effect (csv_file ++ ": " ++ exn_msg e)
                    (snd (attempt_body w csv_file a max_retries s)))
          as (_ & _ & _ & FX & FP & _ & FE).
        split; [reflexivity|]. split; [congruence|]. split; [congruence|].
        exists (exn_msg e). congruence.
    + rewrite (retry_loop_fatal w csv_file _ _ _ _ e Res Hre).
      cbn [fst snd]. right.
      destruct (fail_file_effect
                  (csv_file ++ ": Unexpected error: " ++ exn_msg e)
                  (snd (attempt_body w csv_file a max_retries s)))
        as (_ & _ & _ & FX & FP & _ & FE).
      split; [reflexivity|]. split; [congruence|]. split; [congruence|].
      exists ("Unexpected error: " ++ exn_msg e)%string.
      rewrite FE, E. reflexivity.
Qed.

End Verdict.

(** X13.  With at least one attempt allowed, the value [process_file]
    returns agrees with what it records: [True] goes with one more file
    processed and nothing else, [False] with one more file failed and
    one message for that file added to the error list.  With
    [max_retries = 0] it returns [False] without an attempt and without
    recording the file as failed. *)
Theorem process_file_verdict (w : World) (csv_file : string)
    (max_retries : nat) (s : State) :
  let r := process_file w csv_file max_retries s in
  (1 <= max_retries ->
   (fst r = true
    /\ files_processed (stats (snd r)) = files_processed (stats s) + 1
    /\ files_failed (stats (snd r)) = files_failed (stats s)
    /\ errors (stats (snd r)) = errors (stats s))
   \/ (fst r = false
       /\ files_processed (stats (snd r)) = files_processed (stats s)
       /\ files_failed (stats (snd r)) = files_failed (stats s) + 1
       /\ exists detail,
            errors (stats (snd r))
            = errors (stats s) ++ [csv_file ++ ": " ++ detail]%string))
  /\ (max_retries = 0 ->
      fst r = false
      /\ stats (snd r) = stats s
      /\ attempts_logged (log (snd r)) = attempts_logged (log s)).
Proof.
  cbv zeta. split.
  - intros Hm. unfold process_file.
    apply (retry_loop_verdict w csv_file max_retries max_retries 1
             (emit (Processing csv_file) s)); lia.
  - intros ->. unfold process_file. cbn [seq retry_loop fst snd].
    destruct (after_processing csv_file s) as (PA & PS & _).
    now repeat split.
Qed.

(** The theorem of X13 in the world [unreadable] and, without an
    attempt allowed, in the world [steady]. *)
Lemma process_file_verdict_examples :
  files_failed (stats (snd (process_file unreadable "a.csv" 3 start))) = 1
  /\ stats (snd (process_file steady "a.csv" 0 start)) = new_stats.
Proof.
  split.
  - destruct (process_file_verdict unreadable "a.csv" 3 start) as [H _].
    destruct H as [(Hr & _)|(_ & _ & Hx & _)]; [lia | | exact Hx].
    vm_compute in Hr. discriminate Hr.
  - destruct (process_file_verdict steady "a.csv" 0 start) as [_ H].
    destruct (H eq_refl) as (_ & Hs & _). exact Hs.
Defined.

(** ** The runner over the repository's extractor *)

Lemma repo_extract_unreadable (column_names : list string -> list string)
    (column_of : list (list string) -> nat -> dtype * list cell)
    (buffer_lines : nat -> nat) (f : Extract.SourceFile) :
  Malformed.readable f = false ->
  exists e,
    Ledger.repo_extract column_names column_of buffer_lines f = Raise e
    /\ retryable e = true.
Proof.
  intros R.
  destruct (extract_unreadable column_names column_of buffer_lines f None)
    as [e E]; [now rewrite R|].
  pose proof (extract_handlers_raise _ e E) as T.
  exists e. unfold Ledger.repo_extract, Extract.extract_csv. rewrite E.
  split; [reflexivity|]. unfold retryable. now rewrite T.
Qed.

Lemma nothing_extracted_from (w : World) (csv_file : string) (k : nat) :
  forall a,
    (forall j, a <= j < a + k -> rows_read w csv_file j = None) ->
    list_sum (map (extracted w csv_file) (seq a k)) = 0.
Proof.
  induction k as [|k IH]; intros a H; [reflexivity|].
  change (list_sum (map (extracted w csv_file) (seq a (S k))))
    with (extracted w csv_file a
          + list_sum (map (extracted w csv_file) (seq (S a) k))).
  rewrite IH by (intros j Hj; apply H; lia).
  unfold extracted. now rewrite H by lia.
Qed.

Lemma nothing_extracted (w : World) (csv_file : string) (k : nat) :
  (forall j, 1 <= j <= k -> rows_read w csv_file j = None) ->
  extracted_through w csv_file k = 0.
Proof.
  intros H. apply nothing_extracted_from. intros j Hj. apply H. lia.
Qed.

(** X14.  A file that the repository's extractor cannot read on any
    attempt (missing, not a regular file, empty, undecodable or without
    a header) is never failed at once: every attempt is made, the file
    is then counted as failed, and no row is counted as extracted. *)
Theorem unreadable_file_is_retried_then_failed
    (column_names : list string -> list string)
    (column_of : list (list string) -> nat -> dtype * list cell)
    (buffer_lines : nat -> nat)
    (w : World) (csv_file : string) (max_retries : nat) (s : State) :
  1 <= max_retries ->
  (forall j, 1 <= j <= max_retries ->
     exists f,
       extract_csv w csv_file j
       = Ledger.repo_extract column_names column_of buffer_lines f
       /\ Malformed.readable f = false) ->
  let r := process_file w csv_file max_retries s in
  fst r = false
  /\ attempts_logged (log (snd r)) = attempts_logged (log s) ++ seq 1 max_retries
  /\ files_failed (stats (snd r)) = files_failed (stats s) + 1
  /\ files_processed (stats (snd r)) = files_processed (stats s)
  /\ rows_extracted (stats (snd r)) = rows_extracted (stats s).
Proof.
  intros Hm Hu r. subst r.
  assert (Hx : forall j, 1 <= j <= max_retries ->
                 fails_retryably w csv_file j = true
                 /\ rows_read w csv_file j = None).
  { intros j Hj. destruct (Hu j Hj) as (f & E & R).
    destruct (repo_extract_unreadable column_names column_of buffer_lines f R)
      as (e & Ee & Hre).
    unfold fails_retryably, rows_read, attempt_result, attempt_body, seqM,
      info, update, call. cbn [fst snd stats log emit].
    rewrite E, Ee. now split. }
  destruct (process_file_exhausted w csv_file max_retries s Hm)
    as (e & s2 & _ & _ & Ep & [_ A _ _ X _ P R]);
    [intros j Hj; now apply Hx|].
  rewrite (nothing_extracted w csv_file max_retries) in R
    by (intros j Hj; now apply Hx).
  destruct (after_processing csv_file s) as (PA & PS & _ & _).
  rewrite Ep. cbn [fst snd].
  destruct (fail_file_effect (csv_file ++ ": " ++ exn_msg e) s2)
    as (FA & _ & _ & FX & FP & FR & _).
  rewrite PA in A. rewrite PS in X, P, R.
  split; [reflexivity|]. split; [congruence|]. repeat split; lia.
Qed.

(** The theorem of X14 in the world [Ledger.on_disk], whose [a.csv] is
    empty. *)
Lemma unreadable_file_is_retried_then_failed_on_disk :
  fst (process_file Ledger.on_disk "a.csv" 3 start) = false
  /\ attempts_logged (log (snd (process_file Ledger.on_disk "a.csv" 3 start)))
     = [1; 2; 3].
Proof.
  destruct (unreadable_file_is_retried_then_failed Malformed.named
              Malformed.typed Malformed.buffered Ledger.on_disk "a.csv" 3 start)
    as (Hr & Ha & _).
  - lia.
  - intros j _. exists (Ledger.disk "a.csv"). split; reflexivity.
  - split; [exact Hr | exact Ha].
Defined.

Lemma readable_through_both_stages
    (column_names : list string -> list string)
    (column_of : list (list string) -> nat -> dtype * list cell)
    (buffer_lines : nat -> nat)
    (numeric_values : list cell -> outcome (list cell))
    (fillna_mean : DataFrame -> DataFrame) (f : Extract.SourceFile) :
  Malformed.readable f = true -> Malformed.tokenizes f = true ->
  Malformed.one_pass buffer_lines f None ->
  Shape.only_refuses numeric_values ->
  exists df d,
    Ledger.repo_extract column_names column_of buffer_lines f = Ok (PyFrame df)
    /\ repo_transform numeric_values fillna_mean (PyFrame df) = Ok (PyFrame d)
    /\ nrows df = List.length (Malformed.kept f)
    /\ nrows d <= nrows df.
Proof.
  intros R T O Hr.
  destruct (extract_csv_on_readable column_names column_of buffer_lines
              f None R T) as (df & E & _ & _ & _ & N & _).
  specialize (N O).
  destruct (transform_on_frame numeric_values fillna_mean df true true
              "drop_all" true eq_refl Hr) as (d & E2 & N2 & _).
  exists df, d. unfold Ledger.repo_extract, repo_transform.
  rewrite E, E2. now repeat split.
Qed.

(** An attempt in which every stage works and no host is configured. *)
Lemma attempt_body_plain (w : World) (csv_file : string)
    (k max_retries : nat) (s : State) (df df_transformed : pyobj) (n n_t : nat) :
  extract_csv w csv_file k = Ok df ->
  len df = Ok n ->
  transform w csv_file k df = Ok df_transformed ->
  len df_transformed = Ok n_t ->
  to_csv w csv_file k df_transformed (PROCESSED_DIR ++ "/" ++ csv_file) = Ok tt ->
  truthy (getenv_POSTGRES_HOST w csv_file k) = false ->
  attempt_body w csv_file k max_retries s
  = (Ok tt,
     mkState (add_file_processed
                (add_rows_transformed n_t (add_rows_extracted n (stats s))))
             (log s ++ [Attempt k max_retries; Transforming;
                        Saving (PROCESSED_DIR ++ "/" ++ csv_file);
                        Saved n_t; HostNotSet; Succeeded csv_file])).
Proof.
  intros He Hn Ht Hnt Hs Hh.
  unfold attempt_body, seqM, info, update, call, try_except_LoadError, emit.
  cbn [fst snd stats log].
  rewrite He, Hn. cbn [stats log]. rewrite Ht, Hnt. cbn [stats log].
  rewrite Hs, ?Hnt. cbn [stats log]. rewrite Hh. cbn [stats log].
  repeat rewrite <- app_assoc. reflexivity.
Qed.

(** X15.  A file the extractor can read, its data lines tokenized in
    one pass, goes through on the first attempt when the extractor and
    the transformation are the repository's, [pd.to_numeric] raises
    nothing but [ValueError] and [TypeError], the processed file can be
    written and no host is configured: the result is [True], one attempt
    is made, the data lines the reader kept are counted as extracted and
    no more than these as transformed. *)
Theorem readable_file_succeeds_first_time
    (column_names : list string -> list string)
    (column_of : list (list string) -> nat -> dtype * list cell)
    (buffer_lines : nat -> nat)
    (numeric_values : list cell -> outcome (list cell))
    (fillna_mean : DataFrame -> DataFrame) (w : World) (csv_file : string)
    (max_retries : nat) (s : State) (f : Extract.SourceFile) :
  1 <= max_retries ->
  extract_csv w csv_file 1
  = Ledger.repo_extract column_names column_of buffer_lines f ->
  Malformed.readable f = true ->
  Malformed.tokenizes f = true ->
  Malformed.one_pass buffer_lines f None ->
  Shape.only_refuses numeric_values ->
  (forall df, transform w csv_file 1 df
              = repo_transform numeric_values fillna_mean df) ->
  (forall df out_file, to_csv w csv_file 1 df out_file = Ok tt) ->
  truthy (getenv_POSTGRES_HOST w csv_file 1) = false ->
  let r := process_file w csv_file max_retries s in
  fst r = true
  /\ attempts_logged (log (snd r)) = attempts_logged (log s) ++ [1]
  /\ files_processed (stats (snd r)) = files_processed (stats s) + 1
  /\ files_failed (stats (snd r)) = files_failed (stats s)
  /\ rows_extracted (stats (snd r))
     = rows_extracted (stats s) + List.length (Malformed.kept f)
  /\ rows_transformed (stats (snd r))
     <= rows_transformed (stats s) + List.length (Malformed.kept f)
  /\ rows_loaded (stats (snd r)) = rows_loaded (stats s).
Proof.
  intros Hm He R T O Hr Ht Hs Hh r. subst r.
  destruct (readable_through_both_stages column_names column_of buffer_lines
              numeric_values fillna_mean f R T O Hr)
    as (df & d & E1 & E2 & N1 & N2).
  unfold process_file.
  destruct max_retries as [|m]; [lia|]. cbn [seq retry_loop].
  rewrite (attempt_body_plain w csv_file 1 (S m) _ (PyFrame df) (PyFrame d)
             (nrows df) (nrows d)); try reflexivity; try assumption.
  - cbn [fst snd stats log emit files_processed files_failed rows_extracted
           rows_transformed rows_loaded add_file_processed
           add_rows_transformed add_rows_extracted].
    split; [reflexivity|]. split.
    { unfold attempts_logged. rewrite !flat_map_app. simpl.
      now rewrite app_nil_r. }
    repeat split; lia.
  - now rewrite He.
  - now rewrite Ht.
  - apply Hs.
Qed.

(** The theorem of X15 in the world [Ledger.on_disk], whose [b.csv]
    holds three data lines, of which the reader keeps two. *)
Lemma readable_file_succeeds_first_time_on_disk :
  fst (process_file Ledger.on_disk "b.csv" 3 start) = true
  /\ rows_extracted (stats (snd (process_file Ledger.on_disk "b.csv" 3 start)))
     = 2.
Proof.
  destruct (readable_file_succeeds_first_time Malformed.named Malformed.typed
              Malformed.buffered Coercion.numerals (fun df => df)
              Ledger.on_disk "b.csv" 3 start (Ledger.disk "b.csv"))
    as (Hr & _ & _ & _ & Hx & _); try reflexivity.
  - lia.
  - apply Nat.leb_le. vm_compute. reflexivity.
  - apply numerals_only_refuses.
  - split; [exact Hr | exact Hx].
Defined.

(** ** The loader *)

Ltac open_load :=
  unfold Load.load_df_to_postgres, Load.load_handlers, Load.load_body,
    Load.andthen, Load.connect, Load.disconnect, Load.record,
    Load.connect_handler, Load.load_error, Load.DatabaseManager_init;
  cbn [Pipeline.len].

Ltac load_cases d :=
  repeat match goal with
         | |- context [Load.create_engine d ?u] =>
             destruct (Load.create_engine d u) as [[]|?] eqn:?
         | |- context [Load.engine_connect d] =>
             destruct (Load.engine_connect d) as [[]|?] eqn:?
         | |- context [Load.to_sql d ?a ?b ?c ?n] =>
             destruct (Load.to_sql d a b c n) as [[]|?] eqn:?
         | |- context [Load.table_exists d ?t] =>
             destruct (Load.table_exists d t) eqn:?
         | |- context [Load.is_sqlalchemy_error ?e] =>
             destruct (Load.is_sqlalchemy_error e) eqn:?
         | |- context [String.eqb ?a ?b && ?c] =>
             destruct (String.eqb a b && c) eqn:?
         | |- context [if String.eqb ?a ?b then _ else _] =>
             destruct (String.eqb a b) eqn:?
         end;
  cbn [fst snd Load.manager Load.trace Load.engine Load.with_engine].

Section Loading.

Variable int : string -> option Z.
Variable str : Z -> string.
Variable env : Load.Environ.
Variable d : Load.Driver.

(** X16.  An empty table (no row, or no column) under a non-empty
    table name and one of the three policies is loaded as zero rows
    without the database being contacted, whatever the environment
    and the server; under any other policy even an empty table is
    refused with a [LoadError]. *)
Theorem load_empty_frame_is_noop (df : DataFrame)
    (table_name if_exists : string) (chunk_size : nat)
    (validate_schema : bool) :
  Load.empty df = true ->
  Transform.truthy table_name = true ->
  (Load.known_policy if_exists = true ->
   Load.load_df_to_postgres int str env d (PyFrame df) table_name if_exists
     chunk_size validate_schema = (Ok 0, []))
  /\ (Load.known_policy if_exists = false ->
      exists msg,
        Load.load_df_to_postgres int str env d (PyFrame df) table_name
          if_exists chunk_size validate_schema
        = (Raise (mkExn LoadError msg), [])).
Proof.
  intros He Ht. open_load. rewrite Ht. cbn [negb]. split; intros Hk;
    rewrite Hk; cbn [negb]; [now rewrite He | now eexists].
Qed.

(** X17.  Whatever is loaded and however the load ends, the engine is
    created at most once, it is disposed of exactly when it was
    created, and disposing of it is then the last thing that
    happens. *)
Theorem load_disposes_engine_it_created (df : pyobj)
    (table_name if_exists : string) (chunk_size : nat)
    (validate_schema : bool) :
  let tr := snd (Load.load_df_to_postgres int str env d df table_name
                   if_exists chunk_size validate_schema) in
  Load.created tr = Load.disposed tr
  /\ Load.created tr <= 1
  /\ (Load.created tr = 1 -> exists l, tr = l ++ [Load.EngineDisposed]).
Proof.
  cbv zeta. open_load.
  destruct df as [frame|[n|]]; cbn [snd];
    try (split; [reflexivity|]; split; [auto|]; discriminate).
  destruct (negb (Transform.truthy table_name));
    [cbn [snd]; split; [reflexivity|]; split; [auto|]; discriminate|].
  destruct (negb (Load.known_policy if_exists));
    [cbn [snd]; split; [reflexivity|]; split; [auto|]; discriminate|].
  destruct (Load.empty frame);
    [cbn [snd]; split; [reflexivity|]; split; [auto|]; discriminate|].
  destruct (int _);
    [|cbn [snd]; split; [reflexivity|]; split; [auto|]; discriminate].
  cbn [Load.manager Load.trace].
  load_cases d;
    unfold Load.created, Load.disposed; simpl;
    (split; [reflexivity|]; split; [lia|]);
    try discriminate; intros _;
    repeat rewrite <- app_assoc; simpl;
    first [ eexists (_ :: nil); reflexivity
          | eexists (_ :: _ :: _ :: _ :: nil); reflexivity
          | eexists (_ :: _ :: _ :: nil); reflexivity
          | eexists (_ :: _ :: nil); reflexivity ].
Qed.

(** With a port that reads as a number, a table is loaded in full, or
    not at all with a [LoadError]. *)
Lemma load_outcome (frame : DataFrame) (table_name if_exists : string)
    (chunk_size : nat) (validate_schema : bool) (p : Z) :
  int (Load.getenv (Load.POSTGRES_PORT env) "5432") = Some p ->
  match fst (Load.load_df_to_postgres int str env d (PyFrame frame)
               table_name if_exists chunk_size validate_schema) with
  | Ok n => n = if Load.empty frame then 0 else nrows frame
  | Raise e => exn_type e = LoadError
  end.
Proof.
  intros Hp. open_load. rewrite Hp.
  destruct (negb (Transform.truthy table_name)); [reflexivity|].
  destruct (negb (Load.known_policy if_exists)); [reflexivity|].
  destruct (Load.empty frame); [reflexivity|].
  cbn [Load.manager Load.trace].
  load_cases d; reflexivity.
Qed.

(** X18.  When [POSTGRES_PORT] reads as a number and the value to
    load has a length, the loader ends in one of two ways: it returns
    the number of rows of the table it was given (zero for an empty
    one), or it raises a [LoadError]; no other exception leaves it,
    whatever the server answers. *)
Theorem load_raises_only_load_errors (df : pyobj)
    (table_name if_exists : string) (chunk_size : nat)
    (validate_schema : bool) (p : Z) (size : nat) :
  int (Load.getenv (Load.POSTGRES_PORT env) "5432") = Some p ->
  Pipeline.len df = Ok size ->
  match fst (Load.load_df_to_postgres int str env d df table_name if_exists
               chunk_size validate_schema) with
  | Ok n => exists frame,
              df = PyFrame frame
              /\ n = if Load.empty frame then 0 else nrows frame
  | Raise e => exn_type e = LoadError
  end.
Proof.
  intros Hp Hl. destruct df as [frame|[n|]].
  - pose proof (load_outcome frame table_name if_exists chunk_size
                  validate_schema p Hp) as H.
    destruct (fst _) as [n|e]; [|exact H]. now exists frame.
  - reflexivity.
  - discriminate.
Qed.

(** A port that does not read as a number stops the load of a table
    that has rows, before the database is contacted, with the
    [ValueError] of [int]. *)
Lemma load_bad_port (frame : DataFrame) (table_name if_exists : string)
    (chunk_size : nat) (validate_schema : bool) :
  int (Load.getenv (Load.POSTGRES_PORT env) "5432") = None ->
  Load.empty frame = false ->
  Transform.truthy table_name = true ->
  Load.known_policy if_exists = true ->
  exists detail,
    Load.load_df_to_postgres int str env d (PyFrame frame) table_name
      if_exists chunk_size validate_schema
    = (Raise (mkExn (OtherException "ValueError") detail), []).
Proof.
  intros Hp He Ht Hk. open_load. rewrite Hp, He, Ht, Hk. cbn [negb].
  now eexists.
Qed.

(** X19.  The loader returns a positive number of rows exactly when
    it has written: a write in the trace is a write of the whole
    table to the table named in the call, and the call then returns
    that number of rows; a call that returns a positive number has
    made that write. *)
Theorem load_reports_what_it_wrote (frame : DataFrame)
    (table_name if_exists : string) (chunk_size : nat)
    (validate_schema : bool) :
  let r := Load.load_df_to_postgres int str env d (PyFrame frame)
             table_name if_exists chunk_size validate_schema in
  (forall t n, In (Load.Written t n) (snd r) ->
               t = table_name /\ n = nrows frame /\ fst r = Ok n)
  /\ (forall n, fst r = Ok n -> 0 < n ->
                In (Load.Written table_name n) (snd r)).
Proof.
  cbv zeta. open_load.
  destruct (negb (Transform.truthy table_name));
    [split; [intros t n []|discriminate]|].
  destruct (negb (Load.known_policy if_exists));
    [split; [intros t n []|discriminate]|].
  destruct (Load.empty frame);
    [split; [intros t n []|cbn [fst]; intros n [= <-] H; inversion H]|].
  destruct (int _); [|split; [intros t n []|discriminate]].
  cbn [Load.manager Load.trace].
  load_cases d; simpl;
    (split;
     [ intros t n H;
       repeat (destruct H as [H|H]; [try discriminate|]);
       try (exfalso; exact H);
       injection H as <- <-; auto
     | try discriminate; intros n [= <-] _; auto 10 ]).
Qed.

End Loading.

(** X20.  What the inspection of the catalogue answers never changes
    the result of a load: two servers that answer alike when the engine
    is created, when the connection is tried and when the rows are
    written give the same result. *)
Theorem load_ignores_inspection (int : string -> option Z) (str : Z -> string)
    (env : Load.Environ) (d d' : Load.Driver) (df : pyobj)
    (table_name if_exists : string) (chunk_size : nat)
    (validate_schema : bool) :
  (forall url, Load.create_engine d url = Load.create_engine d' url) ->
  Load.engine_connect d = Load.engine_connect d' ->
  (forall frame t policy n,
     Load.to_sql d frame t policy n = Load.to_sql d' frame t policy n) ->
  fst (Load.load_df_to_postgres int str env d df table_name if_exists
         chunk_size validate_schema)
  = fst (Load.load_df_to_postgres int str env d' df table_name if_exists
           chunk_size validate_schema).
Proof.
  intros Hc Hn Hs. open_load.
  destruct df as [frame|[n|]]; try reflexivity.
  destruct (negb (Transform.truthy table_name)); [reflexivity|].
  destruct (negb (Load.known_policy if_exists)); [reflexivity|].
  destruct (Load.empty frame); [reflexivity|].
  destruct (int _); [|reflexivity].
  cbn [Load.manager Load.trace].
  rewrite <- Hn.
  repeat match goal with
         | |- context [Load.create_engine d' ?u] => rewrite <- (Hc u)
         | |- context [Load.to_sql d' ?a ?b ?c ?n] => rewrite <- (Hs a b c n)
         end.
  load_cases d; load_cases d'; first [reflexivity | congruence].
Qed.

(** The theorem of X16 for a table without rows, an environment whose
    port is no number and a server that cannot be reached. *)
Lemma load_empty_frame_is_noop_unreachable :
  Load.load_df_to_postgres Coercion.decimal Load.show Load.bad_port
    Load.unreachable (PyFrame (mkFrame 0 [mkSeries "id" numeric []]))
    "orders" "replace" 5000 true = (Ok 0, []).
Proof.
  apply (load_empty_frame_is_noop Coercion.decimal Load.show Load.bad_port
           Load.unreachable (mkFrame 0 [mkSeries "id" numeric []])
           "orders" "replace" 5000 true); reflexivity.
Defined.

(** The theorem of X18 for two rows and a server that cannot be
    reached. *)
Lemma load_raises_only_load_errors_unreachable :
  match fst (Load.load_df_to_postgres Coercion.decimal Load.show Load.bare
               Load.unreachable (PyFrame Load.two_rows) "orders" "append"
               5000 true) with
  | Ok n => exists frame,
              PyFrame Load.two_rows = PyFrame frame
              /\ n = if Load.empty frame then 0 else nrows frame
  | Raise e => exn_type e = LoadError
  end.
Proof.
  apply (load_raises_only_load_errors Coercion.decimal Load.show Load.bare
           Load.unreachable (PyFrame Load.two_rows) "orders" "append" 5000
           true 5432 2); reflexivity.
Defined.

(** The theorem of X20 for a server whose catalogue cannot be read. *)
Lemma load_ignores_inspection_blind :
  fst (Load.load_df_to_postgres Coercion.decimal Load.show Load.bare
         Load.obliging (PyFrame Load.two_rows) "orders" "append" 5000 true)
  = fst (Load.load_df_to_postgres Coercion.decimal Load.show Load.bare
           Load.blind (PyFrame Load.two_rows) "orders" "append" 5000 true).
Proof.
  apply (load_ignores_inspection Coercion.decimal Load.show Load.bare
           Load.obliging Load.blind); reflexivity.
Defined.

(** ** The runner over the repository's loader *)

(** The loader as [process_file] calls it, with a port that reads as a
    number: it loads no more rows than it was given, or raises a
    [LoadError]. *)
Lemma repo_load_cases (int : string -> option Z) (str : Z -> string)
    (env : Load.Environ) (d : Load.Driver) (frame : DataFrame)
    (table_name : string) (p : Z) :
  int (Load.getenv (Load.POSTGRES_PORT env) "5432") = Some p ->
  (exists n, Load.repo_load int str env d (PyFrame frame) table_name = Ok n
             /\ n <= nrows frame)
  \/ (exists e, Load.repo_load int str env d (PyFrame frame) table_name
                = Raise e
                /\ is_load_error e = true).
Proof.
  intros Hp. unfold Load.repo_load.
  pose proof (load_outcome int str env d frame table_name "append" 5000 true
                p Hp) as H.
  destruct (fst _) as [n|e].
  - left. exists n. split; [reflexivity|].
    subst n. destruct (Load.empty frame); lia.
  - right. exists e. split; [reflexivity|].
    unfold is_load_error. now rewrite H.
Qed.

(** The stem of a file name is empty only if the name is. *)
Lemma stem_truthy (name : string) :
  name <> EmptyString -> Transform.truthy (stem name) = true.
Proof.
  intros Hn. unfold stem.
  destruct name as [|c rest]; [now destruct Hn|].
  destruct (rfind_dot (String c rest)) as [i|]; [|reflexivity].
  destruct (Nat.ltb 0 i && _) eqn:C; [|reflexivity].
  destruct i as [|i]; [discriminate|]. reflexivity.
Qed.

(** Whatever the port, a load that returns has loaded no more rows
    than the value holds. *)
Lemma load_raises_loaded_bound (int : string -> option Z) (str : Z -> string)
    (env : Load.Environ) (d : Load.Driver) (df : pyobj) (table_name : string)
    (n : nat) :
  fst (Load.load_df_to_postgres int str env d df table_name "append" 5000 true)
  = Ok n ->
  match len df with Ok size => n <= size | Raise _ => False end.
Proof.
  open_load.
  destruct df as [frame|[k|]]; cbn [len]; try discriminate.
  destruct (negb (Transform.truthy table_name)); [discriminate|].
  destruct (negb (Load.known_policy "append")); [discriminate|].
  destruct (Load.empty frame); [intros [= <-]; lia|].
  destruct (int _); [|discriminate].
  cbn [Load.manager Load.trace].
  load_cases d; cbn [fst]; try discriminate; intros [= <-]; lia.
Qed.

Section FileThroughLoader.

Variable int : string -> option Z.
Variable str : Z -> string.
Variable env : Load.Environ.
Variable d : Load.Driver.
Variable w : World.
Variable csv_file : string.
Variable x : pyobj.
Variable size : nat.
Variable frame : DataFrame.

Hypothesis extracted : extract_csv w csv_file 1 = Ok x.
Hypothesis sized : len x = Ok size.
Hypothesis transformed : transform w csv_file 1 x = Ok (PyFrame frame).
Hypothesis saved :
  to_csv w csv_file 1 (PyFrame frame) (PROCESSED_DIR ++ "/" ++ csv_file)
  = Ok tt.
Hypothesis host_set : truthy (getenv_POSTGRES_HOST w csv_file 1) = true.
Hypothesis loader :
  load_df_to_postgres w csv_file 1 (PyFrame frame) (stem csv_file)
  = Load.repo_load int str env d (PyFrame frame) (stem csv_file).

(** X21.  A [POSTGRES_PORT] that does not read as a number is fatal
    to a file, whatever its name: when the first attempt extracts,
    transforms and saves a table that has rows and a host is
    configured, the loader's [ValueError] is no stage error, so the
    file fails on that attempt without a retry, although its processed
    copy has been written; nothing is counted as loaded. *)
Theorem malformed_port_fails_file (max_retries : nat) (s : State) :
  int (Load.getenv (Load.POSTGRES_PORT env) "5432") = None ->
  Load.empty frame = false ->
  csv_file <> EmptyString ->
  1 <= max_retries ->
  exists s',
    process_file w csv_file max_retries s = (false, s')
    /\ attempts_logged (log s') = attempts_logged (log s) ++ [1]
    /\ In (Saved (nrows frame)) (log s')
    /\ files_failed (stats s') = files_failed (stats s) + 1
    /\ files_processed (stats s') = files_processed (stats s)
    /\ rows_loaded (stats s') = rows_loaded (stats s)
    /\ exists detail,
         errors (stats s')
         = errors (stats s)
           ++ [(csv_file ++ ": Unexpected error: " ++ detail)%string].
Proof.
  intros Hp He Hn Hm.
  destruct max_retries as [|m]; [lia|].
  destruct (load_bad_port int str env d frame (stem csv_file) "append" 5000
              true Hp He (stem_truthy csv_file Hn) eq_refl) as (detail & E).
  unfold process_file. cbn [seq retry_loop].
  unfold attempt_body, seqM, info, update, call, try_except_LoadError.
  cbn [fst snd]. rewrite extracted, sized. cbn [fst snd].
  rewrite transformed. cbn [len fst snd]. rewrite saved, host_set.
  cbn [fst snd]. rewrite loader. unfold Load.repo_load. rewrite E.
  cbn [fst snd is_load_error exn_type retryable exn_msg].
  eexists. split; [reflexivity|].
  unfold fail_file, emit. cbn [stats log add_file_failed add_rows_extracted
    add_rows_transformed files_failed files_processed rows_loaded errors].
  split.
  { unfold attempts_logged. repeat rewrite flat_map_app. simpl.
    now repeat rewrite app_nil_r. }
  split.
  { repeat rewrite in_app_iff. simpl. tauto. }
  repeat split. now exists detail.
Qed.

(** X22.  With a port that reads as a number, nothing the database
    does can fail a file: when the first attempt extracts, transforms
    and saves a table and a host is configured, the file succeeds on
    that attempt whatever the server answers, and the rows counted
    as loaded grow by at most the rows of the table. *)
Theorem database_failure_never_fails_file (max_retries : nat) (s : State)
    (p : Z) :
  int (Load.getenv (Load.POSTGRES_PORT env) "5432") = Some p ->
  1 <= max_retries ->
  exists s',
    process_file w csv_file max_retries s = (true, s')
    /\ attempts_logged (log s') = attempts_logged (log s) ++ [1]
    /\ files_processed (stats s') = files_processed (stats s) + 1
    /\ files_failed (stats s') = files_failed (stats s)
    /\ errors (stats s') = errors (stats s)
    /\ rows_loaded (stats s) <= rows_loaded (stats s')
       <= rows_loaded (stats s) + nrows frame.
Proof.
  intros Hp Hm.
  destruct max_retries as [|m]; [lia|].
  unfold process_file. cbn [seq retry_loop].
  unfold attempt_body, seqM, info, update, call, try_except_LoadError.
  cbn [fst snd]. rewrite extracted, sized. cbn [fst snd].
  rewrite transformed. cbn [len fst snd]. rewrite saved, host_set.
  cbn [fst snd]. rewrite loader.
  destruct (repo_load_cases int str env d frame (stem csv_file) p Hp)
    as [(n & E & Hn)|(e & E & Hl)]; rewrite E; cbn [fst snd];
    [|rewrite Hl];
    (eexists; split; [reflexivity|]);
    unfold emit; cbn [stats log add_file_processed add_rows_loaded
      add_rows_extracted add_rows_transformed files_failed files_processed
      rows_loaded errors];
    (split;
     [ unfold attempts_logged; repeat rewrite flat_map_app; simpl;
       now repeat rewrite app_nil_r
     | repeat split; lia ]).
Qed.

End FileThroughLoader.

(** X23.  In a run whose loader is the repository's
    [load_df_to_postgres], the rows counted as loaded never exceed the
    rows counted as transformed, whatever the environment and the
    server of each call and whatever the other collaborators do. *)
Theorem run_loads_no_more_than_transformed (int : string -> option Z)
    (str : Z -> string) (w : World) :
  (forall csv_file j df table_name,
     In csv_file (glob_csv w) ->
     exists env d,
       load_df_to_postgres w csv_file j df table_name
       = Load.repo_load int str env d df table_name) ->
  rows_loaded (stats (snd (run w))) <= rows_transformed (stats (snd (run w))).
Proof.
  intros Hl.
  apply (run_invariant w (fun f => In f (glob_csv w))
           (fun s => rows_loaded (stats s) <= rows_transformed (stats s))).
  - intros csv_file j max_retries s Hc Hs.
    unfold attempt_body, seqM, info, update, call, try_except_LoadError, emit.
    cbn [fst snd stats log].
    destruct (extract_csv w csv_file j) as [x|e]; [|exact Hs].
    destruct (len x) as [n|e]; [|exact Hs]. cbn [fst snd stats log].
    destruct (transform w csv_file j x) as [y|e]; [|simpl; lia].
    destruct (len y) as [n_t|e] eqn:Ly; [|simpl; lia]. cbn [fst snd stats log].
    destruct (to_csv w csv_file j y _) as [[]|e]; [|simpl; lia].
    cbn [fst snd stats log].
    destruct (truthy _); [|simpl; lia]. cbn [fst snd stats log].
    destruct (Hl csv_file j y (stem csv_file) Hc) as (env & d & ->).
    unfold Load.repo_load.
    pose proof (load_raises_loaded_bound int str env d y (stem csv_file)) as B.
    destruct (fst (Load.load_df_to_postgres _ _ _ _ _ _ _ _ _)) as [n_l|e].
    + specialize (B n_l eq_refl). rewrite Ly in B. simpl. simpl in Hs. lia.
    + destruct (is_load_error e); simpl; simpl in Hs; lia.
  - intros ev s _ Hs. exact Hs.
  - intros csv_file detail s _ Hs. exact Hs.
  - auto.
  - simpl. lia.
Qed.

(** The theorem of X21 in the world [Warehouse.stocked] with the port
    [54e2]: [b.csv] fails on its first attempt. *)
Lemma malformed_port_fails_file_stocked :
  fst (process_file (Warehouse.stocked Load.bad_port Load.obliging) "b.csv" 3
         start) = false.
Proof.
  edestruct (malformed_port_fails_file Coercion.decimal Load.show
               Load.bad_port Load.obliging
               (Warehouse.stocked Load.bad_port Load.obliging) "b.csv")
    as (s' & E & _);
    [reflexivity | reflexivity | reflexivity | reflexivity | reflexivity
    | reflexivity | reflexivity | reflexivity | discriminate | | ].
  - apply (le_n_S 0 2), Nat.le_0_l.
  - now rewrite E.
Defined.

(** The theorem of X22 in the world [Warehouse.stocked] with a server
    that cannot be reached: [b.csv] succeeds and loads nothing. *)
Lemma database_failure_never_fails_file_unreachable :
  fst (process_file (Warehouse.stocked Load.bare Load.unreachable) "b.csv" 3
         start) = true.
Proof.
  edestruct (database_failure_never_fails_file Coercion.decimal Load.show
               Load.bare Load.unreachable
               (Warehouse.stocked Load.bare Load.unreachable) "b.csv")
    as (s' & E & _);
    [reflexivity | reflexivity | reflexivity | reflexivity | reflexivity
    | reflexivity | reflexivity | | ].
  - apply (le_n_S 0 2), Nat.le_0_l.
  - now rewrite E.
Defined.

(** The theorem of X23 in the world [Warehouse.stocked] with a server
    that accepts everything. *)
Lemma run_loads_no_more_than_transformed_stocked :
  rows_loaded (stats (snd (run (Warehouse.stocked Load.bare Load.obliging))))
  <= rows_transformed
       (stats (snd (run (Warehouse.stocked Load.bare Load.obliging)))).
Proof.
  apply (run_loads_no_more_than_transformed Coercion.decimal Load.show
           (Warehouse.stocked Load.bare Load.obliging)).
  intros f j df t _. exists Load.bare, Load.obliging. reflexivity.
Defined.

(** The theorem of X17 for two rows and a server that cannot be
    reached: the engine that was created is disposed of. *)
Lemma load_disposes_engine_it_created_unreachable :
  exists l,
    snd (Load.load_df_to_postgres Coercion.decimal Load.show Load.bare
           Load.unreachable (PyFrame Load.two_rows) "orders" "append" 5000
           true)
    = l ++ [Load.EngineDisposed].
Proof.
  apply (load_disposes_engine_it_created Coercion.decimal Load.show Load.bare
           Load.unreachable (PyFrame Load.two_rows) "orders" "append" 5000
           true).
  reflexivity.
Defined.

(** The theorem of X19 for two rows and a server that accepts
    everything: the two rows returned were written to [orders]. *)
Lemma load_reports_what_it_wrote_obliging :
  In (Load.Written "orders" 2)
     (snd (Load.load_df_to_postgres Coercion.decimal Load.show Load.bare
             Load.obliging (PyFrame Load.two_rows) "orders" "append" 5000
             true)).
Proof.
  apply (load_reports_what_it_wrote Coercion.decimal Load.show Load.bare
           Load.obliging Load.two_rows "orders" "append" 5000 true).
  - reflexivity.
  - apply (le_n_S 0 1), Nat.le_0_l.
Defined.
